(** * FFFrameReader: the stream cursor of [FFFRStream.cpp] and the frame
      accessors of [FFFRFrame.cpp], embedded in Rocq.

    Integers of the C++ code are [Z] with the two's-complement wrap written
    out; the demuxer and the decoder of FFmpeg are an interface
    ([FFmpeg]) over an abstract state; loops that the code writes as
    [while (true)] take a step budget and report [OutOfFuel] when it is
    used up. *)

From Stdlib Require Import ZArith Lia Bool List.
From Stdlib Require Import Floats.
From stdpp Require Import base list.
Import ListNotations.

Local Open Scope Z_scope.

(* ===================================================================== *)
(** ** Machine integers *)
(* ===================================================================== *)

Definition INT64_MIN : Z := - 2 ^ 63.
Definition INT64_MAX : Z := 2 ^ 63 - 1.

(** Result of an [int64_t] operation: reduced to [-2^63, 2^63). *)
Definition wrap64 (z : Z) : Z := (z + 2 ^ 63) mod 2 ^ 64 - 2 ^ 63.

(** Result of a [uint32_t] operation. *)
Definition wrapu32 (z : Z) : Z := z mod 2 ^ 32.

(** [std::abs] on [int64_t]. *)
Definition abs64 (z : Z) : Z := wrap64 (Z.abs z).

(* ===================================================================== *)
(** ** libavutil: rationals, constants and the rescale primitive *)
(* ===================================================================== *)

Record AVRational : Type := av_make_q { num : Z; den : Z }.

Definition av_inv_q (q : AVRational) : AVRational :=
  av_make_q (den q) (num q).

Definition AV_TIME_BASE : Z := 1000000.
Definition AV_NOPTS_VALUE : Z := INT64_MIN.
Definition AVERROR_EOF : Z := -541478725.
Definition AVERROR_EAGAIN : Z := -11.      (* AVERROR(EAGAIN) where EAGAIN is 11 *)
Definition AVSEEK_FLAG_BACKWARD : Z := 1.
Definition AVSEEK_FLAG_FRAME : Z := 8.
Definition AV_CODEC_CAP_DELAY : Z := 32.

(** [av_rescale_rnd a b c AV_ROUND_NEAR_INF] of libavutil/mathematics.c, the
    external primitive behind every conversion of the stream: [a * b / c]
    rounded to nearest with halves away from zero, [INT64_MIN] when the
    arguments are rejected or the result does not fit; a negative [a] is
    rescaled by magnitude and negated. *)
Definition rescale_pos (a b c : Z) : Z :=
  let r := (a * b + c / 2) / c in
  if INT64_MAX <? r then INT64_MIN else r.

Definition av_rescale_rnd_near_inf (a b c : Z) : Z :=
  if (c <=? 0) || (b <? 0) then INT64_MIN
  else if a <? 0 then wrap64 (- rescale_pos (- Z.max a (- INT64_MAX)) b c)
  else rescale_pos a b c.

(** [av_rescale_q a bq cq]: [a * bq / cq]. *)
Definition av_rescale_q (a : Z) (bq cq : AVRational) : Z :=
  let b := num bq * den cq in
  let c := num cq * den bq in
  av_rescale_rnd_near_inf a b c.

(** [av_q2d]: a rational as a [double]; [double_of_int] is the (exact)
    conversion of a 32-bit integer. *)
Definition double_of_int (z : Z) : float :=
  if z <? 0 then PrimFloat.opp (PrimFloat.of_uint63 (Uint63.of_Z (- z)))
  else PrimFloat.of_uint63 (Uint63.of_Z z).

Definition av_q2d (q : AVRational) : float :=
  PrimFloat.div (double_of_int (num q)) (double_of_int (den q)).

(* ===================================================================== *)
(** ** Data carried by the FFmpeg structures the code reads *)
(* ===================================================================== *)

Record AVPacket : Type := mkPacket {
  stream_index : Z;
  pts : Z;
  dts : Z
}.

Record AVFrame : Type := mkAVFrame {
  width : Z;
  height : Z;
  best_effort_timestamp : Z
}.

(** [m_formatContext->streams[m_index]] with [codecpar]'s geometry. *)
Record AVStream : Type := mkAVStream {
  time_base : AVRational;
  r_frame_rate : AVRational;
  start_time : Z;
  first_dts : Z;
  nb_frames : Z;
  duration : Z;
  display_aspect_ratio : AVRational;
  codecpar_width : Z;
  codecpar_height : Z
}.

(** The fields of [m_codecContext] read by [getCodecDelay]. *)
Record AVCodecContext : Type := mkCodec {
  capabilities : Z;
  delay : Z;
  has_b_frames : Z
}.

(* ===================================================================== *)
(** ** Frame (FFFRFrame.cpp) *)
(* ===================================================================== *)

(** [m_frame] is the owning [FramePtr]: [None] is [nullptr]. *)
Record Frame : Type := mkFrame {
  m_frame : option AVFrame;
  m_timeStamp : Z;
  m_frameNum : Z
}.

Definition Frame_getTimeStamp (f : Frame) : Z := m_timeStamp f.
Definition Frame_getFrameNumber (f : Frame) : Z := m_frameNum f.

(** [m_frame->width] read through the pointer; a null pointer has no width. *)
Definition Frame_getWidth (f : Frame) : option Z :=
  match m_frame f with
  | Some a => Some (wrapu32 (width a))
  | None => None
  end.

Definition Frame_getHeight (f : Frame) : option Z :=
  match m_frame f with
  | Some a => Some (wrapu32 (height a))
  | None => None
  end.

Definition Frame_getAspectRatio (f : Frame) : option float :=
  match Frame_getWidth f, Frame_getHeight f with
  | Some w, Some h => Some (PrimFloat.div (double_of_int w) (double_of_int h))
  | _, _ => None
  end.

(** The two alternatives of [variant<bool, shared_ptr<Frame>>];
    [index() == 0] is [V_bool]. *)
Inductive variant (A : Type) : Type :=
  | V_bool (b : bool)
  | V_value (a : A).
Arguments V_bool {A} b.
Arguments V_value {A} a.

Definition index {A} (v : variant A) : Z :=
  match v with V_bool _ => 0 | V_value _ => 1 end.

(** [make_shared<Frame>()]: the default-constructed frame that [popFrame]
    leaves in a released slot.  Its [FramePtr] is null; the class declaration
    (FFFRFrame.h) is not among the sources, and its two numbers are taken as
    zero-initialised.  Nothing below depends on their value. *)
Definition Frame_default : Frame := mkFrame None 0 0.

(* ===================================================================== *)
(** ** Results of bounded runs *)
(* ===================================================================== *)

Inductive fault : Type :=
  | OutOfFuel     (* the step budget of a [while (true)] loop ran out *)
  | OutOfBounds.  (* a vector was indexed past its size               *)

Inductive res (A : Type) : Type :=
  | Ret (a : A)
  | Fault (e : fault).
Arguments Ret {A} a.
Arguments Fault {A} e.

Definition bind {A B} (m : res A) (k : A -> res B) : res B :=
  match m with
  | Ret a => k a
  | Fault e => Fault e
  end.

Declare Scope res_scope.
Delimit Scope res_scope with res.
Notation "'let*' p := m 'in' k" := (bind m (fun p => k))
  (at level 10, p pattern, m at level 100, k at level 200) : res_scope.
Local Open Scope res_scope.

(* ===================================================================== *)
(** ** The demuxer and decoder as an interface *)
(* ===================================================================== *)

(** Every libavformat/libavcodec call the stream makes, as a function on the
    state [World] of the opened container and decoder.  Return codes are the
    C ones: negative is failure. *)
Class FFmpeg (World : Type) : Type := {
  av_read_frame : World -> Z * AVPacket * World;
  avcodec_send_packet : World -> AVPacket -> Z * World;
  av_frame_alloc : World -> option AVFrame * World;
  avcodec_receive_frame : World -> AVFrame -> Z * AVFrame * World;
  av_frame_unref : AVFrame -> AVFrame;
  avcodec_flush_buffers : World -> World;
  (* stream index, min_ts, ts, max_ts, flags *)
  avformat_seek_file : World -> Z -> Z -> Z -> Z -> Z -> Z * World;
  (* stream index, timestamp, flags *)
  av_seek_frame : World -> Z -> Z -> Z -> Z * World
}.

(** The value a run returned, if it returned. *)
Definition returned {A S} (r : res (A * S)) : option A :=
  match r with
  | Ret (a, _) => Some a
  | Fault _ => None
  end.

(** One [avformat_seek_file] call as the demuxer saw it. *)
Record SeekCall : Type := mkSeekCall { sc_ts : Z; sc_flags : Z }.

(* ===================================================================== *)
(** ** Stream (FFFRStream.cpp) *)
(* ===================================================================== *)

Record Stream (World : Type) : Type := mkStream {
  m_bufferLength : Z;               (* uint32_t *)
  m_bufferPing : list Frame;
  m_bufferPong : list Frame;
  m_bufferPingHead : nat;
  m_frameSeekSupported : bool;
  m_index : Z;
  fmt_duration : Z;                 (* m_formatContext->duration *)
  fmt_stream : AVStream;            (* m_formatContext->streams[m_index] *)
  m_codecContext : AVCodecContext;
  m_startTimeStamp : Z;
  m_totalFrames : Z;
  m_totalDuration : Z;
  m_io : World;                     (* demuxer position and decoder state *)
  seek_trace : list SeekCall        (* ghost: avformat_seek_file calls, newest first *)
}.
Arguments mkStream {World}.
Arguments m_bufferLength {World} s.
Arguments m_bufferPing {World} s.
Arguments m_bufferPong {World} s.
Arguments m_bufferPingHead {World} s.
Arguments m_frameSeekSupported {World} s.
Arguments m_index {World} s.
Arguments fmt_duration {World} s.
Arguments fmt_stream {World} s.
Arguments m_codecContext {World} s.
Arguments m_startTimeStamp {World} s.
Arguments m_totalFrames {World} s.
Arguments m_totalDuration {World} s.
Arguments m_io {World} s.
Arguments seek_trace {World} s.

Section StreamModel.
Context {World : Type} `{FF : FFmpeg World}.

Abbreviation Stream := (Stream World).

(** *** Field updates *)

Definition with_ping (l : list Frame) (s : Stream) : Stream :=
  mkStream (m_bufferLength s) l (m_bufferPong s) (m_bufferPingHead s)
    (m_frameSeekSupported s) (m_index s) (fmt_duration s) (fmt_stream s)
    (m_codecContext s) (m_startTimeStamp s) (m_totalFrames s)
    (m_totalDuration s) (m_io s) (seek_trace s).

Definition with_pong (l : list Frame) (s : Stream) : Stream :=
  mkStream (m_bufferLength s) (m_bufferPing s) l (m_bufferPingHead s)
    (m_frameSeekSupported s) (m_index s) (fmt_duration s) (fmt_stream s)
    (m_codecContext s) (m_startTimeStamp s) (m_totalFrames s)
    (m_totalDuration s) (m_io s) (seek_trace s).

Definition with_head (h : nat) (s : Stream) : Stream :=
  mkStream (m_bufferLength s) (m_bufferPing s) (m_bufferPong s) h
    (m_frameSeekSupported s) (m_index s) (fmt_duration s) (fmt_stream s)
    (m_codecContext s) (m_startTimeStamp s) (m_totalFrames s)
    (m_totalDuration s) (m_io s) (seek_trace s).

Definition with_seekSupported (b : bool) (s : Stream) : Stream :=
  mkStream (m_bufferLength s) (m_bufferPing s) (m_bufferPong s)
    (m_bufferPingHead s) b (m_index s) (fmt_duration s) (fmt_stream s)
    (m_codecContext s) (m_startTimeStamp s) (m_totalFrames s)
    (m_totalDuration s) (m_io s) (seek_trace s).

Definition with_io (w : World) (s : Stream) : Stream :=
  mkStream (m_bufferLength s) (m_bufferPing s) (m_bufferPong s)
    (m_bufferPingHead s) (m_frameSeekSupported s) (m_index s)
    (fmt_duration s) (fmt_stream s) (m_codecContext s)
    (m_startTimeStamp s) (m_totalFrames s) (m_totalDuration s) w
    (seek_trace s).

Definition with_trace (t : list SeekCall) (s : Stream) : Stream :=
  mkStream (m_bufferLength s) (m_bufferPing s) (m_bufferPong s)
    (m_bufferPingHead s) (m_frameSeekSupported s) (m_index s)
    (fmt_duration s) (fmt_stream s) (m_codecContext s)
    (m_startTimeStamp s) (m_totalFrames s) (m_totalDuration s) (m_io s) t.

Definition with_probes (start frames dur : Z) (s : Stream) : Stream :=
  mkStream (m_bufferLength s) (m_bufferPing s) (m_bufferPong s)
    (m_bufferPingHead s) (m_frameSeekSupported s) (m_index s)
    (fmt_duration s) (fmt_stream s) (m_codecContext s)
    start frames dur (m_io s) (seek_trace s).

(** *** Geometry *)

Definition Stream_getWidth (s : Stream) : Z :=
  wrapu32 (codecpar_width (fmt_stream s)).

Definition Stream_getHeight (s : Stream) : Z :=
  wrapu32 (codecpar_height (fmt_stream s)).

Definition Stream_getAspectRatio (s : Stream) : float :=
  if negb (num (display_aspect_ratio (fmt_stream s)) =? 0)
  then av_q2d (display_aspect_ratio (fmt_stream s))
  else PrimFloat.div (double_of_int (Stream_getWidth s))
                     (double_of_int (Stream_getHeight s)).

(** *** TimeMap *)

Definition timeToTimeStamp (s : Stream) (time : Z) : Z :=
  wrap64 (m_startTimeStamp s +
          av_rescale_q time (av_make_q 1 AV_TIME_BASE) (time_base (fmt_stream s))).

Definition timeStampToTime (s : Stream) (timeStamp : Z) : Z :=
  av_rescale_q (wrap64 (timeStamp - m_startTimeStamp s))
    (time_base (fmt_stream s)) (av_make_q 1 AV_TIME_BASE).

Definition frameToTimeStamp (s : Stream) (frame : Z) : Z :=
  wrap64 (m_startTimeStamp s +
          av_rescale_q frame (av_inv_q (r_frame_rate (fmt_stream s)))
            (time_base (fmt_stream s))).

Definition timeStampToFrame (s : Stream) (timeStamp : Z) : Z :=
  av_rescale_q (wrap64 (timeStamp - m_startTimeStamp s))
    (r_frame_rate (fmt_stream s)) (av_inv_q (time_base (fmt_stream s))).

Definition frameToTime (s : Stream) (frame : Z) : Z :=
  av_rescale_q frame (av_make_q AV_TIME_BASE 1) (r_frame_rate (fmt_stream s)).

Definition timeToFrame (s : Stream) (time : Z) : Z :=
  av_rescale_q time (av_make_q 1 AV_TIME_BASE)
    (av_inv_q (r_frame_rate (fmt_stream s))).

Definition getFrameTime (s : Stream) : Z := frameToTime s 1.
Definition getTotalFrames (s : Stream) : Z := m_totalFrames s.
Definition getDuration (s : Stream) : Z := m_totalDuration s.

(** *** DecodePump *)

(** The two nested [while (true)] loops of [decodeNextBlock]; each
    iteration of either costs one unit of [fuel].  [draining] tells the
    inner (receive) loop from the outer (read) loop and [frame] is the
    local [FramePtr]. *)
Fixpoint decodeLoop (fuel : nat) (draining : bool) (frame : option AVFrame)
    (s : Stream) : res (bool * Stream) :=
  match fuel with
  | O => Fault OutOfFuel
  | S fuel' =>
    if draining then
      let alloc :=
        match frame with
        | Some f => (Some f, m_io s)
        | None => av_frame_alloc (m_io s)
        end in
      match alloc with
      | (None, w1) => Ret (false, with_io w1 s)
      | (Some f, w1) =>
        let '(ret, f', w2) := avcodec_receive_frame w1 f in
        let s2 := with_io w2 s in
        if ret <? 0 then
          if (ret =? AVERROR_EAGAIN) || (ret =? AVERROR_EOF) then
            if m_bufferLength s2 <=? Z.of_nat (length (m_bufferPong s2))
            then Ret (true, s2)
            else decodeLoop fuel' false (Some (av_frame_unref f')) s2
          else Ret (false, s2)
        else
          let timeStamp := timeStampToTime s2 (best_effort_timestamp f') in
          let frameNum := timeStampToFrame s2 (best_effort_timestamp f') in
          decodeLoop fuel' true None
            (with_pong (m_bufferPong s2 ++ [mkFrame (Some f') timeStamp frameNum]) s2)
      end
    else
      let '(ret, packet, w1) := av_read_frame (m_io s) in
      let s1 := with_io w1 s in
      if ret <? 0 then
        if negb (ret =? AVERROR_EOF) then Ret (false, s1) else Ret (true, s1)
      else if m_index s1 =? stream_index packet then
        let '(ret2, w2) := avcodec_send_packet w1 packet in
        let s2 := with_io w2 s1 in
        if ret2 <? 0 then Ret (false, s2)
        else decodeLoop fuel' true frame s2
      else decodeLoop fuel' false frame s1
  end.

Definition decodeNextBlock (fuel : nat) (s : Stream) : res (bool * Stream) :=
  decodeLoop fuel false None (with_pong [] s).

(** *** RingCursor *)

(** [m_bufferPing[m_bufferPingHead]]. *)
Definition pingFront (s : Stream) : res (variant Frame * Stream) :=
  match m_bufferPing s !! m_bufferPingHead s with
  | Some f => Ret (V_value f, s)
  | None => Fault OutOfBounds
  end.

Definition peekNextFrame (fuel : nat) (s : Stream) : res (variant Frame * Stream) :=
  if Nat.eqb (m_bufferPingHead s) (length (m_bufferPing s)) then
    let* (ok, s1) := decodeNextBlock fuel s in
    if negb ok then Ret (V_bool false, s1)
    else
      let s2 := with_pong []
                  (with_head 0%nat
                     (with_pong (m_bufferPing s1)
                        (with_ping (m_bufferPong s1) s1))) in
      if Nat.eqb (length (m_bufferPing s2)) 0 then Ret (V_bool false, s2)
      else pingFront s2
  else pingFront s.

Definition popFrame (s : Stream) : Stream :=
  if (length (m_bufferPing s) <=? m_bufferPingHead s)%nat then s
  else with_head (S (m_bufferPingHead s))
         (with_ping (<[m_bufferPingHead s := Frame_default]> (m_bufferPing s)) s).

Definition getNextFrame (fuel : nat) (s : Stream) : res (variant Frame * Stream) :=
  let* (ret, s1) := peekNextFrame fuel s in
  if index ret =? 0 then Ret (V_bool false, s1)
  else Ret (ret, popFrame s1).

(** [for (int64_t j = start; j < i; j++)] of [getNextFrameSequence], run
    for its [i - start] iterations. *)
Fixpoint skipFrames (fuel : nat) (n : nat) (s : Stream) : res (bool * Stream) :=
  match n with
  | O => Ret (true, s)
  | S n' =>
    let* (err, s1) := peekNextFrame fuel s in
    if index err =? 0 then Ret (false, s1)
    else skipFrames fuel n' (popFrame s1)
  end.

(** The range-for over [frameSequence] with its locals [start] and [ret]. *)
Fixpoint sequenceLoop (fuel : nat) (frameSequence : list Z) (start : Z)
    (ret : list Frame) (s : Stream) : res (variant (list Frame) * Stream) :=
  match frameSequence with
  | [] => Ret (V_value ret, s)
  | i :: rest =>
    if i <? start then Ret (V_bool false, s)
    else
      let* (ok, s1) := skipFrames fuel (Z.to_nat (i - start)) s in
      if negb ok then Ret (V_bool false, s1)
      else
        let* (frame, s2) := getNextFrame fuel s1 in
        match frame with
        | V_bool _ => Ret (V_bool false, s2)
        | V_value f => sequenceLoop fuel rest (wrap64 (i + 1)) (ret ++ [f]) s2
        end
  end.

Definition getNextFrameSequence (fuel : nat) (frameSequence : list Z)
    (s : Stream) : res (variant (list Frame) * Stream) :=
  sequenceLoop fuel frameSequence 0 [] s.

(** *** Seeker *)

(** [avformat_seek_file] on the stream's demuxer; the ghost trace records
    the call. *)
Definition demuxSeek (s : Stream) (min_ts ts max_ts flags : Z) : Z * Stream :=
  let '(err, w) := avformat_seek_file (m_io s) (m_index s) min_ts ts max_ts flags in
  (err, with_trace (mkSeekCall ts flags :: seek_trace s) (with_io w s)).

Definition flushDecoder (s : Stream) : Stream :=
  with_io (avcodec_flush_buffers (m_io s)) s.

(** [m_bufferPing.resize(0); m_bufferPingHead = 0;] *)
Definition clearPing (s : Stream) : Stream :=
  with_head 0%nat (with_ping [] s).

(** Which of the three branches of [seekInternal]/[seekFrameInternal] the
    guards select; the guards only read the buffer. *)
Inductive tier : Type := InBuffer | ShortForward | DemuxerSeek.

Definition timeTier (s : Stream) (timeStamp : Z) : tier :=
  match last (m_bufferPing s) with
  | None => DemuxerSeek
  | Some back =>
    if match m_bufferPing s !! m_bufferPingHead s with
       | Some front =>
           (Frame_getTimeStamp front <=? timeStamp) &&
           (timeStamp <=? Frame_getTimeStamp back)
       | None => false
       end
    then InBuffer
    else if (Frame_getTimeStamp back <? timeStamp) &&
            (timeStamp <=? wrap64 (Frame_getTimeStamp back + frameToTime s 25))
    then ShortForward
    else DemuxerSeek
  end.

Definition frameTier (s : Stream) (frame : Z) : tier :=
  match last (m_bufferPing s) with
  | None => DemuxerSeek
  | Some back =>
    if match m_bufferPing s !! m_bufferPingHead s with
       | Some front =>
           (Frame_getFrameNumber front <=? frame) &&
           (frame <=? Frame_getFrameNumber back)
       | None => false
       end
    then InBuffer
    else if (Frame_getFrameNumber back <? frame) &&
            (frame <=? wrap64 (Frame_getFrameNumber back +
                               wrapu32 (m_bufferLength s * 2)))
    then ShortForward
    else DemuxerSeek
  end.

(** "Dump all frames before requested one" of [seekInternal]. *)
Fixpoint seekWalk (fuel : nat) (timeStamp : Z) (s : Stream) : res (bool * Stream) :=
  match fuel with
  | O => Fault OutOfFuel
  | S fuel' =>
    let* (ret, s1) := peekNextFrame fuel s in
    match ret with
    | V_bool _ => Ret (false, s1)
    | V_value frame =>
      if timeStamp <=? Frame_getTimeStamp frame then Ret (true, s1)
      else if (Frame_getTimeStamp frame <? timeStamp) &&
              (timeStamp <? wrap64 (Frame_getTimeStamp frame + getFrameTime s1))
      then Ret (true, s1)
      else seekWalk fuel' timeStamp (popFrame s1)
    end
  end.

Fixpoint seekInternal (fuel : nat) (timeStamp : Z) (recursed : bool)
    (s : Stream) : res (bool * Stream) :=
  match fuel with
  | O => Fault OutOfFuel
  | S fuel' =>
    match timeTier s timeStamp with
    | InBuffer => seekWalk fuel timeStamp s
    | ShortForward =>
      let* (r, s1) := peekNextFrame fuel (clearPing s) in
      if index r =? 0 then Ret (false, s1)
      else seekInternal fuel' timeStamp true s1
    | DemuxerSeek =>
      if recursed then Ret (false, s)
      else
        let s1 := flushDecoder s in
        let localTimeStamp :=
          wrap64 (timeToTimeStamp s1 timeStamp + m_startTimeStamp s1) in
        let '(err, s2) := demuxSeek s1 INT64_MIN localTimeStamp localTimeStamp 0 in
        if err <? 0 then Ret (false, s2)
        else
          let* (r, s3) := peekNextFrame fuel (clearPing s2) in
          if index r =? 0 then Ret (false, s3)
          else seekInternal fuel' timeStamp true s3
    end
  end.

Definition seek (fuel : nat) (timeStamp : Z) (s : Stream) : res (bool * Stream) :=
  seekInternal fuel timeStamp false s.

(** The walk shared by the in-buffer and the forward-decode branch of
    [seekFrameInternal]. *)
Fixpoint seekFrameWalk (fuel : nat) (frame : Z) (s : Stream) : res (bool * Stream) :=
  match fuel with
  | O => Fault OutOfFuel
  | S fuel' =>
    let* (ret, s1) := peekNextFrame fuel s in
    match ret with
    | V_bool _ => Ret (false, s1)
    | V_value f =>
      if frame <=? Frame_getFrameNumber f then Ret (true, s1)
      else seekFrameWalk fuel' frame (popFrame s1)
    end
  end.

Fixpoint seekFrameInternal (fuel : nat) (frame : Z) (recursed : bool)
    (s : Stream) : res (bool * Stream) :=
  match fuel with
  | O => Fault OutOfFuel
  | S fuel' =>
    match frameTier s frame with
    | InBuffer | ShortForward => seekFrameWalk fuel frame s
    | DemuxerSeek =>
      if recursed || negb (m_frameSeekSupported s) then
        if m_frameSeekSupported s then
          seek fuel (frameToTime s frame) (with_seekSupported false s)
        else if recursed then Ret (false, s)
        else seek fuel (frameToTime s frame) s
      else
        let s1 := flushDecoder s in
        let frameInternal :=
          wrap64 (frame + timeStampToFrame s1 (m_startTimeStamp s1)) in
        let '(err, s2) :=
          demuxSeek s1 INT64_MIN frameInternal frameInternal AVSEEK_FLAG_FRAME in
        if err <? 0 then
          let s3 := with_seekSupported false s2 in
          seek fuel (frameToTime s3 frame) s3
        else
          let* (r, s3) := peekNextFrame fuel (clearPing s2) in
          if index r =? 0 then Ret (false, s3)
          else seekFrameInternal fuel' frame true s3
    end
  end.

Definition seekFrame (fuel : nat) (frame : Z) (s : Stream) : res (bool * Stream) :=
  seekFrameInternal fuel frame false s.

(** *** Prober *)

Definition wrap32 (z : Z) : Z := (z + 2 ^ 31) mod 2 ^ 32 - 2 ^ 31.

Definition getCodecDelay (s : Stream) : Z :=
  Z.max
    (wrap32 ((if negb (Z.land (capabilities (m_codecContext s)) AV_CODEC_CAP_DELAY =? 0)
              then delay (m_codecContext s) else 0)
             + has_b_frames (m_codecContext s)))
    1.

(** The timestamp a packet contributes to the start-time probe:
    [pts], or [dts] when [pts] is not set. *)
Definition startCandidate (packet : AVPacket) : Z :=
  if pts packet =? AV_NOPTS_VALUE then dts packet else pts packet.

Fixpoint startTimeLoop (fuel : nat) (i maxPackets startTimeStamp startDts : Z)
    (s : Stream) : res (Z * Stream) :=
  match fuel with
  | O => Fault OutOfFuel
  | S fuel' =>
    if i <? maxPackets then
      let '(ret, packet, w) := av_read_frame (m_io s) in
      let s1 := with_io w s in
      if ret <? 0 then Ret (0, s1)
      else if stream_index packet =? m_index s1 then
        let pts' := startCandidate packet in
        let startTimeStamp' :=
          if negb (pts' =? AV_NOPTS_VALUE) &&
             ((pts' <? startTimeStamp) || (startTimeStamp =? AV_NOPTS_VALUE))
          then pts' else startTimeStamp in
        startTimeLoop fuel' (i + 1) maxPackets startTimeStamp' startDts s1
      else startTimeLoop fuel' i maxPackets startTimeStamp startDts s1
    else
      let '(_, w) := av_seek_frame (m_io s) (m_index s) startDts AVSEEK_FLAG_BACKWARD in
      Ret ((if negb (startTimeStamp =? AV_NOPTS_VALUE) then startTimeStamp else 0),
           with_io w s)
  end.

Definition getStreamStartTime (fuel : nat) (s : Stream) : res (Z * Stream) :=
  let stream := fmt_stream s in
  if negb (start_time stream =? AV_NOPTS_VALUE) then Ret (start_time stream, s)
  else
    let s1 := flushDecoder s in
    let startDts :=
      if negb (first_dts stream =? AV_NOPTS_VALUE)
      then Z.min 0 (first_dts stream) else 0 in
    let '(err, w) := av_seek_frame (m_io s1) (m_index s1) startDts AVSEEK_FLAG_BACKWARD in
    let s2 := with_io w s1 in
    if err <? 0 then Ret (0, s2)
    else startTimeLoop fuel 0 (getCodecDelay s2) AV_NOPTS_VALUE startDts s2.

(** The timestamp a packet contributes to the end-of-stream scan, as the
    scan computes it: [found = packet.dts; if (found != AV_NOPTS_VALUE)
    found = packet.pts;]. *)
Definition scanCandidate (packet : AVPacket) : Z :=
  let found := dts packet in
  if negb (found =? AV_NOPTS_VALUE) then pts packet else found.

(** [while (av_read_frame(...) >= 0)] of [getStreamFrames] and of
    [getStreamDuration] (the two loops are the same text). *)
Fixpoint scanLoop (fuel : nat) (foundTimeStamp : Z) (s : Stream) : res (Z * Stream) :=
  match fuel with
  | O => Fault OutOfFuel
  | S fuel' =>
    let '(ret, packet, w) := av_read_frame (m_io s) in
    let s1 := with_io w s in
    if 0 <=? ret then
      let foundTimeStamp' :=
        if stream_index packet =? m_index s1 then
          let found := scanCandidate packet in
          if foundTimeStamp <? found then found else foundTimeStamp
        else foundTimeStamp in
      scanLoop fuel' foundTimeStamp' s1
    else Ret (foundTimeStamp, s1)
  end.

(** Seek to the last key frame, scan to the end, seek back to the start:
    [None] when the first seek fails. *)
Definition scanLastTimeStamp (fuel : nat) (s : Stream) : res (option Z * Stream) :=
  let s1 := flushDecoder s in
  let '(err, w) :=
    av_seek_frame (m_io s1) (m_index s1) (frameToTimeStamp s1 (2 ^ 29))
      AVSEEK_FLAG_BACKWARD in
  let s2 := with_io w s1 in
  if err <? 0 then Ret (None, s2)
  else
    let* (found, s3) := scanLoop fuel (m_startTimeStamp s2) s2 in
    let '(_, w') := av_seek_frame (m_io s3) (m_index s3) 0 0 in
    Ret (Some found, with_io w' s3).

Definition getStreamFrames (fuel : nat) (s : Stream) : res (Z * Stream) :=
  let stream := fmt_stream s in
  let fromFormat :=
    if 0 <? fmt_duration s then
      let frames :=
        av_rescale_q (fmt_duration s) (r_frame_rate stream)
          (av_inv_q (av_make_q 1 AV_TIME_BASE)) in
      if 1 <? abs64 (wrap64 (frames - nb_frames stream))
      then Some (wrap64 (frames - timeStampToFrame s (wrap64 (m_startTimeStamp s * 2))))
      else None
    else None in
  match fromFormat with
  | Some frames => Ret (frames, s)
  | None =>
    if 0 <? nb_frames stream then
      Ret (wrap64 (nb_frames stream -
                   timeStampToFrame s (wrap64 (m_startTimeStamp s * 2))), s)
    else if 0 <? duration stream then
      Ret (timeStampToFrame s (duration stream), s)
    else
      let* (found, s1) := scanLastTimeStamp fuel s in
      match found with
      | None => Ret (0, s1)
      | Some foundTimeStamp =>
          Ret (wrap64 (1 + timeStampToFrame s1 foundTimeStamp), s1)
      end
  end.

Definition getStreamDuration (fuel : nat) (s : Stream) : res (Z * Stream) :=
  let stream := fmt_stream s in
  if 0 <? fmt_duration s then
    Ret (wrap64 (fmt_duration s -
                 timeStampToTime s (wrap64 (m_startTimeStamp s * 2))), s)
  else if 0 <? duration stream then
    Ret (timeStampToTime s (duration stream), s)
  else
    let* (found, s1) := scanLastTimeStamp fuel s in
    match found with
    | None => Ret (0, s1)
    | Some foundTimeStamp =>
        Ret (wrap64 (timeStampToTime s1 foundTimeStamp + frameToTime s1 1), s1)
    end.

(** Modelled from the spec: the member initialisers of the class
    declaration (FFFRStream.h is not among the sources): the buffers start
    empty with the head at 0 and [frame_seek_supported] "starts true".  The
    constructor body then runs the three probes in the order of the
    source. *)
Definition Stream_new (fuel : nat) (formatDuration : Z) (stream : AVStream)
    (streamID : Z) (codec : AVCodecContext) (bufferLength : Z) (w : World)
    : res Stream :=
  let s0 := mkStream bufferLength [] [] 0%nat true streamID formatDuration
              stream codec 0 0 0 w [] in
  let* (start, s1) := getStreamStartTime fuel s0 in
  let s1' := with_probes start (m_totalFrames s1) (m_totalDuration s1) s1 in
  let* (frames, s2) := getStreamFrames fuel s1' in
  let s2' := with_probes (m_startTimeStamp s2) frames (m_totalDuration s2) s2 in
  let* (dur, s3) := getStreamDuration fuel s2' in
  Ret (with_probes (m_startTimeStamp s3) (m_totalFrames s3) dur s3).

End StreamModel.

(* ===================================================================== *)
(** ** The operations as the specification words them *)
(* ===================================================================== *)

Section SpecSide.
Context {World : Type} `{FF : FFmpeg World}.

(** "[get_next]: equivalent to [peek_next] followed by, on a frame result,
    [pop]"; a non-frame result is handed on as it is. *)
Definition get_next_spec (fuel : nat) (s : Stream World)
    : res (variant Frame * Stream World) :=
  let* (r, s1) := peekNextFrame fuel s in
  match r with
  | V_value f => Ret (V_value f, popFrame s1)
  | V_bool b => Ret (V_bool b, s1)
  end.

(** [n] successive [get_next] calls, collecting the frames; stops at the
    first non-frame result. *)
Fixpoint readFrames (fuel : nat) (n : nat) (s : Stream World)
    : res (variant (list Frame) * Stream World) :=
  match n with
  | O => Ret (V_value [], s)
  | S n' =>
    let* (r, s1) := getNextFrame fuel s in
    match r with
    | V_bool _ => Ret (V_bool false, s1)
    | V_value f =>
      let* (rs, s2) := readFrames fuel n' s1 in
      match rs with
      | V_bool _ => Ret (V_bool false, s2)
      | V_value fs => Ret (V_value (f :: fs), s2)
      end
    end
  end.

(** The accumulator of [get_sequence]: [start] begins at 0 and becomes
    [i + 1] after each element; the list is accepted when no element is
    below the accumulator it meets. *)
Fixpoint ascendingFrom (start : Z) (indices : list Z) : bool :=
  match indices with
  | [] => true
  | i :: rest => (start <=? i) && ascendingFrom (wrap64 (i + 1)) rest
  end.

(** The elements served before the first one that is below its
    accumulator. *)
Fixpoint acceptedPrefix (start : Z) (indices : list Z) : list Z :=
  match indices with
  | [] => []
  | i :: rest =>
    if i <? start then [] else i :: acceptedPrefix (wrap64 (i + 1)) rest
  end.

(** The accumulator after the whole list: the number of frames an
    accepted list consumes, counted from the cursor. *)
Fixpoint accumulator (start : Z) (indices : list Z) : Z :=
  match indices with
  | [] => start
  | i :: rest => accumulator (i + 1) rest
  end.

(** The frames at the offsets [indices], offsets counted from [start], of
    the run [all] of frames read one by one. *)
Definition pickFrames (start : Z) (all : list Frame) (indices : list Z)
    : list Frame :=
  flat_map (fun i => option_list (all !! Z.to_nat (i - start))) indices.

(** Strictly ascending indices, the first one not negative. *)
Fixpoint strictlyAscending (lower : Z) (indices : list Z) : Prop :=
  match indices with
  | [] => True
  | i :: rest => lower < i /\ strictlyAscending i rest
  end.

(** What no operation of the cursor writes: the configuration of the
    stream and the results of the probes. *)
Definition same_static (s s' : Stream World) : Prop :=
  m_bufferLength s' = m_bufferLength s /\
  m_index s' = m_index s /\
  fmt_duration s' = fmt_duration s /\
  fmt_stream s' = fmt_stream s /\
  m_codecContext s' = m_codecContext s /\
  m_startTimeStamp s' = m_startTimeStamp s /\
  m_totalFrames s' = m_totalFrames s /\
  m_totalDuration s' = m_totalDuration s.

(** The latch and the record of demuxer seeks are as they were. *)
Definition same_seeker (s s' : Stream World) : Prop :=
  m_frameSeekSupported s' = m_frameSeekSupported s /\
  seek_trace s' = seek_trace s.

(** A demuxer seek that asked for a seek by frame index. *)
Definition frame_flagged (c : SeekCall) : bool :=
  negb (Z.land (sc_flags c) AVSEEK_FLAG_FRAME =? 0).

(** [s'] is [s] but for the state of the demuxer and decoder. *)
Definition io_only (s s' : Stream World) : Prop :=
  s' = with_io (m_io s') s.

Definition unflagged (new : list SeekCall) : Prop :=
  Forall (fun c => frame_flagged c = false) new.

(** The demuxer seeks made between [s] and [s']. *)
Definition seeks_since (s s' : Stream World) (new : list SeekCall) : Prop :=
  seek_trace s' = new ++ seek_trace s.

End SpecSide.

(* ===================================================================== *)
(** ** A small container and decoder to run the stream on *)
(* ===================================================================== *)

Module Toy.

(** A file is its packets in order; every packet of the video substream
    decodes to one frame at once.  [read_error_at] makes the read at that
    position fail with [EIO]; [frame_seek] tells whether the demuxer
    accepts [AVSEEK_FLAG_FRAME]. *)
Record World : Type := mkWorld {
  file : list AVPacket;
  pos : nat;
  decoded : list AVFrame;
  pic_width : Z;
  pic_height : Z;
  read_error_at : option nat;
  frame_seek : bool
}.

Definition set_pos (n : nat) (w : World) : World :=
  mkWorld (file w) n (decoded w) (pic_width w) (pic_height w)
    (read_error_at w) (frame_seek w).

Definition set_decoded (q : list AVFrame) (w : World) : World :=
  mkWorld (file w) (pos w) q (pic_width w) (pic_height w)
    (read_error_at w) (frame_seek w).

Definition AVERROR_EIO : Z := -5.
Definition blank : AVFrame := mkAVFrame 0 0 0.

Definition read (w : World) : Z * AVPacket * World :=
  if match read_error_at w with
     | Some n => Nat.eqb n (pos w)
     | None => false
     end
  then (AVERROR_EIO, mkPacket 0 AV_NOPTS_VALUE AV_NOPTS_VALUE, w)
  else
    match file w !! pos w with
    | Some p => (0, p, set_pos (S (pos w)) w)
    | None => (AVERROR_EOF, mkPacket 0 AV_NOPTS_VALUE AV_NOPTS_VALUE, w)
    end.

Definition stamp (p : AVPacket) : Z :=
  if pts p =? AV_NOPTS_VALUE then dts p else pts p.

Definition send (w : World) (p : AVPacket) : Z * World :=
  (0, set_decoded
        (decoded w ++ [mkAVFrame (pic_width w) (pic_height w) (stamp p)]) w).

Definition receive (w : World) (f : AVFrame) : Z * AVFrame * World :=
  match decoded w with
  | fr :: q => (0, fr, set_decoded q w)
  | [] => (AVERROR_EAGAIN, f, w)
  end.

(** Position of the last packet stamped not after [ts]. *)
Fixpoint locate (l : list AVPacket) (ts : Z) : nat :=
  match l with
  | p :: ((q :: _) as rest) => if stamp q <=? ts then S (locate rest ts) else 0%nat
  | _ => 0%nat
  end.

Definition seek_ts (w : World) (ts : Z) : Z * World :=
  if ts <? 0 then (-1, w) else (0, set_pos (locate (file w) ts) w).

Definition seek_file (w : World) (idx min_ts ts max_ts flags : Z) : Z * World :=
  if negb (Z.land flags AVSEEK_FLAG_FRAME =? 0) then
    if frame_seek w then
      if ts <? 0 then (-1, w) else (0, set_pos (Z.to_nat ts) w)
    else (-1, w)
  else seek_ts w ts.

#[global] Instance ffmpeg : FFmpeg World := {
  av_read_frame := read;
  avcodec_send_packet := send;
  av_frame_alloc := fun w => (Some blank, w);
  avcodec_receive_frame := receive;
  av_frame_unref := fun _ => blank;
  avcodec_flush_buffers := set_decoded [];
  avformat_seek_file := seek_file;
  av_seek_frame := fun w idx ts flags => seek_ts w ts
}.

(** A 30 fps stream on a millisecond time base, 720x576. *)
Definition video (dar : AVRational) (nb dur : Z) : AVStream :=
  mkAVStream (av_make_q 1 1000) (av_make_q 30 1) 0 0 nb dur dar 720 576.

Definition codec : AVCodecContext := mkCodec 0 0 0.

Definition packets (l : list Z) : list AVPacket :=
  map (fun t => mkPacket 0 t t) l.

Definition container (l : list AVPacket) : World :=
  mkWorld l 0 [] 720 576 None false.

Definition world (l : list Z) : World := container (packets l).

(** The stream over [w] as the constructor leaves it, [bufferLength] 2. *)
Definition open (st : AVStream) (formatDuration : Z) (w : World) : Stream World :=
  mkStream 2 [] [] 0%nat true 0 formatDuration st codec (start_time st) 0 0 w [].

Definition ms10 : list Z := [0; 33; 67; 100; 133; 167; 200; 233; 267; 300].

(** Ten frames, 30 fps, the frame count declared by the container. *)
Definition stream (l : list Z) : Stream World :=
  open (video (av_make_q 0 1) (Z.of_nat (length l)) 0) 0 (world l).

(** The state a run leaves, [s] itself when the run has no result. *)
Definition after {A} (s : Stream World) (r : res (A * Stream World)) : Stream World :=
  match r with
  | Ret (_, s') => s'
  | Fault _ => s
  end.

(** The stream after a first [seekFrame 0]: the demuxer has rejected the
    seek by frame, the latch is down and the first block is in [ping]. *)
Definition latched : Stream World :=
  after (stream ms10) (seekFrame 20 0 (stream ms10)).

(** A container whose duration (10 s, 300 frames at 30 fps) disagrees with
    the 100 frames its video substream declares. *)
Definition disagreeing : Stream World :=
  open (video (av_make_q 0 1) 100 0) 10000000 (world ms10).

(** A container whose duration (300 frames) agrees to within one frame
    with the 299 frames its video substream declares. *)
Definition agreeing : Stream World :=
  open (video (av_make_q 0 1) 299 0) 10000000 (world ms10).

(** A container without any declared length whose packets carry a [dts]
    but no [pts]. *)
Definition dts_only : Stream World :=
  open (video (av_make_q 0 1) 0 0) 0
    (container (map (fun t => mkPacket 0 AV_NOPTS_VALUE t) [0; 33; 67])).

(** The same with a [start_time] the container does not declare, for the
    start-time probe. *)
Definition dts_only_unprobed : Stream World :=
  open (mkAVStream (av_make_q 1 1000) (av_make_q 30 1) AV_NOPTS_VALUE 0 0 0
          (av_make_q 0 1) 720 576) 0
    (container (map (fun t => mkPacket 0 AV_NOPTS_VALUE t) [0; 33; 67])).

(** 50 fields per second on a 1/25 s time base. *)
Definition coarse : Stream World :=
  open (mkAVStream (av_make_q 1 25) (av_make_q 50 1) 0 0 0 0
          (av_make_q 0 1) 720 576) 0 (world [0; 1; 2; 3]).

(** Anamorphic PAL: 720x576 stored, 16:9 displayed. *)
Definition anamorphic : Stream World :=
  open (video (av_make_q 16 9) 10 0) 0 (world ms10).

(** A file that cannot be read, and a file at its end. *)
Definition unreadable : Stream World :=
  open (video (av_make_q 0 1) 0 0) 0
    (mkWorld (packets ms10) 0 [] 720 576 (Some 0%nat) false).

Definition at_end : Stream World :=
  open (video (av_make_q 0 1) 0 0) 0 (world []).

End Toy.

(* ===================================================================== *)
(** ** What the buffers hold, and how a [FramePtr] owns its frame *)
(* ===================================================================== *)

Section CursorInvariant.
Context {World : Type} `{FF : FFmpeg World}.

(** A frame as [decodeNextBlock] builds it: it owns a decoder frame and
    its two stamps are the conversions of that frame's
    [best_effort_timestamp]. *)
Definition stamped (s : Stream World) (f : Frame) : Prop :=
  exists a, m_frame f = Some a
            /\ m_timeStamp f = timeStampToTime s (best_effort_timestamp a)
            /\ m_frameNum f = timeStampToFrame s (best_effort_timestamp a).

(** The head is inside [ping] or at its end, and every slot from the head
    on holds a decoded frame. *)
Definition cursor_ok (s : Stream World) : Prop :=
  (m_bufferPingHead s <= length (m_bufferPing s))%nat
  /\ Forall (stamped s) (drop (m_bufferPingHead s) (m_bufferPing s)).

(** The frame under the head answers a time seek to [timeStamp]: it is not
    before the target, or the target falls inside its display time. *)
Definition brackets_time (s : Stream World) (timeStamp : Z) (f : Frame) : Prop :=
  timeStamp <= Frame_getTimeStamp f
  \/ (Frame_getTimeStamp f < timeStamp
      /\ timeStamp < wrap64 (Frame_getTimeStamp f + getFrameTime s)).

(** The two requests the Seeker makes of the demuxer: a seek to the
    timestamp of [timeStamp] microseconds, and a seek by frame index. *)
Definition timeSeekCall (s : Stream World) (timeStamp : Z) : SeekCall :=
  mkSeekCall (wrap64 (timeToTimeStamp s timeStamp + m_startTimeStamp s)) 0.

Definition frameSeekCall (s : Stream World) (frame : Z) : SeekCall :=
  mkSeekCall (wrap64 (frame + timeStampToFrame s (m_startTimeStamp s)))
    AVSEEK_FLAG_FRAME.

End CursorInvariant.

(* ===================================================================== *)
(** ** The packets the start-time probe reads *)
(* ===================================================================== *)

Section ProbeReads.
Context {World : Type} `{FF : FFmpeg World}.

(** The outcome of the call of [av_read_frame] that follows [k] earlier
    calls, from the demuxer state [w]: the probe's loop reads on from the
    state its previous read left. *)
Fixpoint readAfter (k : nat) (w : World) : Z * AVPacket * World :=
  match k with
  | O => av_read_frame w
  | S k' => let '(_, _, w') := av_read_frame w in readAfter k' w'
  end.

(** The [startDts] of [getStreamStartTime], and the demuxer state in which
    its loop starts to read: the decoder flushed and the file rewound to
    [startDts]. *)
Definition startDts (s : Stream World) : Z :=
  if negb (first_dts (fmt_stream s) =? AV_NOPTS_VALUE)
  then Z.min 0 (first_dts (fmt_stream s)) else 0.

Definition rewound (s : Stream World) : World :=
  snd (av_seek_frame (m_io (flushDecoder s)) (m_index s) (startDts s)
         AVSEEK_FLAG_BACKWARD).

End ProbeReads.

(** [Frame::FramePtr] (FFFRFrame.cpp): the holder of one [AVFrame*].  A
    frame is named by a number; [freed] lists the frames handed to
    [av_frame_free], latest first. *)
Module FramePtr.

Definition t : Type := option nat.

(** [FramePtr(AVFrame* frame)]. *)
Definition make (frame : option nat) : t := frame.

(** [~FramePtr()]: frees a frame that is held. *)
Definition destroy (p : t) (freed : list nat) : list nat :=
  match p with
  | Some a => a :: freed
  | None => freed
  end.

(** [FramePtr(FramePtr&& other)]: the new holder and what is left of
    [other]. *)
Definition move (other : t) : t * t := (other, None).

(** [operator=(FramePtr& other)] and [operator=(FramePtr&& other)] (the two
    bodies are the same): the assigned holder and what is left of [other].
    The pointer held before is overwritten. *)
Definition assign (this other : t) : t * t := (other, None).

End FramePtr.

(** The ten-frame stream on a demuxer that accepts seeks by frame index. *)
Definition indexed_stream : Stream Toy.World :=
  Toy.open (Toy.video (av_make_q 0 1) 10 0) 0
    (Toy.mkWorld (Toy.packets Toy.ms10) 0 [] 720 576 None true).

(** A demuxer that seeks by frame index over a file whose third packet is
    already frame 10: the packet index is not the frame number. *)
Definition gapped_stream : Stream Toy.World :=
  Toy.open (Toy.video (av_make_q 0 1) 5 0) 0
    (Toy.mkWorld (Toy.packets [0; 33; 333; 367; 400]) 0 [] 720 576 None true).

(** The same demuxer over a file that stamps every frame twice. *)
Definition doubled_stream : Stream Toy.World :=
  Toy.open (Toy.video (av_make_q 0 1) 6 0) 0
    (Toy.mkWorld (Toy.packets [0; 0; 33; 33; 67; 67]) 0 [] 720 576 None true).

(** A file whose first packet is stamped after its second, with the first
    block decoded: [ping] holds frame 100 and then frame 0. *)
Definition disordered_stream : Stream Toy.World :=
  Toy.after (Toy.stream [3333; 0; 33; 67])
    (peekNextFrame 20 (Toy.stream [3333; 0; 33; 67])).

(** A stream without a declared start time, of a codec that reorders two
    frames (the probe looks at two packets): the first packet carries only
    a [dts], 73, the second a [pts] of 40. *)
Definition late_start_stream : Stream Toy.World :=
  mkStream 2 [] [] 0%nat true 0 0
    (mkAVStream (av_make_q 1 1000) (av_make_q 30 1) AV_NOPTS_VALUE 0 0 0
       (av_make_q 0 1) 720 576)
    (mkCodec 0 0 2) 0 0 0
    (Toy.container [mkPacket 0 AV_NOPTS_VALUE 73; mkPacket 0 40 7;
                    mkPacket 0 107 40]) [].

(* ===================================================================== *)
(** ** Bounded runs *)
(* ===================================================================== *)

Lemma bind_Ret_inv {A B} (m : res A) (k : A -> res B) (b : B) :
  bind m k = Ret b -> exists a, m = Ret a /\ k a = Ret b.
Proof. destruct m as [a|e]; simpl; intros E; [eauto | discriminate]. Qed.

Ltac frame_solve :=
  unfold same_static, same_seeker, seeks_since in *; simpl in *;
  intuition congruence.

Ltac inv_Ret H := inversion H; subst; clear H.

Lemma wrap64_small z : INT64_MIN <= z <= INT64_MAX -> wrap64 z = z.
Proof.
  unfold wrap64, INT64_MIN, INT64_MAX. intros Hz.
  rewrite Z.mod_small; lia.
Qed.

(* ===================================================================== *)
(** ** DecodePump *)
(* ===================================================================== *)

Section DecodePump.
Context {World : Type} `{FF : FFmpeg World}.
Implicit Types s : Stream World.

(** A decode run writes [pong] and the demuxer/decoder state only. *)
Lemma decodeLoop_frame fuel : forall d fr s b s',
  decodeLoop fuel d fr s = Ret (b, s') ->
  same_static s s' /\ same_seeker s s' /\
  m_bufferPing s' = m_bufferPing s /\
  m_bufferPingHead s' = m_bufferPingHead s.
Proof.
  induction fuel as [|fuel IH]; intros d fr s b s'; simpl; [discriminate|].
  destruct d.
  - destruct (match fr with Some f => (Some f, m_io s)
                          | None => av_frame_alloc (m_io s) end)
      as [[f|] w1]; [|intros H; inv_Ret H; frame_solve].
    destruct (avcodec_receive_frame w1 f) as [[ret f'] w2].
    repeat match goal with
           | |- context [if ?c then _ else _] => destruct c
           end;
      intros H; try (inv_Ret H; frame_solve);
      apply IH in H; frame_solve.
  - destruct (av_read_frame (m_io s)) as [[ret p] w1].
    destruct (ret <? 0).
    + destruct (negb (ret =? AVERROR_EOF)); intros H; inv_Ret H; frame_solve.
    + simpl. destruct (m_index s =? stream_index p).
      * destruct (avcodec_send_packet w1 p) as [ret2 w2].
        destruct (ret2 <? 0); intros H;
          [inv_Ret H; frame_solve | apply IH in H; frame_solve].
      * intros H. apply IH in H. frame_solve.
Qed.

Lemma decodeNextBlock_frame fuel s b s' :
  decodeNextBlock fuel s = Ret (b, s') ->
  same_static s s' /\ same_seeker s s' /\
  m_bufferPing s' = m_bufferPing s /\
  m_bufferPingHead s' = m_bufferPingHead s.
Proof.
  unfold decodeNextBlock. intros H. apply decodeLoop_frame in H. frame_solve.
Qed.

End DecodePump.

(* ===================================================================== *)
(** ** RingCursor: peek, pop, get *)
(* ===================================================================== *)

Section RingCursor.
Context {World : Type} `{FF : FFmpeg World}.
Implicit Types s : Stream World.

Lemma pingFront_inv s r s' :
  pingFront s = Ret (r, s') ->
  s' = s /\ exists f, r = V_value f /\
                      m_bufferPing s !! m_bufferPingHead s = Some f.
Proof.
  unfold pingFront.
  destruct (m_bufferPing s !! m_bufferPingHead s) as [f|] eqn:E;
    intros H; inversion H; subst; eauto.
Qed.

Lemma lookup_head_neq (l : list Frame) (h : nat) (f : Frame) :
  l !! h = Some f -> Nat.eqb h (length l) = false.
Proof.
  intros E. apply lookup_lt_Some in E. apply Nat.eqb_neq. lia.
Qed.

(** A frame under the head is returned as it is, whatever the budget. *)
Lemma peek_buffered s f :
  m_bufferPing s !! m_bufferPingHead s = Some f ->
  forall fuel, peekNextFrame fuel s = Ret (V_value f, s).
Proof.
  intros E fuel. unfold peekNextFrame.
  rewrite (lookup_head_neq _ _ _ E). unfold pingFront. now rewrite E.
Qed.

(** What a returning peek can return. *)
Lemma peek_inv fuel s r s' :
  peekNextFrame fuel s = Ret (r, s') ->
  r = V_bool false \/
  exists f, r = V_value f /\
            m_bufferPing s' !! m_bufferPingHead s' = Some f.
Proof.
  unfold peekNextFrame.
  destruct (Nat.eqb (m_bufferPingHead s) (length (m_bufferPing s))) eqn:Eh.
  - intros H. apply bind_Ret_inv in H as [[ok s1] [_ H]].
    destruct ok; simpl in H.
    + destruct (Nat.eqb (length (m_bufferPong s1)) 0) eqn:El.
      * inversion H; auto.
      * apply pingFront_inv in H as [-> [f [-> Hf]]]. right; eauto.
    + inversion H; auto.
  - intros H. apply pingFront_inv in H as [-> [f [-> Hf]]]. right; eauto.
Qed.

Lemma peek_bool_false fuel s b s' :
  peekNextFrame fuel s = Ret (V_bool b, s') -> b = false.
Proof.
  intros H. apply peek_inv in H as [H | [f [H _]]]; congruence.
Qed.

(** The head moves in a peek only by a refill. *)
Lemma peek_head fuel s r s1 :
  peekNextFrame fuel s = Ret (r, s1) ->
  m_bufferPingHead s1 = m_bufferPingHead s
  \/ (m_bufferPingHead s = length (m_bufferPing s)
      /\ m_bufferPingHead s1 = 0%nat
      /\ m_bufferPong s1 = []
      /\ exists s', decodeNextBlock fuel s = Ret (true, s')
                    /\ m_bufferPing s1 = m_bufferPong s').
Proof.
  unfold peekNextFrame.
  destruct (Nat.eqb (m_bufferPingHead s) (length (m_bufferPing s))) eqn:Eh.
  - intros H. apply bind_Ret_inv in H as [[ok s'] [Hd H]].
    destruct ok; simpl in H.
    + right. apply Nat.eqb_eq in Eh.
      destruct (Nat.eqb (length (m_bufferPong s')) 0).
      * inversion H; subst; simpl. eauto 6.
      * apply pingFront_inv in H as [-> _]. simpl. eauto 6.
    + left. inversion H; subst.
      apply decodeNextBlock_frame in Hd. tauto.
  - intros H. left. now apply pingFront_inv in H as [-> _].
Qed.

(** A peek leaves the configuration, the latch and the seek record. *)
Lemma peek_frame fuel s r s' :
  peekNextFrame fuel s = Ret (r, s') -> same_static s s' /\ same_seeker s s'.
Proof.
  unfold peekNextFrame.
  destruct (Nat.eqb (m_bufferPingHead s) (length (m_bufferPing s))).
  - intros H. apply bind_Ret_inv in H as [[ok s1] [Hd H]].
    apply decodeNextBlock_frame in Hd.
    destruct ok; simpl in H.
    + destruct (Nat.eqb (length (m_bufferPong s1)) 0).
      * inv_Ret H. frame_solve.
      * apply pingFront_inv in H as [-> _]. frame_solve.
    + inv_Ret H. frame_solve.
  - intros H. apply pingFront_inv in H as [-> _]. frame_solve.
Qed.

Lemma pop_frame s : same_static s (popFrame s) /\ same_seeker s (popFrame s).
Proof.
  unfold popFrame.
  destruct (length (m_bufferPing s) <=? m_bufferPingHead s)%nat; frame_solve.
Qed.

Lemma getNextFrame_inv fuel s r s' :
  getNextFrame fuel s = Ret (r, s') ->
  exists s1,
    (peekNextFrame fuel s = Ret (V_bool false, s1) /\ r = V_bool false /\ s' = s1)
    \/ (exists f, peekNextFrame fuel s = Ret (V_value f, s1)
                  /\ r = V_value f /\ s' = popFrame s1).
Proof.
  unfold getNextFrame. intros H.
  apply bind_Ret_inv in H as [[r1 s1] [Hp H]].
  exists s1. destruct r1 as [b|f]; simpl in H; inv_Ret H.
  - left. now rewrite (peek_bool_false _ _ _ _ Hp) in Hp.
  - right. eauto.
Qed.

Lemma getNextFrame_frame fuel s r s' :
  getNextFrame fuel s = Ret (r, s') -> same_static s s' /\ same_seeker s s'.
Proof.
  intros H. apply getNextFrame_inv in H as [s1 [[Hp [_ ->]] | [f [Hp [_ ->]]]]];
    apply peek_frame in Hp; [tauto|].
  pose proof (pop_frame s1). frame_solve.
Qed.

(** C8.  [popFrame] with the head inside the buffer replaces the frame under
    the head by an empty one (its reference is released), moves the head on
    by exactly one and touches nothing else; with the head at the end of the
    buffer it returns the stream as it was. *)
Theorem popFrame_release_or_noop s :
  ((m_bufferPingHead s < length (m_bufferPing s))%nat ->
     popFrame s =
       with_head (S (m_bufferPingHead s))
         (with_ping (<[m_bufferPingHead s := Frame_default]> (m_bufferPing s)) s)
     /\ m_bufferPingHead (popFrame s) = S (m_bufferPingHead s)
     /\ m_bufferPing (popFrame s) !! m_bufferPingHead s = Some Frame_default
     /\ (forall j, j <> m_bufferPingHead s ->
           m_bufferPing (popFrame s) !! j = m_bufferPing s !! j)
     /\ length (m_bufferPing (popFrame s)) = length (m_bufferPing s)
     /\ m_bufferPong (popFrame s) = m_bufferPong s
     /\ m_io (popFrame s) = m_io s
     /\ same_static s (popFrame s) /\ same_seeker s (popFrame s))
  /\ (m_bufferPingHead s = length (m_bufferPing s) -> popFrame s = s).
Proof.
  split.
  - intros Hlt. pose proof (pop_frame s) as [Hs Hk]. unfold popFrame in *.
    destruct (Nat.leb_spec (length (m_bufferPing s)) (m_bufferPingHead s)); [lia|].
    simpl. repeat split; try tauto.
    + now apply list_lookup_insert_eq.
    + intros j Hj. apply list_lookup_insert_ne. congruence.
    + apply length_insert.
  - unfold popFrame. intros ->. now rewrite Nat.leb_refl.
Qed.

(** C1.  [getNextFrame] is [peekNextFrame] followed, on a frame, by
    [popFrame]: it agrees with [get_next_spec] on every state and budget; a
    non-frame result of the peek is returned as it is with the state the
    peek left; and called right after a peek that returned a frame it
    returns that very frame and leaves the popped state. *)
Theorem getNextFrame_is_peek_then_pop fuel s :
  getNextFrame fuel s = get_next_spec fuel s
  /\ (forall r s1, peekNextFrame fuel s = Ret (V_bool r, s1) ->
        getNextFrame fuel s = Ret (V_bool r, s1))
  /\ (forall f s1, peekNextFrame fuel s = Ret (V_value f, s1) ->
        getNextFrame fuel s = Ret (V_value f, popFrame s1)
        /\ forall fuel', getNextFrame fuel' s1 = Ret (V_value f, popFrame s1)).
Proof.
  assert (Heq : getNextFrame fuel s = get_next_spec fuel s).
  { unfold getNextFrame, get_next_spec.
    destruct (peekNextFrame fuel s) as [[r s1]|e] eqn:E; simpl; [|reflexivity].
    destruct r as [b|f]; simpl; [|reflexivity].
    now rewrite (peek_bool_false _ _ _ _ E). }
  split; [exact Heq|]. split.
  - intros r s1 E. rewrite Heq. unfold get_next_spec. now rewrite E.
  - intros f s1 E. split.
    + rewrite Heq. unfold get_next_spec. now rewrite E.
    + intros fuel'. unfold getNextFrame.
      apply peek_inv in E as [E | [f' [E Hf]]]; [discriminate|].
      inversion E; subst f'.
      now rewrite (peek_buffered _ _ Hf fuel').
Qed.

(** C2.  A peek that returned a frame is repeated by the next peek, on any
    budget, with the same frame (so the same timestamp and frame number)
    and no change of state; and a peek leaves the head where it was unless
    it refilled: then the head was at the end of [ping], the block just
    decoded became [ping], [pong] is empty and the head is 0. *)
Theorem peekNextFrame_idempotent fuel s r s1 :
  peekNextFrame fuel s = Ret (r, s1) ->
  (forall f, r = V_value f ->
     forall fuel', peekNextFrame fuel' s1 = Ret (V_value f, s1))
  /\ (m_bufferPingHead s1 = m_bufferPingHead s
      \/ (m_bufferPingHead s = length (m_bufferPing s)
          /\ m_bufferPingHead s1 = 0%nat
          /\ m_bufferPong s1 = []
          /\ exists s', decodeNextBlock fuel s = Ret (true, s')
                        /\ m_bufferPing s1 = m_bufferPong s')).
Proof.
  intros E. split.
  - intros f -> fuel'.
    pose proof (peek_inv _ _ _ _ E) as [H | [f' [H Hf]]]; [discriminate|].
    inversion H; subst f'.
    now rewrite (peek_buffered _ _ Hf fuel').
  - eapply peek_head; eauto.
Qed.

(** C10.  Whatever makes a peek or a get return without a frame, the value
    returned is the [bool] alternative holding [false]: when the refill
    fails ([decodeNextBlock] returns false) and when the refill succeeds
    but decodes nothing (end of file) alike, so the two outcomes are equal
    as return values. *)
Theorem eof_and_decode_error_same_value fuel (s_err s_eof : Stream World) e1 e2 :
  m_bufferPingHead s_err = length (m_bufferPing s_err) ->
  m_bufferPingHead s_eof = length (m_bufferPing s_eof) ->
  decodeNextBlock fuel s_err = Ret (false, e1) ->
  decodeNextBlock fuel s_eof = Ret (true, e2) ->
  m_bufferPong e2 = [] ->
  (exists s1 s2,
      peekNextFrame fuel s_err = Ret (V_bool false, s1)
      /\ peekNextFrame fuel s_eof = Ret (V_bool false, s2)
      /\ getNextFrame fuel s_err = Ret (V_bool false, s1)
      /\ getNextFrame fuel s_eof = Ret (V_bool false, s2))
  /\ (forall fuel' s r s',
        (peekNextFrame fuel' s = Ret (r, s') \/ getNextFrame fuel' s = Ret (r, s')) ->
        index r = 0 -> r = V_bool false)
  /\ (forall fuel' s ret p w,
        m_bufferPingHead s = length (m_bufferPing s) ->
        av_read_frame (m_io s) = (ret, p, w) -> ret < 0 ->
        exists s', peekNextFrame (S fuel') s = Ret (V_bool false, s')
                   /\ getNextFrame (S fuel') s = Ret (V_bool false, s')).
Proof.
  intros H1 H2 D1 D2 Hp. split; [|split]; cycle 2.
  { intros fuel' s ret p w Hh Hr Hneg.
    unfold getNextFrame, peekNextFrame, decodeNextBlock.
    rewrite Hh, Nat.eqb_refl. cbn [decodeLoop].
    change (m_io (with_pong [] s)) with (m_io s). rewrite Hr.
    destruct (Z.ltb_spec ret 0); [|lia].
    destruct (negb (ret =? AVERROR_EOF)); simpl; eauto. }
  - unfold getNextFrame, peekNextFrame.
    rewrite H1, H2, !Nat.eqb_refl, D1, D2. simpl. rewrite Hp. simpl.
    do 2 eexists. repeat split; reflexivity.
  - intros fuel' s r s' [H | H] Hi.
    + destruct r as [b|f]; [|discriminate].
      now rewrite (peek_bool_false _ _ _ _ H).
    + apply getNextFrame_inv in H as [s1 [[_ [-> _]] | [f [_ [-> _]]]]];
        [reflexivity | discriminate].
Qed.

End RingCursor.

(* ===================================================================== *)
(** ** RingCursor: sequences *)
(* ===================================================================== *)

Section Sequence.
Context {World : Type} `{FF : FFmpeg World}.
Implicit Types s : Stream World.

(** Skipping [n] frames is reading [n] frames and dropping them. *)
Lemma skip_as_read fuel n : forall s,
  skipFrames fuel n s =
  match readFrames fuel n s with
  | Ret (V_value _, s') => Ret (true, s')
  | Ret (V_bool _, s') => Ret (false, s')
  | Fault e => Fault e
  end.
Proof.
  induction n as [|n IH]; intros s; simpl; [reflexivity|].
  unfold getNextFrame.
  destruct (peekNextFrame fuel s) as [[r s1]|e]; simpl; [|reflexivity].
  destruct r as [b|f]; simpl; [reflexivity|].
  rewrite IH.
  destruct (readFrames fuel n (popFrame s1)) as [[[b|fs] s2]|e]; reflexivity.
Qed.

Lemma read_bool_false fuel n : forall s b s',
  readFrames fuel n s = Ret (V_bool b, s') -> b = false.
Proof.
  destruct n as [|n]; intros s b s'; simpl; [discriminate|].
  destruct (getNextFrame fuel s) as [[[x|f] s1]|e]; simpl; try discriminate.
  - intros H; now inv_Ret H.
  - destruct (readFrames fuel n s1) as [[[y|fs] s2]|e]; simpl;
      intros H; now inv_Ret H.
Qed.

Lemma read_length fuel n : forall s fs s',
  readFrames fuel n s = Ret (V_value fs, s') -> length fs = n.
Proof.
  induction n as [|n IH]; intros s fs s'; simpl.
  - intros H; now inv_Ret H.
  - destruct (getNextFrame fuel s) as [[[x|f] s1]|e]; simpl; try discriminate.
    destruct (readFrames fuel n s1) as [[[y|gs] s2]|e] eqn:E; simpl;
      try discriminate.
    intros H; inv_Ret H. simpl. f_equal. eauto.
Qed.

Lemma read_app fuel a b : forall s,
  readFrames fuel (a + b) s =
  match readFrames fuel a s with
  | Ret (V_value fa, s1) =>
    match readFrames fuel b s1 with
    | Ret (V_value fb, s2) => Ret (V_value (fa ++ fb), s2)
    | Ret (V_bool _, s2) => Ret (V_bool false, s2)
    | Fault e => Fault e
    end
  | Ret (V_bool _, s1) => Ret (V_bool false, s1)
  | Fault e => Fault e
  end.
Proof.
  induction a as [|a IH]; intros s; simpl.
  - destruct (readFrames fuel b s) as [[[x|fs] s2]|e] eqn:E; try reflexivity.
    now rewrite (read_bool_false _ _ _ _ _ E).
  - destruct (getNextFrame fuel s) as [[[x|f] s1]|e]; simpl; try reflexivity.
    rewrite IH.
    destruct (readFrames fuel a s1) as [[[y|fa] s2]|e]; simpl; try reflexivity.
    destruct (readFrames fuel b s2) as [[[z|fb] s3]|e]; simpl; reflexivity.
Qed.

Lemma ascendingFrom_bounds seq : forall start,
  0 <= start ->
  ascendingFrom start seq = true ->
  Forall (fun i => i < INT64_MAX) seq ->
  start <= accumulator start seq /\
  Forall (fun i => start <= i < accumulator start seq) seq.
Proof.
  induction seq as [|i rest IH]; intros start Hs; simpl.
  - intros _ _. split; [lia | constructor].
  - intros H Hr. apply andb_true_iff in H as [H1 H2]. apply Z.leb_le in H1.
    inversion Hr as [|? ? Hi Hrest]; subst.
    rewrite wrap64_small in H2 by (unfold INT64_MIN, INT64_MAX in *; lia).
    destruct (IH (i + 1) ltac:(lia) H2 Hrest) as [Ha Hf].
    split; [lia|]. constructor; [lia|].
    eapply Forall_impl; [exact Hf|]. simpl. intros; lia.
Qed.

Lemma pick_shift start i f (fa fb : list Frame) rest :
  length fa = Z.to_nat (i - start) -> start <= i ->
  Forall (fun j => i + 1 <= j) rest ->
  pickFrames start (fa ++ f :: fb) rest = pickFrames (i + 1) fb rest.
Proof.
  intros Hl Hi. unfold pickFrames.
  induction rest as [|j rest IH]; intros Hf; simpl; [reflexivity|].
  inversion Hf as [|? ? Hj Hrest]; subst.
  rewrite IH by assumption. f_equal. f_equal.
  rewrite lookup_app_r by lia.
  replace (Z.to_nat (j - start) - length fa)%nat
    with (S (Z.to_nat (j - (i + 1)))) by lia.
  reflexivity.
Qed.

Lemma pick_defined start (all : list Frame) seq :
  Forall (fun i => 0 <= i - start < Z.of_nat (length all)) seq ->
  Forall2 (fun i f => all !! Z.to_nat (i - start) = Some f) seq
    (pickFrames start all seq).
Proof.
  unfold pickFrames. induction 1 as [|i rest Hi Hrest IH]; simpl.
  - constructor.
  - destruct (lookup_lt_is_Some_2 all (Z.to_nat (i - start)) ltac:(lia))
      as [f Hf].
    rewrite Hf. simpl. constructor; assumption.
Qed.

(** Serving an accepted list is reading, frame by frame, up to its last
    index and keeping the frames at the listed offsets. *)
Lemma sequenceLoop_as_read fuel seq : forall start acc s,
  0 <= start ->
  ascendingFrom start seq = true ->
  Forall (fun i => i < INT64_MAX) seq ->
  sequenceLoop fuel seq start acc s =
  match readFrames fuel (Z.to_nat (accumulator start seq - start)) s with
  | Ret (V_value all, s') => Ret (V_value (acc ++ pickFrames start all seq), s')
  | Ret (V_bool _, s') => Ret (V_bool false, s')
  | Fault e => Fault e
  end.
Proof.
  induction seq as [|i rest IH]; intros start acc s Hs Ha Hr.
  - simpl. rewrite Z.sub_diag. simpl. unfold pickFrames. simpl.
    now rewrite app_nil_r.
  - pose proof (ascendingFrom_bounds _ _ Hs Ha Hr) as [_ Hb].
    cbn [ascendingFrom] in Ha. apply andb_true_iff in Ha as [H1 H2].
    apply Z.leb_le in H1.
    inversion Hr as [|? ? Hi Hrest]; subst.
    assert (Hw : wrap64 (i + 1) = i + 1)
      by (apply wrap64_small; unfold INT64_MIN, INT64_MAX in *; lia).
    rewrite Hw in H2.
    pose proof (ascendingFrom_bounds rest (i + 1) ltac:(lia) H2 Hrest) as [Hacc Hlow].
    cbn [sequenceLoop accumulator].
    destruct (Z.ltb_spec i start) as [?|_]; [lia|].
    replace (Z.to_nat (accumulator (i + 1) rest - start))
      with (Z.to_nat (i - start) +
            (1 + Z.to_nat (accumulator (i + 1) rest - (i + 1))))%nat by lia.
    rewrite read_app, skip_as_read.
    destruct (readFrames fuel (Z.to_nat (i - start)) s)
      as [[[y|fa] s1]|e] eqn:Ea; simpl; try reflexivity.
    apply read_length in Ea.
    destruct (getNextFrame fuel s1) as [[[x|f] s2]|e]; simpl; try reflexivity.
    rewrite Hw, IH by (assumption || lia).
    destruct (readFrames fuel (Z.to_nat (accumulator (i + 1) rest - (i + 1))) s2)
      as [[[z|fb] s3]|e]; simpl; try reflexivity.
    f_equal. f_equal. f_equal. rewrite <- app_assoc. f_equal.
    change (pickFrames start (fa ++ f :: fb) (i :: rest))
      with (option_list ((fa ++ f :: fb) !! Z.to_nat (i - start))
            ++ pickFrames start (fa ++ f :: fb) rest).
    rewrite lookup_app_r by lia.
    replace (Z.to_nat (i - start) - length fa)%nat with 0%nat by lia.
    simpl. f_equal. symmetry.
    apply (pick_shift start i f fa fb rest Ea H1).
    eapply Forall_impl; [exact Hlow|]. simpl. intros; lia.
Qed.

(** An element below its accumulator ends the call with [false] as soon
    as the elements before it have been served. *)
Lemma sequenceLoop_rejects fuel seq : forall start acc s r s1,
  ascendingFrom start seq = false ->
  sequenceLoop fuel (acceptedPrefix start seq) start acc s = Ret (r, s1) ->
  sequenceLoop fuel seq start acc s = Ret (V_bool false, s1).
Proof.
  induction seq as [|i rest IH]; intros start acc s r s1; simpl;
    [discriminate|].
  destruct (Z.ltb_spec i start) as [Hlt|Hge].
  - intros _ H. simpl in H. now inv_Ret H.
  - destruct (Z.leb_spec start i) as [_|?]; [|lia]. simpl.
    intros Ha.
    destruct (Z.ltb_spec i start) as [?|_]; [lia|].
    destruct (skipFrames fuel (Z.to_nat (i - start)) s) as [[ok s2]|e];
      simpl; [|discriminate].
    destruct ok; simpl; [|intros H; now inv_Ret H].
    destruct (getNextFrame fuel s2) as [[[x|f] s3]|e]; simpl;
      [intros H; now inv_Ret H | | discriminate].
    apply IH. exact Ha.
Qed.

Lemma ascendingFrom_strict seq : forall start,
  Forall (fun i => INT64_MIN <= i < INT64_MAX) seq ->
  ascendingFrom start seq = true <-> strictlyAscending (start - 1) seq.
Proof.
  induction seq as [|i rest IH]; intros start Hr; simpl; [tauto|].
  inversion Hr as [|? ? Hi Hrest]; subst.
  rewrite wrap64_small by (unfold INT64_MIN, INT64_MAX in *; lia).
  rewrite andb_true_iff, Z.leb_le, (IH (i + 1) Hrest).
  replace (i + 1 - 1) with i by lia. intuition lia.
Qed.

(** C7.  [getNextFrameSequence] on a list of 64-bit indices.  The list is
    accepted exactly when it is strictly ascending from a first index that
    is not negative, which is when no element is below the accumulator
    ([start] 0, then [i + 1]).  A list that is not accepted makes the call
    return [false] once the elements before the offending one have been
    served.  An accepted list makes the call read frames one by one from
    the cursor up to the last index and return, in order, the frames at
    the listed offsets from the cursor: one frame per index; it returns
    [false] when the stream runs out of frames first. *)
Theorem getNextFrameSequence_ascending fuel seq s :
  (Forall (fun i => INT64_MIN <= i < INT64_MAX) seq ->
     (ascendingFrom 0 seq = true <-> strictlyAscending (-1) seq))
  /\ (ascendingFrom 0 seq = false ->
        forall r s1,
          getNextFrameSequence fuel (acceptedPrefix 0 seq) s = Ret (r, s1) ->
          getNextFrameSequence fuel seq s = Ret (V_bool false, s1))
  /\ (ascendingFrom 0 seq = true ->
        Forall (fun i => i < INT64_MAX) seq ->
        getNextFrameSequence fuel seq s =
          match readFrames fuel (Z.to_nat (accumulator 0 seq)) s with
          | Ret (V_value all, s') => Ret (V_value (pickFrames 0 all seq), s')
          | Ret (V_bool _, s') => Ret (V_bool false, s')
          | Fault e => Fault e
          end
        /\ forall all s',
             readFrames fuel (Z.to_nat (accumulator 0 seq)) s = Ret (V_value all, s') ->
             length (pickFrames 0 all seq) = length seq
             /\ Forall2 (fun i f => all !! Z.to_nat i = Some f) seq
                         (pickFrames 0 all seq)).
Proof.
  split; [|split].
  - intros Hr. apply (ascendingFrom_strict seq 0 Hr).
  - intros Ha r s1. unfold getNextFrameSequence. now apply sequenceLoop_rejects.
  - intros Ha Hr. split.
    + unfold getNextFrameSequence.
      rewrite (sequenceLoop_as_read fuel seq 0 [] s ltac:(lia) Ha Hr).
      now rewrite Z.sub_0_r.
    + intros all s' Hread. apply read_length in Hread.
      pose proof (ascendingFrom_bounds seq 0 ltac:(lia) Ha Hr) as [Hacc Hb].
      assert (Hd : Forall2 (fun i f => all !! Z.to_nat (i - 0) = Some f) seq
                     (pickFrames 0 all seq)).
      { apply pick_defined. eapply Forall_impl; [exact Hb|].
        simpl. intros; lia. }
      split.
      * symmetry. eapply Forall2_length; eauto.
      * eapply Forall2_impl; [exact Hd|]. simpl. intros i f.
        now rewrite Z.sub_0_r.
Qed.

End Sequence.

(* ===================================================================== *)
(** ** TimeMap *)
(* ===================================================================== *)

Section TimeMap.
Context {World : Type}.
Implicit Types s : Stream World.

(** Adding the start timestamp and taking it off again cancels, wrap or
    no wrap. *)
Lemma wrap64_add_sub a t :
  INT64_MIN <= t <= INT64_MAX -> wrap64 (wrap64 (a + t) - a) = t.
Proof.
  intros Ht. rewrite <- (wrap64_small t Ht) at 2. unfold wrap64.
  f_equal.
  replace ((a + t + 2 ^ 63) mod 2 ^ 64 - 2 ^ 63 - a + 2 ^ 63)
    with ((a + t + 2 ^ 63) mod 2 ^ 64 - a) by lia.
  rewrite Zminus_mod_idemp_l. f_equal. lia.
Qed.

Lemma rescale_nonneg a b c :
  0 <= a -> 0 <= b -> 0 < c -> (a * b + c / 2) / c <= INT64_MAX ->
  av_rescale_rnd_near_inf a b c = (a * b + c / 2) / c.
Proof.
  intros Ha Hb Hc Hfit. unfold av_rescale_rnd_near_inf, rescale_pos.
  destruct (Z.leb_spec c 0); [lia|].
  destruct (Z.ltb_spec b 0); [lia|]. simpl.
  destruct (Z.ltb_spec a 0); [lia|].
  destruct (Z.ltb_spec INT64_MAX ((a * b + c / 2) / c)); [lia | reflexivity].
Qed.

(** Rounding to the finer grid and back returns the index. *)
Lemma round_there_and_back n B C :
  0 <= n -> 0 < C <= B ->
  (((n * B + C / 2) / C) * C + B / 2) / B = n.
Proof.
  intros Hn [HC HCB].
  destruct (Z.eq_dec C B) as [->|Hne].
  - rewrite Z.div_add_l by lia.
    rewrite (Z.div_small (B / 2) B)
      by (split; [apply Z.div_pos; lia | apply Z.div_lt; lia]).
    rewrite Z.add_0_r. rewrite Z.div_add_l by lia.
    rewrite (Z.div_small (B / 2) B)
      by (split; [apply Z.div_pos; lia | apply Z.div_lt; lia]).
    lia.
  - set (t := (n * B + C / 2) / C).
    pose proof (Z.mul_div_le (n * B + C / 2) C HC) as H1.
    pose proof (Z.mul_succ_div_gt (n * B + C / 2) C HC) as H2.
    fold t in H1, H2.
    pose proof (Z.mul_div_le C 2 ltac:(lia)) as Q1.
    pose proof (Z.mul_succ_div_gt C 2 ltac:(lia)) as Q2.
    pose proof (Z.mul_div_le B 2 ltac:(lia)) as P1.
    pose proof (Z.mul_succ_div_gt B 2 ltac:(lia)) as P2.
    symmetry. apply (Z.div_unique _ _ _ (t * C + B / 2 - n * B)); lia.
Qed.

(** C3 (as amended).  When the time base is no coarser than one frame
    period ([frame_rate * time_base <= 1], both positive) and the container
    timestamp of frame [n >= 0] fits 64 bits, converting the index to a
    timestamp and back returns [n], for every start timestamp. *)
Theorem frame_timestamp_roundtrip s n :
  let B := den (r_frame_rate (fmt_stream s)) * den (time_base (fmt_stream s)) in
  let C := num (time_base (fmt_stream s)) * num (r_frame_rate (fmt_stream s)) in
  0 <= n ->
  0 < C <= B ->
  (n * B + C / 2) / C <= INT64_MAX ->
  timeStampToFrame s (frameToTimeStamp s n) = n.
Proof.
  intros B C Hn HCB Hfit.
  unfold timeStampToFrame, frameToTimeStamp, av_rescale_q, av_inv_q. simpl.
  fold B. fold C.
  assert (Ht : 0 <= (n * B + C / 2) / C).
  { apply Z.div_pos; [|lia]. assert (0 <= C / 2) by (apply Z.div_pos; lia). nia. }
  rewrite (rescale_nonneg n B C) by lia.
  rewrite wrap64_add_sub by (unfold INT64_MIN; lia).
  replace (num (r_frame_rate (fmt_stream s)) * num (time_base (fmt_stream s)))
    with C by (unfold C; lia).
  replace (den (time_base (fmt_stream s)) * den (r_frame_rate (fmt_stream s)))
    with B by (unfold B; lia).
  pose proof (round_there_and_back n B C Hn HCB) as Hrt.
  rewrite rescale_nonneg; try lia.
  rewrite Hrt.
  assert (n <= (n * B + C / 2) / C).
  { apply Z.div_le_lower_bound; [lia|].
    assert (0 <= C / 2) by (apply Z.div_pos; lia). nia. }
  lia.
Qed.

End TimeMap.

(* ===================================================================== *)
(** ** Seeker *)
(* ===================================================================== *)

Section Seeker.
Context {World : Type} `{FF : FFmpeg World}.
Implicit Types s : Stream World.

Lemma skipFrames_frame fuel n : forall s b s',
  skipFrames fuel n s = Ret (b, s') -> same_static s s' /\ same_seeker s s'.
Proof.
  induction n as [|n IH]; intros s b s'; simpl.
  - intros H; inv_Ret H. frame_solve.
  - intros H. apply bind_Ret_inv in H as [[r s1] [Hp H]].
    apply peek_frame in Hp.
    destruct r as [x|f]; simpl in H.
    + inv_Ret H. exact Hp.
    + apply IH in H. pose proof (pop_frame s1). frame_solve.
Qed.

Lemma sequenceLoop_frame fuel seq : forall start acc s r s',
  sequenceLoop fuel seq start acc s = Ret (r, s') ->
  same_static s s' /\ same_seeker s s'.
Proof.
  induction seq as [|i rest IH]; intros start acc s r s'; simpl.
  - intros H; inv_Ret H. frame_solve.
  - destruct (i <? start); [intros H; inv_Ret H; frame_solve|].
    intros H. apply bind_Ret_inv in H as [[ok s1] [Hk H]].
    apply skipFrames_frame in Hk.
    destruct ok; simpl in H; [|inv_Ret H; exact Hk].
    apply bind_Ret_inv in H as [[fr s2] [Hg H]].
    apply getNextFrame_frame in Hg.
    destruct fr as [x|f].
    + inv_Ret H. frame_solve.
    + apply IH in H. frame_solve.
Qed.

Lemma seekWalk_frame fuel : forall ts s b s',
  seekWalk fuel ts s = Ret (b, s') -> same_static s s' /\ same_seeker s s'.
Proof.
  induction fuel as [|fuel IH]; intros ts s b s'; simpl; [discriminate|].
  intros H. apply bind_Ret_inv in H as [[r s1] [Hp H]].
  apply peek_frame in Hp.
  destruct r as [x|f].
  - inv_Ret H. exact Hp.
  - destruct (ts <=? Frame_getTimeStamp f); [inv_Ret H; exact Hp|].
    destruct ((Frame_getTimeStamp f <? ts) &&
              (ts <? wrap64 (Frame_getTimeStamp f + getFrameTime s1)));
      [inv_Ret H; exact Hp|].
    apply IH in H. pose proof (pop_frame s1). frame_solve.
Qed.

Lemma seekFrameWalk_frame fuel : forall n s b s',
  seekFrameWalk fuel n s = Ret (b, s') -> same_static s s' /\ same_seeker s s'.
Proof.
  induction fuel as [|fuel IH]; intros n s b s'; simpl; [discriminate|].
  intros H. apply bind_Ret_inv in H as [[r s1] [Hp H]].
  apply peek_frame in Hp.
  destruct r as [x|f].
  - inv_Ret H. exact Hp.
  - destruct (n <=? Frame_getFrameNumber f); [inv_Ret H; exact Hp|].
    apply IH in H. pose proof (pop_frame s1). frame_solve.
Qed.

(** A time seek leaves the latch alone and asks the demuxer for seeks by
    timestamp only. *)
Lemma seekInternal_frame fuel : forall ts rec s b s',
  seekInternal fuel ts rec s = Ret (b, s') ->
  same_static s s' /\
  m_frameSeekSupported s' = m_frameSeekSupported s /\
  exists new, seeks_since s s' new /\ unflagged new.
Proof.
  induction fuel as [|fuel IH]; intros ts rec s b s'; [discriminate|].
  cbn [seekInternal]. destruct (timeTier s ts).
  - intros H. apply seekWalk_frame in H.
    split; [tauto|]. split; [frame_solve|].
    exists []. split; [frame_solve | constructor].
  - intros H. apply bind_Ret_inv in H as [[r s1] [Hp H]].
    apply peek_frame in Hp.
    destruct (index r =? 0).
    + inv_Ret H. split; [frame_solve|]. split; [frame_solve|].
      exists []. split; [frame_solve | constructor].
    + apply IH in H as [Hs [Hl [new [Hn Hu]]]].
      split; [frame_solve|]. split; [frame_solve|].
      exists new. split; [frame_solve | exact Hu].
  - destruct rec.
    + intros H; inv_Ret H. split; [frame_solve|]. split; [reflexivity|].
      exists []. split; [frame_solve | constructor].
    + unfold demuxSeek.
      destruct (avformat_seek_file _ _ _ _ _ _) as [err w].
      destruct (err <? 0).
      * intros H; inv_Ret H. split; [frame_solve|]. split; [reflexivity|].
        eexists [_]. split; [unfold seeks_since; simpl; reflexivity|].
        repeat constructor.
      * intros H. apply bind_Ret_inv in H as [[r s1] [Hp H]].
        apply peek_frame in Hp.
        destruct (index r =? 0).
        -- inv_Ret H. split; [frame_solve|]. split; [frame_solve|].
           eexists [_]. split;
             [unfold seeks_since; destruct Hp as [_ [_ ->]]; simpl; reflexivity
             |repeat constructor].
        -- apply IH in H as [Hs [Hl [new [Hn Hu]]]].
           split; [frame_solve|]. split; [frame_solve|].
           eexists (new ++ [_]). split.
           ++ unfold seeks_since in *. rewrite Hn, <- app_assoc.
              f_equal. simpl. destruct Hp as [_ [_ ->]]. simpl. reflexivity.
           ++ apply Forall_app. split; [exact Hu | repeat constructor].
Qed.

Lemma seekFrameInternal_frame fuel : forall n rec s b s',
  seekFrameInternal fuel n rec s = Ret (b, s') ->
  same_static s s' /\
  (m_frameSeekSupported s = false -> m_frameSeekSupported s' = false) /\
  exists new, seeks_since s s' new /\
              (m_frameSeekSupported s = false -> unflagged new).
Proof.
  induction fuel as [|fuel IH]; intros n rec s b s'; [discriminate|].
  cbn [seekFrameInternal].
  assert (Hwalk : seekFrameWalk (S fuel) n s = Ret (b, s') ->
            same_static s s' /\
            (m_frameSeekSupported s = false -> m_frameSeekSupported s' = false) /\
            exists new, seeks_since s s' new /\
                        (m_frameSeekSupported s = false -> unflagged new)).
  { intros H. apply seekFrameWalk_frame in H.
    split; [tauto|]. split; [frame_solve|].
    exists []. split; [frame_solve | constructor]. }
  destruct (frameTier s n); try exact Hwalk. clear Hwalk.
  destruct (m_frameSeekSupported s) eqn:El.
  - destruct rec; cbn [orb negb].
    + unfold seek. intros H.
      apply seekInternal_frame in H as [Hs [_ [new [Hn _]]]].
      split; [frame_solve|]. split; [discriminate|].
      exists new. split; [frame_solve | discriminate].
    + unfold demuxSeek.
      destruct (avformat_seek_file _ _ _ _ _ _) as [err w].
      destruct (err <? 0).
      * unfold seek. intros H.
        apply seekInternal_frame in H as [Hs [_ [new [Hn _]]]].
        split; [frame_solve|]. split; [discriminate|].
        exists (new ++ [mkSeekCall
                          (wrap64 (n + timeStampToFrame (flushDecoder s)
                                         (m_startTimeStamp (flushDecoder s))))
                          AVSEEK_FLAG_FRAME]).
        split; [|discriminate].
        unfold seeks_since in *. rewrite Hn, <- app_assoc. reflexivity.
      * intros H. apply bind_Ret_inv in H as [[r s1] [Hp H]].
        apply peek_frame in Hp.
        destruct (index r =? 0).
        -- inv_Ret H. split; [frame_solve|]. split; [discriminate|].
           eexists [_]. split; [|discriminate].
           unfold seeks_since. destruct Hp as [_ [_ ->]]. reflexivity.
        -- apply IH in H as [Hs [_ [new [Hn _]]]].
           split; [frame_solve|]. split; [discriminate|].
           eexists (new ++ [_]). split; [|discriminate].
           unfold seeks_since in *. rewrite Hn, <- app_assoc.
           destruct Hp as [_ [_ ->]]. reflexivity.
  - rewrite orb_true_r. destruct rec.
    + intros H; inv_Ret H. split; [frame_solve|]. split; [auto|].
      exists []. split; [frame_solve | constructor].
    + unfold seek. intros H.
      apply seekInternal_frame in H as [Hs [Hl [new [Hn Hu]]]].
      split; [exact Hs|]. split; [congruence|]. exists new. auto.
Qed.

(** The probes read packets and seek; they write nothing of the stream. *)
Lemma io_only_refl s : io_only s s.
Proof. destruct s; reflexivity. Qed.

Lemma io_only_step w s s' : io_only (with_io w s) s' -> io_only s s'.
Proof. unfold io_only. intros ->. reflexivity. Qed.

Lemma io_only_set w s : io_only s (with_io w s).
Proof. reflexivity. Qed.

Lemma startTimeLoop_io fuel : forall i m st sd s r s',
  startTimeLoop fuel i m st sd s = Ret (r, s') -> io_only s s'.
Proof.
  induction fuel as [|fuel IH]; intros i m st sd s r s'; [discriminate|].
  cbn [startTimeLoop]. destruct (i <? m).
  - destruct (av_read_frame (m_io s)) as [[ret p] w].
    destruct (ret <? 0); [intros H; inv_Ret H; apply io_only_set|].
    destruct (stream_index p =? m_index (with_io w s));
      intros H; apply IH in H; now apply io_only_step in H.
  - destruct (av_seek_frame _ _ _ _) as [e w].
    intros H; inv_Ret H. apply io_only_set.
Qed.

Lemma getStreamStartTime_io fuel s r s' :
  getStreamStartTime fuel s = Ret (r, s') -> io_only s s'.
Proof.
  unfold getStreamStartTime.
  destruct (negb _); [intros H; inv_Ret H; apply io_only_refl|].
  destruct (av_seek_frame _ _ _ _) as [e w].
  destruct (e <? 0).
  - intros H; inv_Ret H. reflexivity.
  - intros H. apply startTimeLoop_io in H. unfold flushDecoder in H.
    now do 2 apply io_only_step in H.
Qed.

Lemma scanLoop_io fuel : forall found s r s',
  scanLoop fuel found s = Ret (r, s') -> io_only s s'.
Proof.
  induction fuel as [|fuel IH]; intros found s r s'; [discriminate|].
  cbn [scanLoop].
  destruct (av_read_frame (m_io s)) as [[ret p] w].
  destruct (0 <=? ret).
  - intros H. apply IH in H. now apply io_only_step in H.
  - intros H; inv_Ret H. apply io_only_set.
Qed.

Lemma scanLastTimeStamp_io fuel s r s' :
  scanLastTimeStamp fuel s = Ret (r, s') -> io_only s s'.
Proof.
  unfold scanLastTimeStamp.
  destruct (av_seek_frame _ _ _ _) as [e w].
  destruct (e <? 0).
  - intros H; inv_Ret H. reflexivity.
  - intros H. apply bind_Ret_inv in H as [[found s3] [Hl H]].
    apply scanLoop_io in Hl.
    destruct (av_seek_frame (m_io s3) _ _ _) as [e' w'].
    inv_Ret H. unfold flushDecoder in Hl.
    do 2 apply io_only_step in Hl. unfold io_only in *.
    rewrite Hl. reflexivity.
Qed.

Lemma getStreamFrames_io fuel s r s' :
  getStreamFrames fuel s = Ret (r, s') -> io_only s s'.
Proof.
  unfold getStreamFrames.
  destruct (if 0 <? fmt_duration s then _ else _);
    [intros H; inv_Ret H; apply io_only_refl|].
  destruct (0 <? nb_frames (fmt_stream s));
    [intros H; inv_Ret H; apply io_only_refl|].
  destruct (0 <? duration (fmt_stream s));
    [intros H; inv_Ret H; apply io_only_refl|].
  intros H. apply bind_Ret_inv in H as [[found s1] [Hl H]].
  apply scanLastTimeStamp_io in Hl.
  destruct found; now inv_Ret H.
Qed.

Lemma getStreamDuration_io fuel s r s' :
  getStreamDuration fuel s = Ret (r, s') -> io_only s s'.
Proof.
  unfold getStreamDuration.
  destruct (0 <? fmt_duration s);
    [intros H; inv_Ret H; apply io_only_refl|].
  destruct (0 <? duration (fmt_stream s));
    [intros H; inv_Ret H; apply io_only_refl|].
  intros H. apply bind_Ret_inv in H as [[found s1] [Hl H]].
  apply scanLastTimeStamp_io in Hl.
  destruct found; now inv_Ret H.
Qed.

(** A stream leaves its constructor with empty buffers, the head at 0, no
    demuxer seek of the Seeker on record and the latch up. *)
Lemma Stream_new_initial fuel dur st id codec len w s :
  Stream_new fuel dur st id codec len w = Ret s ->
  m_frameSeekSupported s = true /\ m_bufferPing s = [] /\
  m_bufferPong s = [] /\ m_bufferPingHead s = 0%nat /\ seek_trace s = [].
Proof.
  unfold Stream_new. intros H.
  apply bind_Ret_inv in H as [[start s1] [H1 H]].
  apply bind_Ret_inv in H as [[frames s2] [H2 H]].
  apply bind_Ret_inv in H as [[d s3] [H3 H]].
  apply getStreamStartTime_io in H1.
  apply getStreamFrames_io in H2.
  apply getStreamDuration_io in H3.
  inv_Ret H. unfold io_only in *.
  rewrite H3, H2, H1. simpl. auto.
Qed.

Lemma demuxSeek_static s a b c d err s2 :
  demuxSeek s a b c d = (err, s2) ->
  same_static s s2 /\ m_frameSeekSupported s2 = m_frameSeekSupported s.
Proof.
  unfold demuxSeek. destruct (avformat_seek_file _ _ _ _ _ _).
  intros H; inv_Ret H. frame_solve.
Qed.

Lemma frameToTime_static s s' n :
  same_static s s' -> frameToTime s' n = frameToTime s n.
Proof. unfold frameToTime. intros H. now replace (fmt_stream s') with (fmt_stream s) by frame_solve. Qed.

(** C4 (as amended).  The latch is up when the constructor returns.  No
    operation raises it: after [popFrame], [peekNextFrame], [getNextFrame],
    [getNextFrameSequence], [seek] and [seekFrame] a latch that was down is
    down.  It falls when the demuxer rejects the frame-flagged seek and
    when the recursed pass after an accepted frame seek finds the target
    out of the buffer's reach; both then go on as the time seek to
    [frameToTime frame].  It falls in no other case: a frame seek that the
    demuxer accepted and that fails because the priming peek yields no frame,
    or because the recursed walk runs out of frames, returns false with the
    latch up, and a [seekFrame] that starts with the latch up ends with it
    down exactly in the two cases above.  With the latch down, [seekFrame]
    asks the demuxer for no seek by frame: a target the buffer serves
    (in-buffer or short forward walk) is walked to, and every other target
    is handed to the time seek. *)
Theorem frame_seek_latch_one_way fuel s :
  (forall dur st id codec len w s0,
      Stream_new fuel dur st id codec len w = Ret s0 ->
      m_frameSeekSupported s0 = true)
  /\ (m_frameSeekSupported s = false ->
        m_frameSeekSupported (popFrame s) = false
        /\ (forall r s', peekNextFrame fuel s = Ret (r, s') ->
               m_frameSeekSupported s' = false)
        /\ (forall r s', getNextFrame fuel s = Ret (r, s') ->
               m_frameSeekSupported s' = false)
        /\ (forall seq r s', getNextFrameSequence fuel seq s = Ret (r, s') ->
               m_frameSeekSupported s' = false)
        /\ (forall ts b s', seek fuel ts s = Ret (b, s') ->
               m_frameSeekSupported s' = false)
        /\ (forall n b s', seekFrame fuel n s = Ret (b, s') ->
               m_frameSeekSupported s' = false))
  /\ (forall n err s2,
        m_frameSeekSupported s = true ->
        frameTier s n = DemuxerSeek ->
        demuxSeek (flushDecoder s) INT64_MIN
          (wrap64 (n + timeStampToFrame s (m_startTimeStamp s)))
          (wrap64 (n + timeStampToFrame s (m_startTimeStamp s)))
          AVSEEK_FLAG_FRAME = (err, s2) ->
        err < 0 ->
        seekFrame (S fuel) n s
          = seek (S fuel) (frameToTime s n) (with_seekSupported false s2)
        /\ forall b s', seekFrame (S fuel) n s = Ret (b, s') ->
                        m_frameSeekSupported s' = false)
  /\ (forall n err s2 f s3,
        m_frameSeekSupported s = true ->
        frameTier s n = DemuxerSeek ->
        demuxSeek (flushDecoder s) INT64_MIN
          (wrap64 (n + timeStampToFrame s (m_startTimeStamp s)))
          (wrap64 (n + timeStampToFrame s (m_startTimeStamp s)))
          AVSEEK_FLAG_FRAME = (err, s2) ->
        0 <= err ->
        peekNextFrame (S (S fuel)) (clearPing s2) = Ret (V_value f, s3) ->
        frameTier s3 n = DemuxerSeek ->
        seekFrame (S (S fuel)) n s
          = seek (S fuel) (frameToTime s n) (with_seekSupported false s3)
        /\ forall b s', seekFrame (S (S fuel)) n s = Ret (b, s') ->
                        m_frameSeekSupported s' = false)
  /\ (m_frameSeekSupported s = false ->
        forall n,
          seekFrame (S fuel) n s
            = match frameTier s n with
              | DemuxerSeek => seek (S fuel) (frameToTime s n) s
              | _ => seekFrameWalk (S fuel) n s
              end
          /\ forall b s', seekFrame (S fuel) n s = Ret (b, s') ->
                exists new, seeks_since s s' new /\ unflagged new)
  /\ (forall n err s2 b0 s3,
        m_frameSeekSupported s = true ->
        frameTier s n = DemuxerSeek ->
        demuxSeek (flushDecoder s) INT64_MIN
          (wrap64 (n + timeStampToFrame s (m_startTimeStamp s)))
          (wrap64 (n + timeStampToFrame s (m_startTimeStamp s)))
          AVSEEK_FLAG_FRAME = (err, s2) ->
        0 <= err ->
        peekNextFrame (S fuel) (clearPing s2) = Ret (V_bool b0, s3) ->
        seekFrame (S fuel) n s = Ret (false, s3)
        /\ m_frameSeekSupported s3 = true)
  /\ (forall n err s2 f s3,
        m_frameSeekSupported s = true ->
        frameTier s n = DemuxerSeek ->
        demuxSeek (flushDecoder s) INT64_MIN
          (wrap64 (n + timeStampToFrame s (m_startTimeStamp s)))
          (wrap64 (n + timeStampToFrame s (m_startTimeStamp s)))
          AVSEEK_FLAG_FRAME = (err, s2) ->
        0 <= err ->
        peekNextFrame (S (S fuel)) (clearPing s2) = Ret (V_value f, s3) ->
        frameTier s3 n <> DemuxerSeek ->
        seekFrame (S (S fuel)) n s = seekFrameWalk (S fuel) n s3
        /\ forall b s', seekFrame (S (S fuel)) n s = Ret (b, s') ->
                        m_frameSeekSupported s' = true)
  /\ (m_frameSeekSupported s = true ->
      forall n b s',
        seekFrame fuel n s = Ret (b, s') ->
        (m_frameSeekSupported s' = false <->
         frameTier s n = DemuxerSeek
         /\ exists err s2,
              demuxSeek (flushDecoder s) INT64_MIN
                (wrap64 (n + timeStampToFrame s (m_startTimeStamp s)))
                (wrap64 (n + timeStampToFrame s (m_startTimeStamp s)))
                AVSEEK_FLAG_FRAME = (err, s2)
              /\ (err < 0
                  \/ exists f s3,
                       peekNextFrame fuel (clearPing s2) = Ret (V_value f, s3)
                       /\ frameTier s3 n = DemuxerSeek))).
Proof.
  split; [|split; [|split; [|split; [|split; [|split; [|split]]]]]]; cycle 5.
  { intros n err s2 b0 s3 Hl Ht Hd Herr Hp.
    pose proof (demuxSeek_static _ _ _ _ _ _ _ Hd) as [Hs2 Hl2].
    pose proof (peek_frame _ _ _ _ Hp) as [_ [Hl3 _]].
    split; [|simpl in *; congruence].
    unfold seekFrame. cbn [seekFrameInternal]. rewrite Ht, Hl. cbn [orb negb].
    change (timeStampToFrame (flushDecoder s) (m_startTimeStamp (flushDecoder s)))
      with (timeStampToFrame s (m_startTimeStamp s)).
    rewrite Hd. destruct (Z.ltb_spec err 0); [lia|].
    rewrite Hp. reflexivity. }
  { intros n err s2 f s3 Hl Ht Hd Herr Hp Ht3.
    pose proof (demuxSeek_static _ _ _ _ _ _ _ Hd) as [Hs2 Hl2].
    pose proof (peek_frame _ _ _ _ Hp) as [_ [Hl3 _]].
    assert (E : seekFrame (S (S fuel)) n s = seekFrameWalk (S fuel) n s3).
    { unfold seekFrame. cbn [seekFrameInternal]. rewrite Ht, Hl. cbn [orb negb].
      change (timeStampToFrame (flushDecoder s) (m_startTimeStamp (flushDecoder s)))
        with (timeStampToFrame s (m_startTimeStamp s)).
      rewrite Hd. destruct (Z.ltb_spec err 0); [lia|].
      rewrite Hp. cbn [bind index Z.eqb].
      destruct (frameTier s3 n); [reflexivity | reflexivity | contradiction]. }
    split; [exact E|].
    intros b s' H. rewrite E in H. apply seekFrameWalk_frame in H as [_ [Hl' _]].
    simpl in *. congruence. }
  { intros Hl n b s' H.
    assert (Hrec : forall fuel0 s3 b1 s1,
              m_frameSeekSupported s3 = true ->
              seekFrameInternal fuel0 n true s3 = Ret (b1, s1) ->
              (m_frameSeekSupported s1 = false <-> frameTier s3 n = DemuxerSeek)).
    { intros fuel0 s3 b1 s1 Hl3. destruct fuel0 as [|fuel0]; [discriminate|].
      cbn [seekFrameInternal].
      destruct (frameTier s3 n) eqn:Ht3.
      - intros Hw. apply seekFrameWalk_frame in Hw as [_ [Hl' _]].
        split; [congruence | discriminate].
      - intros Hw. apply seekFrameWalk_frame in Hw as [_ [Hl' _]].
        split; [congruence | discriminate].
      - rewrite Hl3. cbn [orb]. unfold seek. intros Hw.
        apply seekInternal_frame in Hw as [_ [Hl' _]]. simpl in Hl'. tauto. }
    destruct fuel as [|fuel]; [discriminate|].
    unfold seekFrame in H. cbn [seekFrameInternal] in H.
    destruct (frameTier s n) eqn:Ht.
    - apply seekFrameWalk_frame in H as [_ [Hl' _]].
      split; [congruence | intros [? _]; discriminate].
    - apply seekFrameWalk_frame in H as [_ [Hl' _]].
      split; [congruence | intros [? _]; discriminate].
    - rewrite Hl in H. cbn [orb negb] in H.
      change (timeStampToFrame (flushDecoder s) (m_startTimeStamp (flushDecoder s)))
        with (timeStampToFrame s (m_startTimeStamp s)) in H.
      destruct (demuxSeek _ _ _ _ _) as [err s2] eqn:Ed.
      pose proof (demuxSeek_static _ _ _ _ _ _ _ Ed) as [Hs2 Hl2].
      destruct (Z.ltb_spec err 0) as [Hneg|Hpos].
      + unfold seek in H. apply seekInternal_frame in H as [_ [Hl' _]].
        simpl in Hl'. split; [|auto].
        intros _. split; [reflexivity|]. exists err, s2. auto.
      + apply bind_Ret_inv in H as [[r s3] [Hp H]].
        pose proof (peek_frame _ _ _ _ Hp) as [_ [Hl3 _]].
        assert (Hup : m_frameSeekSupported s3 = true)
          by (simpl in *; congruence).
        destruct r as [b0|f]; cbn [index Z.eqb] in H.
        * inv_Ret H. split; [congruence|].
          intros [_ [err' [s2' [Ed' [Hneg|[f [s3' [Hp' _]]]]]]]];
            inversion Ed'; subst; [lia | congruence].
        * apply Hrec in H; [|exact Hup]. rewrite H. split.
          -- intros Ht3. split; [reflexivity|]. exists err, s2.
             split; [reflexivity|]. right. eauto.
          -- intros [_ [err' [s2' [Ed' [Hneg|[f' [s3' [Hp' Ht3]]]]]]]];
               inversion Ed'; subst; [lia|].
             rewrite Hp in Hp'. inversion Hp'; subst. exact Ht3. }
  - intros dur st id codec len w s0 H.
    now apply Stream_new_initial in H.
  - intros Hl. split; [pose proof (pop_frame s); frame_solve|].
    split; [intros r s' H; apply peek_frame in H; frame_solve|].
    split; [intros r s' H; apply getNextFrame_frame in H; frame_solve|].
    split; [intros seq r s' H; apply sequenceLoop_frame in H; frame_solve|].
    split.
    + intros ts b s' H. apply seekInternal_frame in H. frame_solve.
    + intros n b s' H. apply seekFrameInternal_frame in H. tauto.
  - intros n err s2 Hl Ht Hd Herr.
    assert (E : seekFrame (S fuel) n s
                = seek (S fuel) (frameToTime s n) (with_seekSupported false s2)).
    { unfold seekFrame. cbn [seekFrameInternal]. rewrite Ht, Hl. cbn [orb negb].
      change (timeStampToFrame (flushDecoder s) (m_startTimeStamp (flushDecoder s)))
        with (timeStampToFrame s (m_startTimeStamp s)).
      rewrite Hd. destruct (Z.ltb_spec err 0); [|lia].
      f_equal. apply frameToTime_static.
      apply demuxSeek_static in Hd. frame_solve. }
    split; [exact E|].
    intros b s' H. rewrite E in H. apply seekInternal_frame in H.
    destruct H as [_ [-> _]]. reflexivity.
  - intros n err s2 f s3 Hl Ht Hd Herr Hp Ht3.
    assert (E : seekFrame (S (S fuel)) n s
                = seek (S fuel) (frameToTime s n) (with_seekSupported false s3)).
    { unfold seekFrame. cbn [seekFrameInternal]. rewrite Ht, Hl. cbn [orb negb].
      change (timeStampToFrame (flushDecoder s) (m_startTimeStamp (flushDecoder s)))
        with (timeStampToFrame s (m_startTimeStamp s)).
      rewrite Hd. destruct (Z.ltb_spec err 0); [lia|].
      rewrite Hp. cbn [bind index Z.eqb]. rewrite Ht3.
      apply peek_frame in Hp.
      apply demuxSeek_static in Hd.
      assert (Hl3 : m_frameSeekSupported s3 = true) by frame_solve.
      rewrite Hl3. cbn [orb].
      f_equal. apply frameToTime_static. frame_solve. }
    split; [exact E|].
    intros b s' H. rewrite E in H. apply seekInternal_frame in H.
    destruct H as [_ [-> _]]. reflexivity.
  - intros Hl n. split.
    + unfold seekFrame. cbn [seekFrameInternal]. rewrite Hl.
      rewrite orb_true_r. reflexivity.
    + intros b s' H. apply seekFrameInternal_frame in H.
      destruct H as [_ [_ [new [Hn Hu]]]]. eauto.
Qed.

End Seeker.

(* ===================================================================== *)
(** ** Prober *)
(* ===================================================================== *)

Section Prober.
Context {World : Type} `{FF : FFmpeg World}.
Implicit Types s : Stream World.

(** C5 (as amended).  With a positive container duration, the frame count
    derived from it, less the correction [timeStampToFrame (2 * start)], is
    the answer when it differs from the declared frame count of the
    substream by more than one frame; when the two are within one frame of
    each other the declared count, if positive, less the same correction is
    the answer.  Neither case reads the file. *)
Theorem getStreamFrames_format_duration fuel s :
  let frames :=
    av_rescale_q (fmt_duration s) (r_frame_rate (fmt_stream s))
      (av_inv_q (av_make_q 1 AV_TIME_BASE)) in
  let correction := timeStampToFrame s (wrap64 (m_startTimeStamp s * 2)) in
  0 < fmt_duration s ->
  (1 < abs64 (wrap64 (frames - nb_frames (fmt_stream s))) ->
     getStreamFrames fuel s = Ret (wrap64 (frames - correction), s))
  /\ (abs64 (wrap64 (frames - nb_frames (fmt_stream s))) <= 1 ->
      0 < nb_frames (fmt_stream s) ->
      getStreamFrames fuel s
        = Ret (wrap64 (nb_frames (fmt_stream s) - correction), s)).
Proof.
  intros frames correction Hd. unfold getStreamFrames.
  destruct (Z.ltb_spec 0 (fmt_duration s)); [|lia].
  fold frames. fold correction. split.
  - intros Hfar.
    destruct (Z.ltb_spec 1 (abs64 (wrap64 (frames - nb_frames (fmt_stream s)))));
      [reflexivity | lia].
  - intros Hnear Hnb.
    destruct (Z.ltb_spec 1 (abs64 (wrap64 (frames - nb_frames (fmt_stream s)))));
      [lia|].
    destruct (Z.ltb_spec 0 (nb_frames (fmt_stream s))); [reflexivity | lia].
Qed.

(** What the start-time probe and the end-of-stream scan take from a
    packet: the first falls back from an unset [pts] to [dts], the second
    yields an unset timestamp whenever either of the two is unset. *)
Lemma scanCandidate_cases (p : AVPacket) :
  scanCandidate p =
    (if dts p =? AV_NOPTS_VALUE then AV_NOPTS_VALUE else pts p)
  /\ startCandidate p =
    (if pts p =? AV_NOPTS_VALUE then dts p else pts p).
Proof.
  unfold scanCandidate, startCandidate. split; [|reflexivity].
  destruct (Z.eqb_spec (dts p) AV_NOPTS_VALUE) as [->|]; reflexivity.
Qed.

End Prober.

(* ===================================================================== *)
(** ** The theorems at work on a small container *)
(* ===================================================================== *)

(** C8 at two states: the latched stream has its head (0) inside [ping]
    (two frames), the fresh stream has it at the end of an empty [ping]. *)
Lemma popFrame_release_or_noop_witness :
  ((m_bufferPingHead Toy.latched < length (m_bufferPing Toy.latched))%nat
   /\ m_bufferPingHead (popFrame Toy.latched) = 1%nat
   /\ m_bufferPing (popFrame Toy.latched) !! 0%nat = Some Frame_default)
  /\ (m_bufferPingHead (Toy.stream Toy.ms10)
        = length (m_bufferPing (Toy.stream Toy.ms10))
      /\ popFrame (Toy.stream Toy.ms10) = Toy.stream Toy.ms10).
Proof.
  assert (H1 : (m_bufferPingHead Toy.latched
                < length (m_bufferPing Toy.latched))%nat)
    by (vm_compute; lia).
  assert (H2 : m_bufferPingHead (Toy.stream Toy.ms10)
               = length (m_bufferPing (Toy.stream Toy.ms10)))
    by reflexivity.
  split.
  - destruct (proj1 (popFrame_release_or_noop Toy.latched) H1)
      as [_ [Ha [Hb _]]].
    split; [exact H1|]. split; [exact Ha | exact Hb].
  - split; [exact H2|].
    exact (proj2 (popFrame_release_or_noop (Toy.stream Toy.ms10)) H2).
Defined.

(** C1 on the fresh stream: the first peek decodes a block and returns
    frame 0; [getNextFrame] returns the same frame and pops it. *)
Lemma getNextFrame_is_peek_then_pop_witness :
  exists f s1,
    peekNextFrame 20 (Toy.stream Toy.ms10) = Ret (V_value f, s1)
    /\ Frame_getFrameNumber f = 0
    /\ getNextFrame 20 (Toy.stream Toy.ms10) = Ret (V_value f, popFrame s1)
    /\ getNextFrame 3 s1 = Ret (V_value f, popFrame s1).
Proof.
  destruct (peekNextFrame 20 (Toy.stream Toy.ms10)) as [[[b|f] s1]|e] eqn:E;
    try (vm_compute in E; discriminate).
  exists f, s1. split; [reflexivity|].
  split; [vm_compute in E; inversion E; reflexivity|].
  destruct (proj2 (proj2 (getNextFrame_is_peek_then_pop 20 (Toy.stream Toy.ms10)))
              f s1 E) as [Ha Hb].
  split; [exact Ha | exact (Hb 3%nat)].
Defined.

(** C2 on the fresh stream: the second peek, even on a budget of 0, returns
    the frame of the first. *)
Lemma peekNextFrame_idempotent_witness :
  exists f s1,
    peekNextFrame 20 (Toy.stream Toy.ms10) = Ret (V_value f, s1)
    /\ peekNextFrame 0 s1 = Ret (V_value f, s1)
    /\ m_bufferPingHead s1 = 0%nat.
Proof.
  destruct (peekNextFrame 20 (Toy.stream Toy.ms10)) as [[[b|f] s1]|e] eqn:E;
    try (vm_compute in E; discriminate).
  exists f, s1. split; [reflexivity|].
  destruct (peekNextFrame_idempotent 20 (Toy.stream Toy.ms10) (V_value f) s1 E)
    as [Ha _].
  split; [exact (Ha f eq_refl 0%nat)|].
  vm_compute in E. inversion E. reflexivity.
Defined.

(** C10 on a file that cannot be read and on a file at its end. *)
Lemma eof_and_decode_error_same_value_witness :
  returned (decodeNextBlock 20 Toy.unreadable) = Some false
  /\ returned (decodeNextBlock 20 Toy.at_end) = Some true
  /\ returned (peekNextFrame 20 Toy.unreadable) = Some (V_bool false)
  /\ returned (peekNextFrame 20 Toy.at_end) = Some (V_bool false)
  /\ returned (getNextFrame 20 Toy.unreadable) = Some (V_bool false)
  /\ returned (getNextFrame 20 Toy.at_end) = Some (V_bool false).
Proof.
  destruct (decodeNextBlock 20 Toy.unreadable) as [[b1 e1]|x] eqn:D1;
    try (vm_compute in D1; discriminate).
  destruct (decodeNextBlock 20 Toy.at_end) as [[b2 e2]|x] eqn:D2;
    try (vm_compute in D2; discriminate).
  assert (b1 = false) by (vm_compute in D1; inversion D1; reflexivity).
  assert (b2 = true) by (vm_compute in D2; inversion D2; reflexivity).
  subst b1 b2.
  assert (Hp : m_bufferPong e2 = [])
    by (vm_compute in D2; inversion D2; reflexivity).
  destruct (proj1 (eof_and_decode_error_same_value 20 Toy.unreadable Toy.at_end
                     e1 e2 eq_refl eq_refl D1 D2 Hp))
    as [s1 [s2 [A [B [C D]]]]].
  rewrite A, B, C, D. simpl. repeat split; reflexivity.
Defined.

(** C7 on the fresh stream: [0; 2; 1] is refused after frames 0 and 2 have
    been served; [0; 2; 5] returns frames 0, 2 and 5. *)
Lemma getNextFrameSequence_ascending_witness :
  (ascendingFrom 0 [0; 2; 1] = false
   /\ returned (getNextFrameSequence 20 [0; 2; 1] (Toy.stream Toy.ms10))
      = Some (V_bool false))
  /\ (ascendingFrom 0 [0; 2; 5] = true
      /\ exists fs,
           returned (getNextFrameSequence 20 [0; 2; 5] (Toy.stream Toy.ms10))
           = Some (V_value fs)
           /\ map Frame_getFrameNumber fs = [0; 2; 5]).
Proof.
  split.
  - split; [reflexivity|].
    destruct (getNextFrameSequence 20 (acceptedPrefix 0 [0; 2; 1])
                (Toy.stream Toy.ms10)) as [[r s1]|e] eqn:E;
      try (vm_compute in E; discriminate).
    rewrite (proj1 (proj2 (getNextFrameSequence_ascending 20 [0; 2; 1]
                             (Toy.stream Toy.ms10))) eq_refl r s1 E).
    reflexivity.
  - split; [reflexivity|].
    assert (Hr : Forall (fun i => i < INT64_MAX) [0; 2; 5])
      by (repeat constructor).
    destruct (proj2 (proj2 (getNextFrameSequence_ascending 20 [0; 2; 5]
                              (Toy.stream Toy.ms10))) eq_refl Hr) as [E _].
    rewrite E. vm_compute. eexists. split; reflexivity.
Defined.

(** C3 (as amended) at frame 7 of the 30 fps stream on milliseconds. *)
Lemma frame_timestamp_roundtrip_witness :
  0 <= 7
  /\ timeStampToFrame (Toy.stream Toy.ms10)
       (frameToTimeStamp (Toy.stream Toy.ms10) 7) = 7.
Proof.
  split; [lia|].
  apply (frame_timestamp_roundtrip (Toy.stream Toy.ms10) 7).
  - lia.
  - vm_compute. split; [reflexivity | discriminate].
  - vm_compute. discriminate.
Defined.

(** C3 as stated fails: with 50 frames per second on a time base of 1/25 s,
    frame 1 is stamped 1 and timestamp 1 is frame 2. *)
Lemma coarse_time_base_breaks_roundtrip :
  0 <= 1
  /\ frameToTimeStamp Toy.coarse 1 = 1
  /\ timeStampToFrame Toy.coarse (frameToTimeStamp Toy.coarse 1) = 2
  /\ timeStampToFrame Toy.coarse (frameToTimeStamp Toy.coarse 1) <> 1.
Proof.
  split; [lia|]. split; [reflexivity|]. split; [reflexivity|].
  vm_compute. discriminate.
Qed.

Ltac concretize H :=
  let H' := fresh in
  pose proof H as H'; vm_compute in H'; inversion H'; subst; clear H'.

(** C4 (as amended) at work.  On the stream whose demuxer rejects seeks by
    frame the first [seekFrame] lowers the latch; from then on a target the
    buffer serves is walked to and a far target goes to the time seek, and
    the latch stays down.  On demuxers that accept seeks by frame: a seek
    that lands on a block out of reach of the target lowers the latch; a
    seek past the end of the file (no frame to prime with) and a seek whose
    forward walk runs out of frames return false with the latch up, as the
    account of when the latch falls has it. *)
Lemma frame_seek_latch_one_way_witness :
  (exists s0,
      Stream_new 20 0 (Toy.video (av_make_q 0 1) 10 0) 0 Toy.codec 2
        (Toy.world Toy.ms10) = Ret s0
      /\ m_frameSeekSupported s0 = true)
  /\ (exists b s', seekFrame 20 0 (Toy.stream Toy.ms10) = Ret (b, s')
                   /\ m_frameSeekSupported s' = false)
  /\ (exists b s', seekFrame 20 2 gapped_stream = Ret (b, s')
                   /\ m_frameSeekSupported s' = false)
  /\ (exists s3, seekFrame 20 50 indexed_stream = Ret (false, s3)
                 /\ m_frameSeekSupported s3 = true)
  /\ (exists s',
        seekFrame 20 4 doubled_stream = Ret (false, s')
        /\ m_frameSeekSupported s' = true
        /\ (m_frameSeekSupported s' = false <->
            frameTier doubled_stream 4 = DemuxerSeek
            /\ exists err s2,
                 demuxSeek (flushDecoder doubled_stream) INT64_MIN
                   (wrap64 (4 + timeStampToFrame doubled_stream
                                  (m_startTimeStamp doubled_stream)))
                   (wrap64 (4 + timeStampToFrame doubled_stream
                                  (m_startTimeStamp doubled_stream)))
                   AVSEEK_FLAG_FRAME = (err, s2)
                 /\ (err < 0
                     \/ exists f s3,
                          peekNextFrame 20 (clearPing s2) = Ret (V_value f, s3)
                          /\ frameTier s3 4 = DemuxerSeek)))
  /\ m_frameSeekSupported Toy.latched = false
  /\ (exists b s', seek 20 100000 Toy.latched = Ret (b, s')
                   /\ m_frameSeekSupported s' = false)
  /\ seekFrame 20 2 Toy.latched = seekFrameWalk 20 2 Toy.latched
  /\ seekFrame 20 9 Toy.latched = seek 20 (frameToTime Toy.latched 9) Toy.latched.
Proof.
  assert (Hl : m_frameSeekSupported Toy.latched = false) by reflexivity.
  split.
  { destruct (Stream_new 20 0 (Toy.video (av_make_q 0 1) 10 0) 0 Toy.codec 2
                (Toy.world Toy.ms10)) as [s0|e] eqn:E;
      [|vm_compute in E; discriminate E].
    exists s0. split; [reflexivity|].
    exact (proj1 (frame_seek_latch_one_way 20 (Toy.stream Toy.ms10))
             _ _ _ _ _ _ s0 E). }
  split.
  { destruct (seekFrame 20 0 (Toy.stream Toy.ms10)) as [[b s']|e] eqn:E;
      [|vm_compute in E; discriminate E].
    exists b, s'. split; [reflexivity|].
    destruct (demuxSeek (flushDecoder (Toy.stream Toy.ms10)) INT64_MIN
                (wrap64 (0 + timeStampToFrame (Toy.stream Toy.ms10)
                               (m_startTimeStamp (Toy.stream Toy.ms10))))
                (wrap64 (0 + timeStampToFrame (Toy.stream Toy.ms10)
                               (m_startTimeStamp (Toy.stream Toy.ms10))))
                AVSEEK_FLAG_FRAME) as [err s2] eqn:Ed.
    assert (Herr : err < 0) by (vm_compute in Ed; inversion Ed; lia).
    destruct (frame_seek_latch_one_way 19 (Toy.stream Toy.ms10))
      as [_ [_ [H3 _]]].
    exact (proj2 (H3 0 err s2 eq_refl eq_refl Ed Herr) b s' E). }
  split.
  { destruct (seekFrame 20 2 gapped_stream) as [[b s']|e] eqn:E;
      [|vm_compute in E; discriminate E].
    exists b, s'. split; [reflexivity|].
    destruct (demuxSeek (flushDecoder gapped_stream) INT64_MIN
                (wrap64 (2 + timeStampToFrame gapped_stream
                               (m_startTimeStamp gapped_stream)))
                (wrap64 (2 + timeStampToFrame gapped_stream
                               (m_startTimeStamp gapped_stream)))
                AVSEEK_FLAG_FRAME) as [err s2] eqn:Ed.
    assert (Herr : 0 <= err) by (vm_compute in Ed; inversion Ed; lia).
    destruct (peekNextFrame 20 (clearPing s2)) as [[[b0|f] s3]|e] eqn:Ep;
      try (concretize Ed; vm_compute in Ep; discriminate Ep).
    assert (Ht3 : frameTier s3 2 = DemuxerSeek)
      by (concretize Ed; concretize Ep; vm_compute; reflexivity).
    destruct (frame_seek_latch_one_way 18 gapped_stream) as (_ & _ & _ & H4 & _).
    exact (proj2 (H4 2 err s2 f s3 eq_refl eq_refl Ed Herr Ep Ht3) b s' E). }
  split.
  { destruct (demuxSeek (flushDecoder indexed_stream) INT64_MIN
                (wrap64 (50 + timeStampToFrame indexed_stream
                                (m_startTimeStamp indexed_stream)))
                (wrap64 (50 + timeStampToFrame indexed_stream
                                (m_startTimeStamp indexed_stream)))
                AVSEEK_FLAG_FRAME) as [err s2] eqn:Ed.
    assert (Herr : 0 <= err) by (vm_compute in Ed; inversion Ed; lia).
    destruct (peekNextFrame 20 (clearPing s2)) as [[[b0|f] s3]|e] eqn:Ep;
      try (concretize Ed; vm_compute in Ep; discriminate Ep).
    destruct (frame_seek_latch_one_way 19 indexed_stream)
      as (_ & _ & _ & _ & _ & H6 & _).
    exists s3. exact (H6 50 err s2 b0 s3 eq_refl eq_refl Ed Herr Ep). }
  split.
  { destruct (seekFrame 20 4 doubled_stream) as [[b s']|e] eqn:E;
      [|vm_compute in E; discriminate E].
    assert (Hb : b = false) by (vm_compute in E; inversion E; reflexivity).
    subst b. exists s'. split; [reflexivity|].
    destruct (demuxSeek (flushDecoder doubled_stream) INT64_MIN
                (wrap64 (4 + timeStampToFrame doubled_stream
                               (m_startTimeStamp doubled_stream)))
                (wrap64 (4 + timeStampToFrame doubled_stream
                               (m_startTimeStamp doubled_stream)))
                AVSEEK_FLAG_FRAME) as [err s2] eqn:Ed.
    assert (Herr : 0 <= err) by (vm_compute in Ed; inversion Ed; lia).
    destruct (peekNextFrame 20 (clearPing s2)) as [[[b0|f] s3]|e] eqn:Ep;
      try (concretize Ed; vm_compute in Ep; discriminate Ep).
    assert (Ht3 : frameTier s3 4 <> DemuxerSeek)
      by (concretize Ed; concretize Ep; vm_compute; intros K; discriminate K).
    destruct (frame_seek_latch_one_way 18 doubled_stream)
      as (_ & _ & _ & _ & _ & _ & H7 & _).
    split; [exact (proj2 (H7 4 err s2 f s3 eq_refl eq_refl Ed Herr Ep Ht3)
                     false s' E)|].
    destruct (frame_seek_latch_one_way 20 doubled_stream)
      as (_ & _ & _ & _ & _ & _ & _ & H8).
    pose proof (H8 eq_refl 4 false s' E) as K8. rewrite Ed in K8. exact K8. }
  split; [exact Hl|].
  split.
  { destruct (seek 20 100000 Toy.latched) as [[b s']|e] eqn:E;
      [|vm_compute in E; discriminate E].
    exists b, s'. split; [reflexivity|].
    destruct (frame_seek_latch_one_way 20 Toy.latched) as (_ & H2 & _).
    exact (proj1 (proj2 (proj2 (proj2 (proj2 (H2 Hl))))) 100000 b s' E). }
  destruct (frame_seek_latch_one_way 19 Toy.latched) as [_ [_ [_ [_ [H5 _]]]]].
  assert (T2 : frameTier Toy.latched 2 = ShortForward) by (vm_compute; reflexivity).
  assert (T9 : frameTier Toy.latched 9 = DemuxerSeek) by (vm_compute; reflexivity).
  pose proof (proj1 (H5 Hl 2)) as E2. rewrite T2 in E2.
  pose proof (proj1 (H5 Hl 9)) as E9. rewrite T9 in E9.
  split; [exact E2 | exact E9].
Defined.

(** C4 as stated fails, twice.  With the latch down and frames 0 and 1 in
    the buffer, [seekFrame 2] walks forward to frame 2 and succeeds, where
    the time seek to [frameToTime 2] (66667 us, before the 67000 us of
    frame 2) fails: a latched [seekFrame] is not always the time seek.  And
    on a demuxer that accepts the seek by frame to index 4 of a file that
    stamps every frame twice, the recursed locate fails (the forward walk
    from frame 2 runs out of frames): [seekFrame 4] returns false and the
    latch is still up. *)
Lemma frame_seek_latch_claim_fails :
  (m_frameSeekSupported Toy.latched = false
   /\ returned (seekFrame 20 2 Toy.latched) = Some true
   /\ returned (seek 20 (frameToTime Toy.latched 2) Toy.latched) = Some false
   /\ seekFrame 20 2 Toy.latched
      <> seek 20 (frameToTime Toy.latched 2) Toy.latched)
  /\ (m_frameSeekSupported doubled_stream = true
      /\ exists s',
           seekFrame 20 4 doubled_stream = Ret (false, s')
           /\ seek_trace s' = [mkSeekCall 4 AVSEEK_FLAG_FRAME]
           /\ m_frameSeekSupported s' = true).
Proof.
  split.
  - split; [reflexivity|]. split; [reflexivity|]. split; [reflexivity|].
    intros H. apply (f_equal returned) in H. vm_compute in H. discriminate.
  - split; [reflexivity|]. eexists. split; [vm_compute; reflexivity|].
    split; reflexivity.
Qed.

(** C5 (as amended) on a container whose counts disagree (300 against 100)
    and on one whose counts agree (300 against 299). *)
Lemma getStreamFrames_format_duration_witness :
  (0 < fmt_duration Toy.disagreeing
   /\ getStreamFrames 0 Toy.disagreeing = Ret (300, Toy.disagreeing))
  /\ (0 < fmt_duration Toy.agreeing
      /\ getStreamFrames 0 Toy.agreeing = Ret (299, Toy.agreeing)).
Proof.
  split.
  - split; [reflexivity|].
    apply (proj1 (getStreamFrames_format_duration 0 Toy.disagreeing eq_refl)).
    reflexivity.
  - split; [reflexivity|].
    apply (proj2 (getStreamFrames_format_duration 0 Toy.agreeing eq_refl)).
    + vm_compute. discriminate.
    + reflexivity.
Defined.

(** C5 as stated fails: counts 200 frames apart give the count derived from
    the duration (300), not the declared 100; counts one frame apart give
    the declared 299, not the 300 derived from the duration. *)
Lemma getStreamFrames_uses_duration_when_counts_differ :
  (0 < fmt_duration Toy.disagreeing
   /\ av_rescale_q (fmt_duration Toy.disagreeing)
        (r_frame_rate (fmt_stream Toy.disagreeing))
        (av_inv_q (av_make_q 1 AV_TIME_BASE)) = 300
   /\ nb_frames (fmt_stream Toy.disagreeing) = 100
   /\ timeStampToFrame Toy.disagreeing
        (wrap64 (m_startTimeStamp Toy.disagreeing * 2)) = 0
   /\ returned (getStreamFrames 0 Toy.disagreeing) = Some 300
   /\ returned (getStreamFrames 0 Toy.disagreeing) <> Some 100)
  /\ (0 < fmt_duration Toy.agreeing
      /\ av_rescale_q (fmt_duration Toy.agreeing)
           (r_frame_rate (fmt_stream Toy.agreeing))
           (av_inv_q (av_make_q 1 AV_TIME_BASE)) = 300
      /\ nb_frames (fmt_stream Toy.agreeing) = 299
      /\ returned (getStreamFrames 0 Toy.agreeing) = Some 299
      /\ returned (getStreamFrames 0 Toy.agreeing) <> Some 300).
Proof.
  repeat split; try reflexivity; vm_compute; discriminate.
Qed.

(** C6: the scan at a file whose packets carry [dts] 0, 33 and 67 and no
    [pts].  The candidate of each packet is the unset timestamp, the maximum
    stays at the start timestamp 0, and the probes return 1 frame and one
    frame time, where the largest [dts], 67, stands for frame 2 and 67000 us
    (3 frames, 100333 us).  The start-time probe on the same packets does
    fall back to [dts]. *)
Theorem scan_ignores_packets_without_pts :
  scanCandidate (mkPacket 0 AV_NOPTS_VALUE 67) = AV_NOPTS_VALUE
  /\ startCandidate (mkPacket 0 AV_NOPTS_VALUE 67) = 67
  /\ scanCandidate (mkPacket 0 67 AV_NOPTS_VALUE) = AV_NOPTS_VALUE
  /\ returned (getStreamFrames 20 Toy.dts_only) = Some 1
  /\ wrap64 (1 + timeStampToFrame Toy.dts_only 67) = 3
  /\ returned (getStreamDuration 20 Toy.dts_only) = Some 33333
  /\ wrap64 (timeStampToTime Toy.dts_only 67 + frameToTime Toy.dts_only 1) = 100333
  /\ returned (getStreamStartTime 20 Toy.dts_only_unprobed) = Some 0.
Proof. repeat split; reflexivity. Qed.

(** C9: a frame of the anamorphic stream (720x576 stored, 16:9 declared).
    The stream reports the declared 16:9, the frame reports 720/576. *)
Theorem Frame_getAspectRatio_ignores_display_aspect :
  exists f s1,
    getNextFrame 20 Toy.anamorphic = Ret (V_value f, s1)
    /\ num (display_aspect_ratio (fmt_stream Toy.anamorphic)) = 16
    /\ Stream_getAspectRatio Toy.anamorphic = av_q2d (av_make_q 16 9)
    /\ Frame_getAspectRatio f = Some 1.25%float
    /\ PrimFloat.ltb 1.25%float (av_q2d (av_make_q 16 9)) = true.
Proof.
  do 2 eexists. split; [vm_compute; reflexivity|].
  repeat split; vm_compute; reflexivity.
Qed.

(* ===================================================================== *)
(** ** The cursor invariant *)
(* ===================================================================== *)

Section CursorFacts.
Context {World : Type} `{FF : FFmpeg World}.
Implicit Types s : Stream World.

Lemma stamped_static s s' f : same_static s s' -> stamped s f -> stamped s' f.
Proof.
  intros Hs [a [Ha [Ht Hn]]]. exists a. split; [exact Ha|].
  unfold timeStampToTime, timeStampToFrame in *.
  destruct Hs as (_ & _ & _ & H4 & _ & H6 & _ & _). rewrite H4, H6. auto.
Qed.

Lemma cursor_ok_ext s s' :
  same_static s s' -> m_bufferPing s' = m_bufferPing s ->
  m_bufferPingHead s' = m_bufferPingHead s -> cursor_ok s -> cursor_ok s'.
Proof.
  intros Hs Hp Hh [H1 H2]. unfold cursor_ok. rewrite Hp, Hh. split; [exact H1|].
  eapply Forall_impl; [exact H2|]. intros f. now apply stamped_static.
Qed.

Lemma cursor_ok_clear s : cursor_ok (clearPing s).
Proof. split; simpl; [lia | constructor]. Qed.

(** Every frame a decode run appends owns its decoder frame and carries
    the stamps derived from it. *)
Lemma decodeLoop_stamped fuel : forall d fr s b s',
  Forall (stamped s) (m_bufferPong s) ->
  decodeLoop fuel d fr s = Ret (b, s') ->
  Forall (stamped s') (m_bufferPong s').
Proof.
  induction fuel as [|fuel IH]; intros d fr s b s' Hf; simpl; [discriminate|].
  destruct d.
  - destruct (match fr with Some f => (Some f, m_io s)
                          | None => av_frame_alloc (m_io s) end)
      as [[f|] w1]; [|intros H; inv_Ret H; exact Hf].
    destruct (avcodec_receive_frame w1 f) as [[ret f'] w2].
    destruct (ret <? 0).
    + destruct ((ret =? AVERROR_EAGAIN) || (ret =? AVERROR_EOF)).
      * simpl. destruct (m_bufferLength s <=? Z.of_nat (length (m_bufferPong s))).
        -- intros H; inv_Ret H. exact Hf.
        -- intros H. apply IH in H; [exact H | exact Hf].
      * intros H; inv_Ret H. exact Hf.
    + intros H. apply IH in H; [exact H|].
      simpl. apply Forall_app. split; [exact Hf|].
      constructor; [|constructor].
      eexists. split; [reflexivity|]. split; reflexivity.
  - destruct (av_read_frame (m_io s)) as [[ret p] w1].
    destruct (ret <? 0).
    + destruct (negb (ret =? AVERROR_EOF)); intros H; inv_Ret H; exact Hf.
    + simpl. destruct (m_index s =? stream_index p).
      * destruct (avcodec_send_packet w1 p) as [ret2 w2].
        destruct (ret2 <? 0); intros H;
          [inv_Ret H; exact Hf | apply IH in H; [exact H | exact Hf]].
      * intros H. apply IH in H; [exact H | exact Hf].
Qed.

(** A decode run never indexes a vector: it can only run out of budget. *)
Lemma decodeLoop_fault fuel : forall d fr s e,
  decodeLoop fuel d fr s = Fault e -> e = OutOfFuel.
Proof.
  induction fuel as [|fuel IH]; intros d fr s e; simpl;
    [intros H; now inversion H|].
  destruct d.
  - destruct (match fr with Some f => (Some f, m_io s)
                          | None => av_frame_alloc (m_io s) end)
      as [[f|] w1]; [|discriminate].
    destruct (avcodec_receive_frame w1 f) as [[ret f'] w2].
    repeat match goal with
           | |- context [if ?c then _ else _] => destruct c
           end; try discriminate; apply IH.
  - destruct (av_read_frame (m_io s)) as [[ret p] w1].
    destruct (ret <? 0).
    + destruct (negb (ret =? AVERROR_EOF)); discriminate.
    + simpl. destruct (m_index s =? stream_index p).
      * destruct (avcodec_send_packet w1 p) as [ret2 w2].
        destruct (ret2 <? 0); [discriminate | apply IH].
      * apply IH.
Qed.

(** Why a decode run reports success: the block is full, or the demuxer
    said end of file. *)
Lemma decodeLoop_true fuel : forall d fr s s',
  decodeLoop fuel d fr s = Ret (true, s') ->
  m_bufferLength s <= Z.of_nat (length (m_bufferPong s'))
  \/ exists w p, av_read_frame w = (AVERROR_EOF, p, m_io s').
Proof.
  induction fuel as [|fuel IH]; intros d fr s s'; simpl; [discriminate|].
  destruct d.
  - destruct (match fr with Some f => (Some f, m_io s)
                          | None => av_frame_alloc (m_io s) end)
      as [[f|] w1]; [|discriminate].
    destruct (avcodec_receive_frame w1 f) as [[ret f'] w2].
    destruct (ret <? 0).
    + destruct ((ret =? AVERROR_EAGAIN) || (ret =? AVERROR_EOF)); [|discriminate].
      simpl.
      destruct (Z.leb_spec (m_bufferLength s) (Z.of_nat (length (m_bufferPong s))))
        as [Hfull|Hshort].
      * intros H; inv_Ret H. left. simpl. assumption.
      * intros H. apply IH in H. exact H.
    + intros H. apply IH in H. exact H.
  - destruct (av_read_frame (m_io s)) as [[ret p] w1] eqn:Er.
    destruct (ret <? 0).
    + destruct (Z.eqb_spec ret AVERROR_EOF) as [->|]; simpl; [|discriminate].
      intros H; inv_Ret H. right. simpl. eauto.
    + simpl. destruct (m_index s =? stream_index p).
      * destruct (avcodec_send_packet w1 p) as [ret2 w2].
        destruct (ret2 <? 0); [discriminate|]. intros H. apply IH in H. exact H.
      * intros H. apply IH in H. exact H.
Qed.

Lemma peek_cursor_ok fuel s r s' :
  cursor_ok s -> peekNextFrame fuel s = Ret (r, s') -> cursor_ok s'.
Proof.
  intros Hc. unfold peekNextFrame.
  destruct (Nat.eqb (m_bufferPingHead s) (length (m_bufferPing s))).
  - intros H. apply bind_Ret_inv in H as [[ok s1] [Hd H]].
    pose proof (decodeNextBlock_frame _ _ _ _ Hd) as [Hs [_ [Hp Hh]]].
    destruct ok; simpl in H.
    + assert (Hc2 : cursor_ok
                (with_pong [] (with_head 0%nat
                   (with_pong (m_bufferPing s1) (with_ping (m_bufferPong s1) s1))))).
      { split; simpl; [lia|]. unfold decodeNextBlock in Hd.
        apply decodeLoop_stamped in Hd; [exact Hd | constructor]. }
      destruct (Nat.eqb (length (m_bufferPong s1)) 0).
      * inv_Ret H. exact Hc2.
      * apply pingFront_inv in H as [-> _]. exact Hc2.
    + inv_Ret H. now apply (cursor_ok_ext s s').
  - intros H. now apply pingFront_inv in H as [-> _].
Qed.

Lemma pop_cursor_ok s : cursor_ok s -> cursor_ok (popFrame s).
Proof.
  intros [H1 H2]. unfold popFrame.
  destruct (Nat.leb_spec (length (m_bufferPing s)) (m_bufferPingHead s));
    [split; assumption|].
  split; simpl.
  - rewrite length_insert. lia.
  - rewrite drop_insert_lt by lia.
    replace (S (m_bufferPingHead s)) with (m_bufferPingHead s + 1)%nat by lia.
    rewrite <- drop_drop. now apply Forall_drop.
Qed.

Lemma head_frame_stamped s f :
  cursor_ok s -> m_bufferPing s !! m_bufferPingHead s = Some f -> stamped s f.
Proof.
  intros [_ H2] Hf. rewrite Forall_lookup in H2. apply (H2 0%nat).
  rewrite lookup_drop. now rewrite Nat.add_0_r.
Qed.

Lemma peek_fault fuel s e :
  cursor_ok s -> peekNextFrame fuel s = Fault e -> e = OutOfFuel.
Proof.
  intros [H1 _]. unfold peekNextFrame, pingFront.
  destruct (Nat.eqb_spec (m_bufferPingHead s) (length (m_bufferPing s))) as [Eh|Eh].
  - destruct (decodeNextBlock fuel s) as [[ok s1]|e'] eqn:Hd; simpl.
    + destruct ok; simpl; [|discriminate].
      destruct (Nat.eqb_spec (length (m_bufferPong s1)) 0); [discriminate|].
      destruct (m_bufferPong s1) as [|f l]; [simpl in *; lia | discriminate].
    + intros H; inversion H; subst. unfold decodeNextBlock in Hd.
      now apply decodeLoop_fault in Hd.
  - destruct (lookup_lt_is_Some_2 (m_bufferPing s) (m_bufferPingHead s)
                ltac:(lia)) as [f Hf].
    rewrite Hf. discriminate.
Qed.

Lemma getNextFrame_cursor_ok fuel s r s' :
  cursor_ok s -> getNextFrame fuel s = Ret (r, s') -> cursor_ok s'.
Proof.
  intros Hc H.
  apply getNextFrame_inv in H as [s1 [[Hp [_ ->]] | [f [Hp [_ ->]]]]];
    apply peek_cursor_ok in Hp; auto using pop_cursor_ok.
Qed.

Lemma skipFrames_cursor_ok fuel n : forall s b s',
  cursor_ok s -> skipFrames fuel n s = Ret (b, s') -> cursor_ok s'.
Proof.
  induction n as [|n IH]; intros s b s' Hc; simpl.
  - intros H; now inv_Ret H.
  - intros H. apply bind_Ret_inv in H as [[r s1] [Hp H]].
    apply peek_cursor_ok in Hp; [|exact Hc].
    destruct r as [x|f]; simpl in H; [now inv_Ret H|].
    eapply IH; [|exact H]. now apply pop_cursor_ok.
Qed.

Lemma sequenceLoop_cursor_ok fuel seq : forall start acc s r s',
  cursor_ok s -> sequenceLoop fuel seq start acc s = Ret (r, s') -> cursor_ok s'.
Proof.
  induction seq as [|i rest IH]; intros start acc s r s' Hc; simpl.
  - intros H; now inv_Ret H.
  - destruct (i <? start); [intros H; now inv_Ret H|].
    intros H. apply bind_Ret_inv in H as [[ok s1] [Hk H]].
    apply skipFrames_cursor_ok in Hk; [|exact Hc].
    destruct ok; simpl in H; [|now inv_Ret H].
    apply bind_Ret_inv in H as [[fr s2] [Hg H]].
    apply getNextFrame_cursor_ok in Hg; [|exact Hk].
    destruct fr as [x|f]; [now inv_Ret H|]. eapply IH; eauto.
Qed.

End CursorFacts.

(* ===================================================================== *)
(** ** Where a seek lands and what it asks of the demuxer *)
(* ===================================================================== *)

Section SeekFacts.
Context {World : Type} `{FF : FFmpeg World}.
Implicit Types s : Stream World.

Lemma demuxSeek_buffers s a b c d err s2 :
  demuxSeek s a b c d = (err, s2) ->
  same_static s s2
  /\ m_bufferPing s2 = m_bufferPing s
  /\ m_bufferPong s2 = m_bufferPong s
  /\ m_bufferPingHead s2 = m_bufferPingHead s
  /\ m_frameSeekSupported s2 = m_frameSeekSupported s
  /\ seek_trace s2 = mkSeekCall b d :: seek_trace s.
Proof.
  unfold demuxSeek. destruct (avformat_seek_file _ _ _ _ _ _).
  intros H; inv_Ret H. simpl. repeat split; reflexivity.
Qed.

Lemma seekWalk_run fuel : forall t s b s',
  seekWalk fuel t s = Ret (b, s') ->
  (cursor_ok s -> cursor_ok s')
  /\ (b = true ->
      exists f, m_bufferPing s' !! m_bufferPingHead s' = Some f
                /\ brackets_time s' t f).
Proof.
  induction fuel as [|fuel IH]; intros t s b s'; [discriminate|].
  cbn [seekWalk]. intros H. apply bind_Ret_inv in H as [[r s1] [Hp H]].
  assert (Hc : cursor_ok s -> cursor_ok s1)
    by (intros Hx; exact (peek_cursor_ok _ _ _ _ Hx Hp)).
  pose proof (peek_inv _ _ _ _ Hp) as Hi.
  destruct r as [x|f].
  - inv_Ret H. split; [exact Hc | discriminate].
  - destruct Hi as [?|[f' [Ef Hf]]]; [discriminate|]. inversion Ef; subst f'.
    destruct (Z.leb_spec t (Frame_getTimeStamp f)) as [Ka|Ka].
    { inv_Ret H. split; [exact Hc|]. intros _. exists f. split; [exact Hf|].
      left. assumption. }
    destruct (Z.ltb_spec (Frame_getTimeStamp f) t) as [Kb|Kb]; simpl in H.
    + destruct (Z.ltb_spec t (wrap64 (Frame_getTimeStamp f + getFrameTime s1)))
        as [Kc|Kc].
      * inv_Ret H. split; [exact Hc|]. intros _. exists f. split; [exact Hf|].
        right. split; assumption.
      * apply IH in H as [H1 H2]. split; [|exact H2].
        intros Hs. apply H1. apply pop_cursor_ok. now apply Hc.
    + apply IH in H as [H1 H2]. split; [|exact H2].
      intros Hs. apply H1. apply pop_cursor_ok. now apply Hc.
Qed.

(** The timestamp a time seek hands to the demuxer. *)
Lemma seekInternal_run fuel : forall t rec s b s',
  seekInternal fuel t rec s = Ret (b, s') ->
  (cursor_ok s -> cursor_ok s')
  /\ (b = true ->
      exists f, m_bufferPing s' !! m_bufferPingHead s' = Some f
                /\ brackets_time s' t f)
  /\ (seek_trace s' = seek_trace s
      \/ (rec = false
          /\ seek_trace s'
             = mkSeekCall (wrap64 (timeToTimeStamp s t + m_startTimeStamp s)) 0
                 :: seek_trace s)).
Proof.
  induction fuel as [|fuel IH]; intros t rec s b s'; [discriminate|].
  cbn [seekInternal]. destruct (timeTier s t).
  - intros H. pose proof (seekWalk_frame _ _ _ _ _ H) as [_ [_ Ht]].
    apply seekWalk_run in H as [H1 H2]. auto.
  - intros H. apply bind_Ret_inv in H as [[r s1] [Hp H]].
    pose proof (peek_cursor_ok _ _ _ _ (cursor_ok_clear s) Hp) as Hc.
    apply peek_frame in Hp as [_ [_ Ht]]. simpl in Ht.
    destruct (index r =? 0).
    + inv_Ret H. split; [auto|]. split; [discriminate | auto].
    + apply IH in H as [H1 [H2 H3]]. split; [auto|]. split; [exact H2|].
      left. destruct H3 as [H3|[? _]]; [congruence | discriminate].
  - destruct rec.
    + intros H; inv_Ret H. split; [auto|]. split; [discriminate | auto].
    + destruct (demuxSeek _ _ _ _ _) as [err s2] eqn:Ed.
      apply demuxSeek_buffers in Ed as (Hs & Hpi & _ & Hh & _ & Ht).
      simpl in Hpi, Hh.
      destruct (err <? 0).
      * intros H; inv_Ret H. split; [|split; [discriminate|]].
        -- intros Hc. apply (cursor_ok_ext s s'); auto.
        -- right. split; [reflexivity | exact Ht].
      * intros H. apply bind_Ret_inv in H as [[r s3] [Hp H]].
        pose proof (peek_cursor_ok _ _ _ _ (cursor_ok_clear s2) Hp) as Hc.
        apply peek_frame in Hp as [_ [_ Ht3]].
        destruct (index r =? 0).
        -- inv_Ret H. split; [auto|]. split; [discriminate|].
           right. split; [reflexivity|]. rewrite Ht3. exact Ht.
        -- apply IH in H as [H1 [H2 H3]]. split; [auto|]. split; [exact H2|].
           right. split; [reflexivity|].
           destruct H3 as [H3|[? _]]; [|discriminate].
           rewrite H3, Ht3. exact Ht.
Qed.

Lemma seekFrameWalk_run fuel : forall n s b s',
  seekFrameWalk fuel n s = Ret (b, s') ->
  (cursor_ok s -> cursor_ok s')
  /\ (b = true ->
      exists f, m_bufferPing s' !! m_bufferPingHead s' = Some f
                /\ n <= Frame_getFrameNumber f).
Proof.
  induction fuel as [|fuel IH]; intros n s b s'; [discriminate|].
  cbn [seekFrameWalk]. intros H. apply bind_Ret_inv in H as [[r s1] [Hp H]].
  assert (Hc : cursor_ok s -> cursor_ok s1)
    by (intros Hx; exact (peek_cursor_ok _ _ _ _ Hx Hp)).
  pose proof (peek_inv _ _ _ _ Hp) as Hi.
  destruct r as [x|f].
  - inv_Ret H. split; [exact Hc | discriminate].
  - destruct Hi as [?|[f' [Ef Hf]]]; [discriminate|]. inversion Ef; subst f'.
    destruct (Z.leb_spec n (Frame_getFrameNumber f)) as [Ka|Ka].
    + inv_Ret H. split; [exact Hc|]. intros _. eauto.
    + apply IH in H as [H1 H2]. split; [|exact H2].
      intros Hs. apply H1. apply pop_cursor_ok. now apply Hc.
Qed.

Lemma brackets_time_static s s' t f :
  same_static s s' -> brackets_time s t f -> brackets_time s' t f.
Proof.
  unfold brackets_time, getFrameTime, frameToTime. intros Hs.
  now replace (fmt_stream s') with (fmt_stream s) by frame_solve.
Qed.

Lemma timeSeekCall_static s s' t :
  same_static s s' -> timeSeekCall s' t = timeSeekCall s t.
Proof.
  unfold timeSeekCall, timeToTimeStamp. intros (_ & _ & _ & H4 & _ & H6 & _ & _).
  now rewrite H4, H6.
Qed.

Lemma seekFrameInternal_run fuel : forall n rec s b s',
  seekFrameInternal fuel n rec s = Ret (b, s') ->
  (cursor_ok s -> cursor_ok s')
  /\ (b = true ->
      exists f, m_bufferPing s' !! m_bufferPingHead s' = Some f
                /\ (n <= Frame_getFrameNumber f
                    \/ brackets_time s' (frameToTime s n) f))
  /\ (seek_trace s' = seek_trace s
      \/ seek_trace s' = timeSeekCall s (frameToTime s n) :: seek_trace s
      \/ (rec = false /\ m_frameSeekSupported s = true
          /\ (seek_trace s' = frameSeekCall s n :: seek_trace s
              \/ seek_trace s'
                 = timeSeekCall s (frameToTime s n)
                     :: frameSeekCall s n :: seek_trace s))).
Proof.
  induction fuel as [|fuel IH]; intros n rec s b s'; [discriminate|].
  cbn [seekFrameInternal].
  assert (Hwalk : seekFrameWalk (S fuel) n s = Ret (b, s') ->
    (cursor_ok s -> cursor_ok s')
    /\ (b = true ->
        exists f, m_bufferPing s' !! m_bufferPingHead s' = Some f
                  /\ (n <= Frame_getFrameNumber f
                      \/ brackets_time s' (frameToTime s n) f))
    /\ (seek_trace s' = seek_trace s
        \/ seek_trace s' = timeSeekCall s (frameToTime s n) :: seek_trace s
        \/ (rec = false /\ m_frameSeekSupported s = true
            /\ (seek_trace s' = frameSeekCall s n :: seek_trace s
                \/ seek_trace s'
                   = timeSeekCall s (frameToTime s n)
                       :: frameSeekCall s n :: seek_trace s)))).
  { intros H. pose proof (seekFrameWalk_frame _ _ _ _ _ H) as [_ [_ Ht]].
    apply seekFrameWalk_run in H as [H1 H2]. split; [exact H1|]. split; [|auto].
    intros Hb. destruct (H2 Hb) as [f [Hf Hn]]. eauto. }
  destruct (frameTier s n); try exact Hwalk. clear Hwalk.
  assert (Htime : forall s0,
    same_static s s0 -> m_bufferPing s0 = m_bufferPing s ->
    m_bufferPingHead s0 = m_bufferPingHead s ->
    seek (S fuel) (frameToTime s n) s0 = Ret (b, s') ->
    (cursor_ok s -> cursor_ok s')
    /\ (b = true ->
        exists f, m_bufferPing s' !! m_bufferPingHead s' = Some f
                  /\ (n <= Frame_getFrameNumber f
                      \/ brackets_time s' (frameToTime s n) f))
    /\ (seek_trace s' = seek_trace s0
        \/ seek_trace s' = timeSeekCall s (frameToTime s n) :: seek_trace s0)).
  { intros s0 Hs Hp Hh H. unfold seek in H.
    apply seekInternal_run in H as [H1 [H2 H3]].
    split; [intros Hc; apply H1; now apply (cursor_ok_ext s s0)|].
    split.
    - intros Hb. destruct (H2 Hb) as [f [Hf Hn]]. eauto.
    - destruct H3 as [H3|[_ H3]]; [auto|]. right.
      rewrite <- (timeSeekCall_static s s0 _ Hs). exact H3. }
  destruct (m_frameSeekSupported s) eqn:El.
  - destruct rec; cbn [orb negb].
    + intros H. apply (Htime (with_seekSupported false s)) in H;
        [|frame_solve|reflexivity|reflexivity].
      destruct H as [H1 [H2 H3]]. split; [exact H1|]. split; [exact H2|].
      simpl in H3. tauto.
    + destruct (demuxSeek _ _ _ _ _) as [err s2] eqn:Ed.
      apply demuxSeek_buffers in Ed as (Hs & Hpi & _ & Hh & _ & Ht).
      simpl in Hpi, Hh.
      assert (Hfr : seek_trace s2 = frameSeekCall s n :: seek_trace s) by exact Ht.
      destruct (err <? 0).
      * rewrite (frameToTime_static s (with_seekSupported false s2) n)
          by frame_solve.
        intros H. apply (Htime (with_seekSupported false s2)) in H;
          [|frame_solve|exact Hpi|exact Hh].
        destruct H as [H1 [H2 H3]]. split; [exact H1|]. split; [exact H2|].
        right. right. split; [reflexivity|]. split; [reflexivity|].
        simpl in H3. rewrite Hfr in H3. tauto.
      * intros H. apply bind_Ret_inv in H as [[r s3] [Hp H]].
        pose proof (peek_cursor_ok _ _ _ _ (cursor_ok_clear s2) Hp) as Hc.
        apply peek_frame in Hp as [Hs3 [_ Ht3]].
        assert (Hst : same_static s s3) by frame_solve.
        assert (Htr : seek_trace s3 = frameSeekCall s n :: seek_trace s)
          by (rewrite Ht3; exact Hfr).
        destruct (index r =? 0).
        -- inv_Ret H. split; [auto|]. split; [discriminate|].
           right. right. auto.
        -- apply IH in H as [H1 [H2 H3]]. split; [auto|]. split.
           ++ intros Hb. destruct (H2 Hb) as [f [Hf Hn]]. exists f.
              split; [exact Hf|].
              now rewrite (frameToTime_static s s3 n Hst) in Hn.
           ++ right. right. split; [reflexivity|]. split; [reflexivity|].
              rewrite (frameToTime_static s s3 n Hst),
                      (timeSeekCall_static s s3 _ Hst), Htr in H3.
              destruct H3 as [H3|[H3|[? _]]]; [auto | auto | discriminate].
  - rewrite orb_true_r. destruct rec.
    + intros H; inv_Ret H. split; [auto|]. split; [discriminate | auto].
    + intros H. apply (Htime s) in H; [|frame_solve|reflexivity|reflexivity].
      destruct H as [H1 [H2 H3]]. split; [exact H1|]. split; [exact H2|]. tauto.
Qed.

End SeekFacts.

(* ===================================================================== *)
(** ** Properties of the cursor and of the seeks *)
(* ===================================================================== *)

Section CursorTheorems.
Context {World : Type} `{FF : FFmpeg World}.
Implicit Types s : Stream World.

(** X1.  The constructor leaves the head inside [ping] with only decoded
    frames from the head on, and [popFrame], [peekNextFrame], [getNextFrame],
    [getNextFrameSequence], [seek] and [seekFrame] keep it so. *)
Theorem cursor_invariant_kept fuel s :
  (forall dur st id codec len w s0,
      Stream_new fuel dur st id codec len w = Ret s0 -> cursor_ok s0)
  /\ (cursor_ok s ->
      cursor_ok (popFrame s)
      /\ (forall r s', peekNextFrame fuel s = Ret (r, s') -> cursor_ok s')
      /\ (forall r s', getNextFrame fuel s = Ret (r, s') -> cursor_ok s')
      /\ (forall seq r s', getNextFrameSequence fuel seq s = Ret (r, s') ->
            cursor_ok s')
      /\ (forall t b s', seek fuel t s = Ret (b, s') -> cursor_ok s')
      /\ (forall n b s', seekFrame fuel n s = Ret (b, s') -> cursor_ok s')).
Proof.
  split.
  - intros dur st id codec len w s0 H.
    apply Stream_new_initial in H as (_ & Hp & _ & Hh & _).
    unfold cursor_ok. rewrite Hp, Hh. split; simpl; [lia | constructor].
  - intros Hc. split; [now apply pop_cursor_ok|].
    split; [intros r s' H; eapply peek_cursor_ok; eauto|].
    split; [intros r s' H; eapply getNextFrame_cursor_ok; eauto|].
    split; [intros seq r s' H; eapply sequenceLoop_cursor_ok; eauto|].
    split.
    + intros t b s' H. apply seekInternal_run in H. tauto.
    + intros n b s' H. apply seekFrameInternal_run in H. tauto.
Qed.

(** X2.  On a stream that keeps the cursor invariant a read never indexes
    [ping] out of bounds (it can only run out of budget), and a frame it
    returns is never a released slot: it owns a decoder frame, and its
    timestamp and frame number are the conversions of that frame's
    [best_effort_timestamp]. *)
Theorem reads_return_decoded_frames fuel s :
  cursor_ok s ->
  (forall e, peekNextFrame fuel s = Fault e -> e = OutOfFuel)
  /\ (forall e, getNextFrame fuel s = Fault e -> e = OutOfFuel)
  /\ (forall f s', peekNextFrame fuel s = Ret (V_value f, s') -> stamped s f)
  /\ (forall f s', getNextFrame fuel s = Ret (V_value f, s') -> stamped s f).
Proof.
  intros Hc.
  assert (Hpeek : forall f s', peekNextFrame fuel s = Ret (V_value f, s') ->
                               stamped s f).
  { intros f s' H. pose proof (peek_cursor_ok _ _ _ _ Hc H) as Hc'.
    pose proof (peek_frame _ _ _ _ H) as [Hs _].
    apply peek_inv in H as [?|[f' [Ef Hf]]]; [discriminate|].
    inversion Ef; subst f'.
    apply (stamped_static s' s); [frame_solve|].
    now apply head_frame_stamped. }
  split; [intros e H; eapply peek_fault; eauto|].
  split.
  - intros e. unfold getNextFrame.
    destruct (peekNextFrame fuel s) as [[r s1]|e'] eqn:Ep; simpl.
    + destruct (index r =? 0); discriminate.
    + intros H; inversion H; subst. eapply peek_fault; eauto.
  - split; [exact Hpeek|].
    intros f s' H.
    apply getNextFrame_inv in H as [s1 [[_ [? _]] | [f' [Hp [Ef _]]]]];
      [discriminate|].
    inversion Ef; subst f'. eapply Hpeek; eauto.
Qed.

(** X3.  A decode run that returns leaves [ping] and the head alone, and
    [pong] holds only frames decoded by this run, each with its decoder frame
    and derived stamps.  When it reports success the block has reached
    [bufferLength] frames or the demuxer has reported end of file. *)
Theorem decodeNextBlock_block fuel s b s' :
  decodeNextBlock fuel s = Ret (b, s') ->
  m_bufferPing s' = m_bufferPing s
  /\ m_bufferPingHead s' = m_bufferPingHead s
  /\ Forall (stamped s') (m_bufferPong s')
  /\ (b = true ->
      m_bufferLength s <= Z.of_nat (length (m_bufferPong s'))
      \/ exists w p, av_read_frame w = (AVERROR_EOF, p, m_io s')).
Proof.
  intros H. pose proof (decodeNextBlock_frame _ _ _ _ H) as [_ [_ [Hp Hh]]].
  split; [exact Hp|]. split; [exact Hh|]. unfold decodeNextBlock in H. split.
  - apply decodeLoop_stamped in H; [exact H | constructor].
  - intros ->. apply decodeLoop_true in H. exact H.
Qed.

(** X4.  After a time seek that reports success the frame under the head
    answers the request: its timestamp is not before the target, or the
    target lies within one frame time after it; the next peek returns that
    frame. *)
Theorem seek_lands_on_bracketing_frame fuel t s s' :
  seek fuel t s = Ret (true, s') ->
  exists f, m_bufferPing s' !! m_bufferPingHead s' = Some f
            /\ brackets_time s' t f
            /\ forall fuel', peekNextFrame fuel' s' = Ret (V_value f, s').
Proof.
  intros H. apply seekInternal_run in H as [_ [H2 _]].
  destruct (H2 eq_refl) as [f [Hf Hb]]. exists f.
  split; [exact Hf|]. split; [exact Hb|]. now apply peek_buffered.
Qed.

(** X5.  After a frame seek that reports success the frame under the head
    has a frame number not below the target, or, when the seek went the way
    of the time seek, it answers the time seek to [frameToTime frame]; the
    next peek returns that frame. *)
Theorem seekFrame_lands_on_target fuel n s s' :
  seekFrame fuel n s = Ret (true, s') ->
  exists f, m_bufferPing s' !! m_bufferPingHead s' = Some f
            /\ (n <= Frame_getFrameNumber f
                \/ brackets_time s' (frameToTime s n) f)
            /\ forall fuel', peekNextFrame fuel' s' = Ret (V_value f, s').
Proof.
  intros H. apply seekFrameInternal_run in H as [_ [H2 _]].
  destruct (H2 eq_refl) as [f [Hf Hb]]. exists f.
  split; [exact Hf|]. split; [exact Hb|]. now apply peek_buffered.
Qed.

(** X6.  A time seek asks the demuxer for at most one seek, by timestamp,
    to [timeToTimeStamp timeStamp + startTimeStamp]; the pass that confirms
    the position after it asks for none. *)
Theorem seek_asks_the_demuxer_once fuel t s b s' :
  seek fuel t s = Ret (b, s') ->
  (seek_trace s' = seek_trace s
   \/ seek_trace s' = timeSeekCall s t :: seek_trace s)
  /\ (forall s1 b1 s1',
        seekInternal fuel t true s1 = Ret (b1, s1') ->
        seek_trace s1' = seek_trace s1).
Proof.
  intros H. split.
  - apply seekInternal_run in H as [_ [_ [H3|[_ H3]]]]; auto.
  - intros s1 b1 s1' H1.
    apply seekInternal_run in H1 as [_ [_ [H3|[? _]]]]; [auto | discriminate].
Qed.

(** X7.  A frame seek asks the demuxer for at most one seek by frame
    index and at most one seek by timestamp, in that order; with the latch
    down it asks for no seek by frame index. *)
Theorem seekFrame_asks_the_demuxer_twice fuel n s b s' :
  seekFrame fuel n s = Ret (b, s') ->
  seek_trace s' = seek_trace s
  \/ seek_trace s' = timeSeekCall s (frameToTime s n) :: seek_trace s
  \/ (m_frameSeekSupported s = true
      /\ (seek_trace s' = frameSeekCall s n :: seek_trace s
          \/ seek_trace s'
             = timeSeekCall s (frameToTime s n)
                 :: frameSeekCall s n :: seek_trace s)).
Proof.
  intros H. apply seekFrameInternal_run in H as [_ [_ H3]].
  destruct H3 as [H3|[H3|[_ [Hl H3]]]]; auto.
Qed.

(** X8.  A seek to the position of the frame under the head is a no-op
    when the tier tests let it reach the buffer.  The time seek to a
    timestamp between the head's and the last buffered frame's that the
    head frame brackets returns true and changes nothing.  So does the
    frame seek to the head's own frame number when that number is not above
    the last buffered frame's, or is above it by at most twice the buffer
    length.  When the head's frame number is further above the last
    buffered frame's (frames buffered out of order), the frame seek to it
    misses both buffer tiers and takes the demuxer branch: with the latch
    up it asks the demuxer for a seek by frame. *)
Theorem seek_to_current_position_is_noop fuel s f back :
  m_bufferPing s !! m_bufferPingHead s = Some f ->
  last (m_bufferPing s) = Some back ->
  (forall t,
      Frame_getTimeStamp f <= t <= Frame_getTimeStamp back ->
      brackets_time s t f ->
      seek (S fuel) t s = Ret (true, s))
  /\ (Frame_getFrameNumber f <= Frame_getFrameNumber back
      \/ Frame_getFrameNumber f
         <= wrap64 (Frame_getFrameNumber back + wrapu32 (m_bufferLength s * 2)) ->
      seekFrame (S fuel) (Frame_getFrameNumber f) s = Ret (true, s))
  /\ (Frame_getFrameNumber back < Frame_getFrameNumber f ->
      wrap64 (Frame_getFrameNumber back + wrapu32 (m_bufferLength s * 2))
        < Frame_getFrameNumber f ->
      frameTier s (Frame_getFrameNumber f) = DemuxerSeek
      /\ (m_frameSeekSupported s = true ->
          forall b s',
            seekFrame (S fuel) (Frame_getFrameNumber f) s = Ret (b, s') ->
            exists new,
              seek_trace s'
              = new ++ frameSeekCall s (Frame_getFrameNumber f) :: seek_trace s)).
Proof.
  intros Hf Hb. split; [|split].
  - intros t [Hlo Hhi] Hbr. unfold seek. cbn [seekInternal].
    unfold timeTier. rewrite Hb, Hf.
    destruct (Z.leb_spec (Frame_getTimeStamp f) t); [|lia].
    destruct (Z.leb_spec t (Frame_getTimeStamp back)); [|lia].
    cbn [andb seekWalk]. rewrite (peek_buffered _ _ Hf). cbn [bind].
    destruct (Z.leb_spec t (Frame_getTimeStamp f)) as [|Hgt]; [reflexivity|].
    destruct Hbr as [?|[Ha Hc]]; [lia|].
    destruct (Z.ltb_spec (Frame_getTimeStamp f) t); [|lia].
    destruct (Z.ltb_spec t (wrap64 (Frame_getTimeStamp f + getFrameTime s)));
      [reflexivity | lia].
  - intros Hreach.
    assert (Hw : seekFrameWalk (S fuel) (Frame_getFrameNumber f) s = Ret (true, s)).
    { cbn [seekFrameWalk]. rewrite (peek_buffered _ _ Hf). cbn [bind].
      now rewrite Z.leb_refl. }
    unfold seekFrame. cbn [seekFrameInternal].
    unfold frameTier. rewrite Hb, Hf. rewrite Z.leb_refl.
    destruct (Z.leb_spec (Frame_getFrameNumber f) (Frame_getFrameNumber back));
      cbn [andb]; [exact Hw|].
    destruct (Z.ltb_spec (Frame_getFrameNumber back) (Frame_getFrameNumber f));
      [|lia].
    destruct (Z.leb_spec (Frame_getFrameNumber f)
                (wrap64 (Frame_getFrameNumber back
                         + wrapu32 (m_bufferLength s * 2))));
      cbn [andb]; [exact Hw | lia].
  - intros Hout Hfar.
    assert (Ht : frameTier s (Frame_getFrameNumber f) = DemuxerSeek).
    { unfold frameTier. rewrite Hb, Hf. rewrite Z.leb_refl.
      destruct (Z.leb_spec (Frame_getFrameNumber f) (Frame_getFrameNumber back));
        [lia|].
      destruct (Z.leb_spec (Frame_getFrameNumber f)
                  (wrap64 (Frame_getFrameNumber back
                           + wrapu32 (m_bufferLength s * 2)))); [lia|].
      rewrite !andb_false_r. reflexivity. }
    split; [exact Ht|].
    intros Hl b s'. unfold seekFrame. cbn [seekFrameInternal].
    rewrite Ht, Hl. cbn [orb negb].
    change (timeStampToFrame (flushDecoder s) (m_startTimeStamp (flushDecoder s)))
      with (timeStampToFrame s (m_startTimeStamp s)).
    destruct (demuxSeek _ _ _ _ _) as [err s2] eqn:Ed.
    apply demuxSeek_buffers in Ed as (_ & _ & _ & _ & _ & Htr).
    change (seek_trace (flushDecoder s)) with (seek_trace s) in Htr.
    fold (frameSeekCall s (Frame_getFrameNumber f)) in Htr.
    destruct (err <? 0).
    + unfold seek. intros H.
      apply seekInternal_frame in H as (_ & _ & new & Hnew & _).
      exists new. unfold seeks_since in Hnew. rewrite Hnew. simpl.
      now rewrite Htr.
    + intros H. apply bind_Ret_inv in H as [[r s3] [Hp H]].
      apply peek_frame in Hp as [_ [_ Hp]]. simpl in Hp.
      destruct (index r =? 0).
      * inv_Ret H. exists []. simpl. congruence.
      * apply seekFrameInternal_frame in H as (_ & _ & new & Hnew & _).
        exists new. unfold seeks_since in Hnew. rewrite Hnew. congruence.
Qed.

(** X9.  When the target is outside the buffer's reach and the demuxer
    rejects the seek, the time seek returns false with the decoder flushed
    and the buffers untouched: [ping], [pong] and the head are as before
    (the buffer is cleared only after the demuxer has accepted). *)
Theorem rejected_seek_keeps_buffers fuel t s err s2 :
  timeTier s t = DemuxerSeek ->
  demuxSeek (flushDecoder s) INT64_MIN
    (wrap64 (timeToTimeStamp s t + m_startTimeStamp s))
    (wrap64 (timeToTimeStamp s t + m_startTimeStamp s)) 0 = (err, s2) ->
  err < 0 ->
  seek (S fuel) t s = Ret (false, s2)
  /\ m_bufferPing s2 = m_bufferPing s
  /\ m_bufferPong s2 = m_bufferPong s
  /\ m_bufferPingHead s2 = m_bufferPingHead s
  /\ seek_trace s2 = timeSeekCall s t :: seek_trace s.
Proof.
  intros Ht Hd Herr. split.
  - unfold seek. cbn [seekInternal]. rewrite Ht.
    change (timeToTimeStamp (flushDecoder s) t) with (timeToTimeStamp s t).
    change (m_startTimeStamp (flushDecoder s)) with (m_startTimeStamp s).
    rewrite Hd. destruct (Z.ltb_spec err 0); [reflexivity | lia].
  - apply demuxSeek_buffers in Hd as (_ & Hp & Hq & Hh & _ & Htr). auto.
Qed.

End CursorTheorems.

(* ===================================================================== *)
(** ** More of the TimeMap *)
(* ===================================================================== *)

Section TimeFacts.
Context {World : Type}.
Implicit Types s : Stream World.

Lemma rescale_monotone a a' b c :
  0 <= a <= a' -> 0 <= b -> 0 < c -> (a' * b + c / 2) / c <= INT64_MAX ->
  av_rescale_rnd_near_inf a b c <= av_rescale_rnd_near_inf a' b c.
Proof.
  intros [Ha Haa] Hb Hc Hfit.
  assert (Hle : (a * b + c / 2) / c <= (a' * b + c / 2) / c)
    by (apply Z.div_le_mono; nia).
  rewrite !rescale_nonneg by lia. exact Hle.
Qed.

(** X10.  A container timestamp not before the start survives the trip to
    microseconds and back when one tick of the time base is at least one
    microsecond and the microsecond value fits 64 bits. *)
Theorem timestamp_time_roundtrip s ts :
  let x := ts - m_startTimeStamp s in
  let B := num (time_base (fmt_stream s)) * AV_TIME_BASE in
  let C := den (time_base (fmt_stream s)) in
  INT64_MIN <= ts <= INT64_MAX ->
  0 <= x <= INT64_MAX ->
  0 < C <= B ->
  (x * B + C / 2) / C <= INT64_MAX ->
  timeToTimeStamp s (timeStampToTime s ts) = ts.
Proof.
  intros x B C Hts Hx HCB Hfit.
  unfold timeToTimeStamp, timeStampToTime, av_rescale_q. simpl.
  fold x. rewrite (wrap64_small x) by (unfold INT64_MIN; lia).
  rewrite !Z.mul_1_l. fold B. fold C.
  assert (Ht : 0 <= (x * B + C / 2) / C).
  { apply Z.div_pos; [|lia]. assert (0 <= C / 2) by (apply Z.div_pos; lia). nia. }
  rewrite (rescale_nonneg x B C) by lia.
  pose proof (round_there_and_back x B C ltac:(lia) HCB) as Hrt.
  rewrite rescale_nonneg; try lia.
  rewrite Hrt. replace (m_startTimeStamp s + x) with ts by (unfold x; lia).
  now apply wrap64_small.
Qed.

(** X11.  A frame index survives the trip to microseconds and back when
    the frame rate is at most one frame per microsecond and the microsecond
    value fits 64 bits. *)
Theorem frame_time_roundtrip s n :
  let B := AV_TIME_BASE * den (r_frame_rate (fmt_stream s)) in
  let C := num (r_frame_rate (fmt_stream s)) in
  0 <= n ->
  0 < C <= B ->
  (n * B + C / 2) / C <= INT64_MAX ->
  timeToFrame s (frameToTime s n) = n.
Proof.
  intros B C Hn HCB Hfit.
  unfold timeToFrame, frameToTime, av_rescale_q, av_inv_q. simpl.
  rewrite Z.mul_1_l, Z.mul_1_r. fold B. fold C.
  replace (den (r_frame_rate (fmt_stream s)) * AV_TIME_BASE) with B
    by (unfold B; lia).
  assert (Ht : 0 <= (n * B + C / 2) / C).
  { apply Z.div_pos; [|lia]. assert (0 <= C / 2) by (apply Z.div_pos; lia). nia. }
  rewrite (rescale_nonneg n B C) by lia.
  pose proof (round_there_and_back n B C Hn HCB) as Hrt.
  rewrite rescale_nonneg; try lia.
  rewrite Hrt.
  assert (n <= (n * B + C / 2) / C).
  { apply Z.div_le_lower_bound; [lia|].
    assert (0 <= C / 2) by (apply Z.div_pos; lia). nia. }
  lia.
Qed.

(** X12.  From the start timestamp on, the microsecond timestamp and the
    frame number grow with the container timestamp: a frame decoded with a
    later [best_effort_timestamp] is never stamped earlier. *)
Theorem stamps_grow_with_timestamp s ts1 ts2 :
  let tb := time_base (fmt_stream s) in
  let fr := r_frame_rate (fmt_stream s) in
  m_startTimeStamp s <= ts1 <= ts2 ->
  ts2 - m_startTimeStamp s <= INT64_MAX ->
  0 < num tb -> 0 < den tb -> 0 < num fr -> 0 < den fr ->
  ((ts2 - m_startTimeStamp s) * (num tb * AV_TIME_BASE) + den tb / 2) / den tb
    <= INT64_MAX ->
  ((ts2 - m_startTimeStamp s) * (num fr * num tb) + (den tb * den fr) / 2)
    / (den tb * den fr) <= INT64_MAX ->
  timeStampToTime s ts1 <= timeStampToTime s ts2
  /\ timeStampToFrame s ts1 <= timeStampToFrame s ts2.
Proof.
  intros tb fr H12 Hr Hnt Hdt Hnf Hdf Hfit1 Hfit2.
  unfold timeStampToTime, timeStampToFrame, av_rescale_q, av_inv_q. simpl.
  fold tb. fold fr.
  rewrite !wrap64_small by (unfold INT64_MIN, INT64_MAX in *; lia).
  rewrite Z.mul_1_l. unfold AV_TIME_BASE in *.
  split; apply rescale_monotone; try lia; nia.
Qed.

End TimeFacts.

(* ===================================================================== *)
(** ** More of the Prober *)
(* ===================================================================== *)

Section ProbeFacts.
Context {World : Type} `{FF : FFmpeg World}.
Implicit Types s : Stream World.

Lemma startTimeLoop_valid fuel : forall i m st sd s r s',
  startTimeLoop fuel i m st sd s = Ret (r, s') -> r <> AV_NOPTS_VALUE.
Proof.
  induction fuel as [|fuel IH]; intros i m st sd s r s'; [discriminate|].
  cbn [startTimeLoop]. destruct (i <? m).
  - destruct (av_read_frame (m_io s)) as [[ret p] w].
    destruct (ret <? 0); [intros H; inv_Ret H; discriminate|].
    destruct (stream_index p =? m_index (with_io w s)); apply IH.
  - destruct (av_seek_frame _ _ _ _) as [e w].
    destruct (Z.eqb_spec st AV_NOPTS_VALUE) as [->|Hne]; simpl;
      intros H; inv_Ret H; [discriminate | exact Hne].
Qed.

Lemma startTimeLoop_candidate fuel : forall i m st sd s r s',
  startTimeLoop fuel i m st sd s = Ret (r, s') ->
  r = 0
  \/ (r = st /\ st <> AV_NOPTS_VALUE)
  \/ exists k ret p w',
       readAfter k (m_io s) = (ret, p, w')
       /\ 0 <= ret
       /\ stream_index p = m_index s
       /\ startCandidate p = r
       /\ r <> AV_NOPTS_VALUE
       /\ (st <> AV_NOPTS_VALUE -> r < st)
       /\ forall j ret' p' w'',
            (j < k)%nat ->
            readAfter j (m_io s) = (ret', p', w'') ->
            stream_index p' = m_index s ->
            startCandidate p' <> AV_NOPTS_VALUE ->
            r < startCandidate p'.
Proof.
  induction fuel as [|fuel IH]; intros i m st sd s r s'; [discriminate|].
  cbn [startTimeLoop]. destruct (i <? m).
  - destruct (av_read_frame (m_io s)) as [[ret p] w] eqn:Er.
    destruct (Z.ltb_spec ret 0) as [Hneg|Hpos];
      [intros H; inv_Ret H; now left|].
    change (m_index (with_io w s)) with (m_index s).
    destruct (Z.eqb_spec (stream_index p) (m_index s)) as [Hidx|Hidx].
    + intros H. apply IH in H. clear IH.
      change (m_io (with_io w s)) with w in H.
      change (m_index (with_io w s)) with (m_index s) in H.
      destruct (Z.eqb_spec (startCandidate p) AV_NOPTS_VALUE) as [Hc|Hc];
        cbn [negb andb] in H.
      * destruct H as [H|[H|H]]; [now left | now right; left |].
        destruct H as (k & ret' & p' & w' & Hk & Hret & Hi & Hv & Hn & Hlt & Hmin).
        right; right. exists (S k), ret', p', w'.
        cbn [readAfter]. rewrite Er.
        repeat (split; [assumption|]).
        intros [|j] rj pj wj Hj Hrj Hij Hcj.
        -- cbn [readAfter] in Hrj. rewrite Er in Hrj. inversion Hrj; subst.
           contradiction.
        -- cbn [readAfter] in Hrj. rewrite Er in Hrj.
           apply (Hmin j rj pj wj); [lia | assumption..].
      * destruct (Z.ltb_spec (startCandidate p) st) as [Hlow|Hlow];
          destruct (Z.eqb_spec st AV_NOPTS_VALUE) as [Hst|Hst];
          cbn [orb] in H.
        -- destruct H as [H|[[H _]|H]]; [now left | |].
           ++ right; right. exists 0%nat, ret, p, w. cbn [readAfter].
              split; [exact Er|]. split; [exact Hpos|]. split; [exact Hidx|].
              split; [now symmetry|]. split; [now rewrite H|].
              split; [intros; contradiction|]. intros j ? ? ? Hj. lia.
           ++ destruct H as (k & ret' & p' & w' & Hk & Hret & Hi & Hv & Hn & Hlt & Hmin).
              right; right. exists (S k), ret', p', w'.
              cbn [readAfter]. rewrite Er.
              repeat (split; [assumption|]).
              split; [intros; contradiction|].
              intros [|j] rj pj wj Hj Hrj Hij Hcj.
              ** cbn [readAfter] in Hrj. rewrite Er in Hrj. inversion Hrj; subst.
                 now apply Hlt.
              ** cbn [readAfter] in Hrj. rewrite Er in Hrj.
                 apply (Hmin j rj pj wj); [lia | assumption..].
        -- destruct H as [H|[[H _]|H]]; [now left | |].
           ++ right; right. exists 0%nat, ret, p, w. cbn [readAfter].
              split; [exact Er|]. split; [exact Hpos|]. split; [exact Hidx|].
              split; [now symmetry|]. split; [now rewrite H|].
              split; [intros; lia|]. intros j ? ? ? Hj. lia.
           ++ destruct H as (k & ret' & p' & w' & Hk & Hret & Hi & Hv & Hn & Hlt & Hmin).
              right; right. exists (S k), ret', p', w'.
              cbn [readAfter]. rewrite Er.
              repeat (split; [assumption|]).
              split; [intros _; specialize (Hlt Hc); lia|].
              intros [|j] rj pj wj Hj Hrj Hij Hcj.
              ** cbn [readAfter] in Hrj. rewrite Er in Hrj. inversion Hrj; subst.
                 now apply Hlt.
              ** cbn [readAfter] in Hrj. rewrite Er in Hrj.
                 apply (Hmin j rj pj wj); [lia | assumption..].
        -- destruct H as [H|[[H _]|H]]; [now left | |].
           ++ right; right. exists 0%nat, ret, p, w. cbn [readAfter].
              split; [exact Er|]. split; [exact Hpos|]. split; [exact Hidx|].
              split; [now symmetry|]. split; [now rewrite H|].
              split; [intros; contradiction|]. intros j ? ? ? Hj. lia.
           ++ destruct H as (k & ret' & p' & w' & Hk & Hret & Hi & Hv & Hn & Hlt & Hmin).
              right; right. exists (S k), ret', p', w'.
              cbn [readAfter]. rewrite Er.
              repeat (split; [assumption|]).
              split; [intros; contradiction|].
              intros [|j] rj pj wj Hj Hrj Hij Hcj.
              ** cbn [readAfter] in Hrj. rewrite Er in Hrj. inversion Hrj; subst.
                 now apply Hlt.
              ** cbn [readAfter] in Hrj. rewrite Er in Hrj.
                 apply (Hmin j rj pj wj); [lia | assumption..].
        -- destruct H as [H|[H|H]]; [now left | now right; left |].
           destruct H as (k & ret' & p' & w' & Hk & Hret & Hi & Hv & Hn & Hlt & Hmin).
           right; right. exists (S k), ret', p', w'.
           cbn [readAfter]. rewrite Er.
           repeat (split; [assumption|]).
           intros [|j] rj pj wj Hj Hrj Hij Hcj.
           ++ cbn [readAfter] in Hrj. rewrite Er in Hrj. inversion Hrj; subst.
              specialize (Hlt Hst). lia.
           ++ cbn [readAfter] in Hrj. rewrite Er in Hrj.
              apply (Hmin j rj pj wj); [lia | assumption..].
    + intros H. apply IH in H. clear IH.
      change (m_io (with_io w s)) with w in H.
      change (m_index (with_io w s)) with (m_index s) in H.
      destruct H as [H|[H|H]]; [now left | now right; left |].
      destruct H as (k & ret' & p' & w' & Hk & Hret & Hi & Hv & Hn & Hlt & Hmin).
      right; right. exists (S k), ret', p', w'.
      cbn [readAfter]. rewrite Er.
      repeat (split; [assumption|]).
      intros [|j] rj pj wj Hj Hrj Hij Hcj.
      * cbn [readAfter] in Hrj. rewrite Er in Hrj. inversion Hrj; subst.
        contradiction.
      * cbn [readAfter] in Hrj. rewrite Er in Hrj.
        apply (Hmin j rj pj wj); [lia | assumption..].
  - destruct (av_seek_frame _ _ _ _) as [e w].
    destruct (Z.eqb_spec st AV_NOPTS_VALUE) as [->|Hne]; cbn [negb];
      intros H; inv_Ret H; [now left | now right; left].
Qed.

(** X13.  The start-time probe never yields the "no timestamp" value.  A
    declared [start_time] is returned as it is, without touching the
    demuxer or decoder.  Otherwise the result is 0 or the timestamp of a
    packet of this stream that the demuxer delivers after the rewind, its
    [pts], or its [dts] when the [pts] is not set, and every packet of the
    stream read before that one with a timestamp has a later one.  Only the
    demuxer and decoder state has changed. *)
Theorem getStreamStartTime_is_a_timestamp fuel s r s' :
  getStreamStartTime fuel s = Ret (r, s') ->
  r <> AV_NOPTS_VALUE
  /\ io_only s s'
  /\ (start_time (fmt_stream s) <> AV_NOPTS_VALUE ->
      r = start_time (fmt_stream s) /\ s' = s)
  /\ (start_time (fmt_stream s) = AV_NOPTS_VALUE ->
      r = 0
      \/ exists k ret p w',
           readAfter k (rewound s) = (ret, p, w')
           /\ 0 <= ret
           /\ stream_index p = m_index s
           /\ startCandidate p = r
           /\ forall j ret' p' w'',
                (j < k)%nat ->
                readAfter j (rewound s) = (ret', p', w'') ->
                stream_index p' = m_index s ->
                startCandidate p' <> AV_NOPTS_VALUE ->
                r < startCandidate p').
Proof.
  intros H. split; [|split; [|split]].
  - revert H. unfold getStreamStartTime.
    destruct (Z.eqb_spec (start_time (fmt_stream s)) AV_NOPTS_VALUE) as [E|E];
      simpl.
    + destruct (av_seek_frame _ _ _ _) as [e w].
      destruct (e <? 0); [intros H; inv_Ret H; discriminate|].
      apply startTimeLoop_valid.
    + intros H; inv_Ret H. exact E.
  - eapply getStreamStartTime_io; eauto.
  - intros E. revert H. unfold getStreamStartTime.
    destruct (Z.eqb_spec (start_time (fmt_stream s)) AV_NOPTS_VALUE); [contradiction|].
    simpl. intros H; inv_Ret H. auto.
  - intros E. revert H. unfold getStreamStartTime, rewound, startDts.
    rewrite E, Z.eqb_refl. cbn [negb].
    change (fmt_stream (flushDecoder s)) with (fmt_stream s).
    change (m_index (flushDecoder s)) with (m_index s).
    destruct (av_seek_frame _ _ _ _) as [e w]. cbn [snd].
    destruct (e <? 0); [intros H; inv_Ret H; now left|].
    intros H. apply startTimeLoop_candidate in H.
    change (m_io (with_io w (flushDecoder s))) with w in H.
    change (m_index (with_io w (flushDecoder s))) with (m_index s) in H.
    destruct H as [H|[[_ H]|H]]; [now left | contradiction |].
    destruct H as (k & ret & p & w' & Hk & Hret & Hi & Hv & _ & _ & Hmin).
    right. exists k, ret, p, w'. auto.
Qed.

Lemma scanLoop_lower fuel : forall found s r s',
  scanLoop fuel found s = Ret (r, s') -> found <= r.
Proof.
  induction fuel as [|fuel IH]; intros found s r s'; [discriminate|].
  cbn [scanLoop].
  destruct (av_read_frame (m_io s)) as [[ret p] w].
  destruct (0 <=? ret).
  - intros H. apply IH in H.
    destruct (stream_index p =? m_index (with_io w s)); [|exact H].
    simpl in H. destruct (Z.ltb_spec found (scanCandidate p)); lia.
  - intros H; inv_Ret H. lia.
Qed.

(** X14.  The end-of-stream scan never reports a timestamp before the
    start timestamp; it writes nothing of the stream but the demuxer and
    decoder state. *)
Theorem scan_not_below_start fuel s found s' :
  scanLastTimeStamp fuel s = Ret (Some found, s') ->
  m_startTimeStamp s <= found /\ io_only s s'.
Proof.
  intros H. split; [|eapply scanLastTimeStamp_io; eauto].
  revert H. unfold scanLastTimeStamp.
  destruct (av_seek_frame _ _ _ _) as [e w].
  destruct (e <? 0); [discriminate|].
  intros H. apply bind_Ret_inv in H as [[r s3] [Hl H]].
  apply scanLoop_lower in Hl.
  destruct (av_seek_frame (m_io s3) _ _ _) as [e' w'].
  inv_Ret H. exact Hl.
Qed.

(** X15.  The correction the probes subtract, [timeStampToTime (2 * start)]
    and [timeStampToFrame (2 * start)], is the plain conversion of the start
    timestamp; so with a positive container duration the duration probe
    returns that duration less the start timestamp in microseconds, and the
    duration itself when the stream starts at 0. *)
Theorem probe_correction_is_start fuel s :
  - 2 ^ 62 <= m_startTimeStamp s < 2 ^ 62 ->
  timeStampToTime s (wrap64 (m_startTimeStamp s * 2))
    = av_rescale_q (m_startTimeStamp s) (time_base (fmt_stream s))
        (av_make_q 1 AV_TIME_BASE)
  /\ timeStampToFrame s (wrap64 (m_startTimeStamp s * 2))
     = av_rescale_q (m_startTimeStamp s) (r_frame_rate (fmt_stream s))
         (av_inv_q (time_base (fmt_stream s)))
  /\ (0 < fmt_duration s ->
      getStreamDuration fuel s
      = Ret (wrap64 (fmt_duration s
                     - av_rescale_q (m_startTimeStamp s)
                         (time_base (fmt_stream s)) (av_make_q 1 AV_TIME_BASE)),
             s))
  /\ (0 < fmt_duration s <= INT64_MAX -> m_startTimeStamp s = 0 ->
      0 < den (time_base (fmt_stream s)) ->
      0 <= num (time_base (fmt_stream s)) ->
      getStreamDuration fuel s = Ret (fmt_duration s, s)).
Proof.
  intros Hs.
  assert (Hw : wrap64 (wrap64 (m_startTimeStamp s * 2) - m_startTimeStamp s)
               = m_startTimeStamp s).
  { rewrite (wrap64_small (m_startTimeStamp s * 2))
      by (unfold INT64_MIN, INT64_MAX; lia).
    rewrite wrap64_small by (unfold INT64_MIN, INT64_MAX; lia). lia. }
  assert (Ht : timeStampToTime s (wrap64 (m_startTimeStamp s * 2))
               = av_rescale_q (m_startTimeStamp s) (time_base (fmt_stream s))
                   (av_make_q 1 AV_TIME_BASE))
    by (unfold timeStampToTime; now rewrite Hw).
  split; [exact Ht|]. split; [unfold timeStampToFrame; now rewrite Hw|].
  split.
  - intros Hd. unfold getStreamDuration.
    destruct (Z.ltb_spec 0 (fmt_duration s)); [|lia]. now rewrite Ht.
  - intros Hd H0 Hden Hnum. unfold getStreamDuration.
    destruct (Z.ltb_spec 0 (fmt_duration s)); [|lia]. rewrite Ht, H0.
    unfold av_rescale_q. simpl.
    rewrite rescale_nonneg; try lia.
    + simpl. rewrite Z.div_small
        by (split; [apply Z.div_pos; lia | apply Z.div_lt; lia]).
      rewrite Z.sub_0_r, wrap64_small by (unfold INT64_MIN; lia). reflexivity.
    + unfold AV_TIME_BASE. lia.
    + simpl. rewrite Z.div_small
        by (split; [apply Z.div_pos; lia | apply Z.div_lt; lia]).
      unfold INT64_MAX. lia.
Qed.

End ProbeFacts.

(* ===================================================================== *)
(** ** Splitting a sequence request; ownership of a frame *)
(* ===================================================================== *)

Section SequenceFacts.
Context {World : Type} `{FF : FFmpeg World}.
Implicit Types s : Stream World.

Lemma sequenceLoop_acc fuel seq : forall start acc s,
  sequenceLoop fuel seq start acc s =
  match sequenceLoop fuel seq start [] s with
  | Ret (V_value fs, s') => Ret (V_value (acc ++ fs), s')
  | Ret (V_bool _, s') => Ret (V_bool false, s')
  | Fault e => Fault e
  end.
Proof.
  induction seq as [|i rest IH]; intros start acc s; simpl.
  - now rewrite app_nil_r.
  - destruct (i <? start); [reflexivity|].
    destruct (skipFrames fuel (Z.to_nat (i - start)) s) as [[ok s1]|e]; simpl;
      [|reflexivity].
    destruct ok; simpl; [|reflexivity].
    destruct (getNextFrame fuel s1) as [[[x|f] s2]|e]; simpl; try reflexivity.
    rewrite (IH _ (acc ++ [f])), (IH _ [f]).
    destruct (sequenceLoop fuel rest (wrap64 (i + 1)) [] s2) as [[[y|fs] s3]|e];
      simpl; try reflexivity.
    now rewrite <- app_assoc.
Qed.

Lemma sequenceLoop_app fuel seq1 seq2 : forall start acc s,
  Forall (fun i => INT64_MIN <= i < INT64_MAX) seq1 ->
  sequenceLoop fuel (seq1 ++ seq2) start acc s =
  match sequenceLoop fuel seq1 start acc s with
  | Ret (V_value acc1, s1) =>
      sequenceLoop fuel seq2 (accumulator start seq1) acc1 s1
  | Ret (V_bool _, s1) => Ret (V_bool false, s1)
  | Fault e => Fault e
  end.
Proof.
  induction seq1 as [|i rest IH]; intros start acc s Hr; simpl; [reflexivity|].
  inversion Hr as [|? ? Hi Hrest]; subst.
  destruct (i <? start); [reflexivity|].
  destruct (skipFrames fuel (Z.to_nat (i - start)) s) as [[ok s1]|e]; simpl;
    [|reflexivity].
  destruct ok; simpl; [|reflexivity].
  destruct (getNextFrame fuel s1) as [[[x|f] s2]|e]; simpl; try reflexivity.
  rewrite wrap64_small by (unfold INT64_MIN, INT64_MAX in *; lia).
  now apply IH.
Qed.

Lemma sequenceLoop_shift fuel k seq : forall start acc s,
  Forall (fun j => INT64_MIN <= j + 1 <= INT64_MAX
                   /\ INT64_MIN <= k + j + 1 <= INT64_MAX) seq ->
  sequenceLoop fuel (map (Z.add k) seq) (start + k) acc s
  = sequenceLoop fuel seq start acc s.
Proof.
  induction seq as [|j rest IH]; intros start acc s Hr; simpl; [reflexivity|].
  inversion Hr as [|? ? [Hj Hjk] Hrest]; subst.
  replace (k + j <? start + k) with (j <? start)
    by (destruct (Z.ltb_spec j start), (Z.ltb_spec (k + j) (start + k)); lia).
  destruct (j <? start); [reflexivity|].
  replace (k + j - (start + k)) with (j - start) by lia.
  destruct (skipFrames fuel (Z.to_nat (j - start)) s) as [[ok s1]|e]; simpl;
    [|reflexivity].
  destruct ok; simpl; [|reflexivity].
  destruct (getNextFrame fuel s1) as [[[x|f] s2]|e]; simpl; try reflexivity.
  rewrite (wrap64_small (k + j + 1)), (wrap64_small (j + 1)) by lia.
  replace (k + j + 1) with (j + 1 + k) by lia.
  now apply IH.
Qed.

(** X16.  A sequence request can be split in two: serving [seq1] followed
    by [seq2] moved up by the number of frames [seq1] consumes (its last
    index plus one) is serving [seq1] and then, from where that left the
    cursor, [seq2]; the frames are those of the first call followed by those
    of the second, and a [false] of either is a [false] of the whole. *)
Theorem getNextFrameSequence_split fuel seq1 seq2 s :
  Forall (fun i => INT64_MIN <= i < INT64_MAX) seq1 ->
  Forall (fun j => INT64_MIN <= j + 1 <= INT64_MAX
                   /\ INT64_MIN <= accumulator 0 seq1 + j + 1 <= INT64_MAX) seq2 ->
  getNextFrameSequence fuel (seq1 ++ map (Z.add (accumulator 0 seq1)) seq2) s =
  match getNextFrameSequence fuel seq1 s with
  | Ret (V_value fs1, s1) =>
      match getNextFrameSequence fuel seq2 s1 with
      | Ret (V_value fs2, s2) => Ret (V_value (fs1 ++ fs2), s2)
      | Ret (V_bool _, s2) => Ret (V_bool false, s2)
      | Fault e => Fault e
      end
  | Ret (V_bool _, s1) => Ret (V_bool false, s1)
  | Fault e => Fault e
  end.
Proof.
  intros H1 H2. unfold getNextFrameSequence.
  rewrite sequenceLoop_app by exact H1.
  destruct (sequenceLoop fuel seq1 0 [] s) as [[[x|fs1] s1]|e]; try reflexivity.
  rewrite <- (Z.add_0_l (accumulator 0 seq1)) at 2.
  rewrite sequenceLoop_shift by exact H2.
  apply sequenceLoop_acc.
Qed.

End SequenceFacts.

(** X17.  A frame handed from one [FramePtr] to another by the move
    constructor is freed exactly once when both holders are destroyed, and a
    null holder frees nothing.  Assignment hands the frame over in the same
    way but does not free the frame the assigned holder held before: after
    both holders are destroyed that frame has not been passed to
    [av_frame_free]. *)
Theorem FramePtr_move_frees_once_assign_leaks (a b : nat) (freed : list nat) :
  (let '(q, p) := FramePtr.move (FramePtr.make (Some a)) in
   FramePtr.destroy q (FramePtr.destroy p freed) = a :: freed)
  /\ FramePtr.destroy (FramePtr.make None) freed = freed
  /\ (let '(q, p) := FramePtr.assign (FramePtr.make (Some a))
                       (FramePtr.make (Some b)) in
      FramePtr.destroy q (FramePtr.destroy p freed) = b :: freed
      /\ (a <> b -> a ∉ freed ->
          a ∉ FramePtr.destroy q (FramePtr.destroy p freed))).
Proof.
  repeat split. simpl. intros Hab Hin Hc.
  apply elem_of_cons in Hc as [?|?]; [congruence | contradiction].
Qed.

Section OriginFacts.
Context {World : Type}.
Implicit Types s : Stream World.

Lemma rescale_zero b c : 0 <= b -> 0 < c -> av_rescale_rnd_near_inf 0 b c = 0.
Proof.
  intros Hb Hc.
  assert (Hz : (0 * b + c / 2) / c = 0).
  { rewrite Z.mul_0_l, Z.add_0_l.
    apply Z.div_small. split; [apply Z.div_pos; lia | apply Z.div_lt; lia]. }
  rewrite rescale_nonneg; try lia. rewrite Hz. unfold INT64_MAX. lia.
Qed.

(** X18.  The start timestamp is the origin of both scales: with a positive
    time base and frame rate it converts to 0 microseconds and to frame 0
    (what the decode test expects of the first frame), and 0 microseconds
    and frame 0 convert back to it. *)
Theorem start_timestamp_is_origin s :
  let tb := time_base (fmt_stream s) in
  let fr := r_frame_rate (fmt_stream s) in
  0 < num tb -> 0 < den tb -> 0 < num fr -> 0 < den fr ->
  INT64_MIN <= m_startTimeStamp s <= INT64_MAX ->
  timeStampToTime s (m_startTimeStamp s) = 0
  /\ timeStampToFrame s (m_startTimeStamp s) = 0
  /\ timeToTimeStamp s 0 = m_startTimeStamp s
  /\ frameToTimeStamp s 0 = m_startTimeStamp s
  /\ (forall a,
        best_effort_timestamp a = m_startTimeStamp s ->
        forall f, stamped s f -> m_frame f = Some a ->
        Frame_getTimeStamp f = 0 /\ Frame_getFrameNumber f = 0).
Proof.
  intros tb fr Hnt Hdt Hnf Hdf Hs.
  assert (H0 : wrap64 (m_startTimeStamp s - m_startTimeStamp s) = 0)
    by (rewrite Z.sub_diag; reflexivity).
  assert (Ht : timeStampToTime s (m_startTimeStamp s) = 0).
  { unfold timeStampToTime, av_rescale_q. rewrite H0. simpl. fold tb.
    apply rescale_zero; unfold AV_TIME_BASE; lia. }
  assert (Hf : timeStampToFrame s (m_startTimeStamp s) = 0).
  { unfold timeStampToFrame, av_rescale_q, av_inv_q. rewrite H0. simpl.
    fold tb. fold fr. apply rescale_zero; nia. }
  split; [exact Ht|]. split; [exact Hf|]. split; [|split].
  - unfold timeToTimeStamp, av_rescale_q. simpl. fold tb.
    rewrite rescale_zero by (unfold AV_TIME_BASE; lia).
    rewrite Z.add_0_r. now apply wrap64_small.
  - unfold frameToTimeStamp, av_rescale_q, av_inv_q. simpl. fold tb. fold fr.
    rewrite rescale_zero by nia.
    rewrite Z.add_0_r. now apply wrap64_small.
  - intros a Ha f [a' [Ea [Hts Hfn]]] Ef.
    rewrite Ea in Ef. inversion Ef; subst a'.
    unfold Frame_getTimeStamp, Frame_getFrameNumber.
    rewrite Hts, Hfn, Ha. auto.
Qed.

End OriginFacts.

(* ===================================================================== *)
(** ** The further theorems at work on the small container *)
(* ===================================================================== *)

Lemma fresh_stream_cursor_ok : cursor_ok (Toy.stream Toy.ms10).
Proof.
  split.
  - change (0 <= 0)%nat. lia.
  - change (Forall (stamped (Toy.stream Toy.ms10)) []). constructor.
Qed.

(** X1 on the fresh stream. *)
Lemma cursor_invariant_kept_witness :
  cursor_ok (Toy.stream Toy.ms10)
  /\ cursor_ok (popFrame (Toy.stream Toy.ms10))
  /\ (forall r s', getNextFrame 20 (Toy.stream Toy.ms10) = Ret (r, s') ->
        cursor_ok s')
  /\ (forall b s', seek 20 100000 (Toy.stream Toy.ms10) = Ret (b, s') ->
        cursor_ok s').
Proof.
  pose proof fresh_stream_cursor_ok as Hc.
  destruct (proj2 (cursor_invariant_kept 20 (Toy.stream Toy.ms10)) Hc)
    as (Hp & _ & Hg & _ & Hs & _).
  split; [exact Hc|]. split; [exact Hp|]. split; [exact Hg | exact (Hs 100000)].
Defined.

(** X2 on the fresh stream: the first frame read is a decoded frame. *)
Lemma reads_return_decoded_frames_witness :
  cursor_ok (Toy.stream Toy.ms10)
  /\ exists f s',
       getNextFrame 20 (Toy.stream Toy.ms10) = Ret (V_value f, s')
       /\ stamped (Toy.stream Toy.ms10) f.
Proof.
  pose proof fresh_stream_cursor_ok as Hc. split; [exact Hc|].
  destruct (getNextFrame 20 (Toy.stream Toy.ms10)) as [[[b|f] s']|e] eqn:E;
    try (vm_compute in E; discriminate).
  exists f, s'. split; [reflexivity|].
  exact (proj2 (proj2 (proj2 (reads_return_decoded_frames 20
                                (Toy.stream Toy.ms10) Hc))) f s' E).
Defined.

(** X3 on the fresh stream: the first block is full (two frames). *)
Lemma decodeNextBlock_block_witness :
  exists s',
    decodeNextBlock 20 (Toy.stream Toy.ms10) = Ret (true, s')
    /\ m_bufferPing s' = []
    /\ Forall (stamped s') (m_bufferPong s')
    /\ length (m_bufferPong s') = 2%nat.
Proof.
  destruct (decodeNextBlock 20 (Toy.stream Toy.ms10)) as [[b s']|e] eqn:E;
    [|vm_compute in E; discriminate].
  assert (Hb : b = true) by (vm_compute in E; inversion E; reflexivity).
  subst b. exists s'. split; [reflexivity|].
  destruct (decodeNextBlock_block 20 (Toy.stream Toy.ms10) true s' E)
    as (Hp & _ & Hf & _).
  split; [exact Hp|]. split; [exact Hf|].
  vm_compute in E. inversion E. reflexivity.
Defined.

(** X4: a seek to 100000 us on the fresh stream lands on the frame stamped
    100000 us. *)
Lemma seek_lands_on_bracketing_frame_witness :
  exists s' f,
    seek 20 100000 (Toy.stream Toy.ms10) = Ret (true, s')
    /\ m_bufferPing s' !! m_bufferPingHead s' = Some f
    /\ brackets_time s' 100000 f.
Proof.
  destruct (seek 20 100000 (Toy.stream Toy.ms10)) as [[b s']|e] eqn:E;
    [|vm_compute in E; discriminate].
  assert (Hb : b = true) by (vm_compute in E; inversion E; reflexivity).
  subst b.
  destruct (seek_lands_on_bracketing_frame 20 100000 (Toy.stream Toy.ms10) s' E)
    as [f [Hf [Hbr _]]].
  exists s', f. split; [reflexivity|]. split; [exact Hf | exact Hbr].
Defined.

(** X5: a seek to frame 5 on a demuxer that seeks by frame lands on
    frame 5. *)
Lemma seekFrame_lands_on_target_witness :
  exists s' f,
    seekFrame 20 5 indexed_stream = Ret (true, s')
    /\ m_bufferPing s' !! m_bufferPingHead s' = Some f
    /\ (5 <= Frame_getFrameNumber f
        \/ brackets_time s' (frameToTime indexed_stream 5) f).
Proof.
  destruct (seekFrame 20 5 indexed_stream) as [[b s']|e] eqn:E;
    [|vm_compute in E; discriminate].
  assert (Hb : b = true) by (vm_compute in E; inversion E; reflexivity).
  subst b.
  destruct (seekFrame_lands_on_target 20 5 indexed_stream s' E)
    as [f [Hf [Hbr _]]].
  exists s', f. split; [reflexivity|]. split; [exact Hf | exact Hbr].
Defined.

(** X6: the seek to 100000 us asked the demuxer once. *)
Lemma seek_asks_the_demuxer_once_witness :
  exists b s',
    seek 20 100000 (Toy.stream Toy.ms10) = Ret (b, s')
    /\ (seek_trace s' = seek_trace (Toy.stream Toy.ms10)
        \/ seek_trace s'
           = timeSeekCall (Toy.stream Toy.ms10) 100000
               :: seek_trace (Toy.stream Toy.ms10)).
Proof.
  destruct (seek 20 100000 (Toy.stream Toy.ms10)) as [[b s']|e] eqn:E;
    [|vm_compute in E; discriminate].
  exists b, s'. split; [reflexivity|].
  exact (proj1 (seek_asks_the_demuxer_once 20 100000 (Toy.stream Toy.ms10) b s' E)).
Defined.

(** X7: the seek to frame 5 where the demuxer rejects seeks by frame asked
    for one seek by frame and one by timestamp. *)
Lemma seekFrame_asks_the_demuxer_twice_witness :
  exists b s',
    seekFrame 20 5 (Toy.stream Toy.ms10) = Ret (b, s')
    /\ length (seek_trace s') = 2%nat
    /\ (seek_trace s' = seek_trace (Toy.stream Toy.ms10)
        \/ seek_trace s'
           = timeSeekCall (Toy.stream Toy.ms10)
               (frameToTime (Toy.stream Toy.ms10) 5)
               :: seek_trace (Toy.stream Toy.ms10)
        \/ (m_frameSeekSupported (Toy.stream Toy.ms10) = true
            /\ (seek_trace s'
                = frameSeekCall (Toy.stream Toy.ms10) 5
                    :: seek_trace (Toy.stream Toy.ms10)
                \/ seek_trace s'
                   = timeSeekCall (Toy.stream Toy.ms10)
                       (frameToTime (Toy.stream Toy.ms10) 5)
                       :: frameSeekCall (Toy.stream Toy.ms10) 5
                       :: seek_trace (Toy.stream Toy.ms10)))).
Proof.
  destruct (seekFrame 20 5 (Toy.stream Toy.ms10)) as [[b s']|e] eqn:E;
    [|vm_compute in E; discriminate].
  exists b, s'. split; [reflexivity|].
  split; [vm_compute in E; inversion E; reflexivity|].
  exact (seekFrame_asks_the_demuxer_twice 20 5 (Toy.stream Toy.ms10) b s' E).
Defined.

(** X8 on the latched stream (frames 0 and 1 buffered in order, head at
    frame 0): a seek to 20000 us, inside the display time of frame 0, and a
    seek to frame 0 change nothing.  On the stream that buffers frame 100
    before frame 0 the seek to frame 100, the head's own number, is out of
    the buffer's reach and asks the demuxer for a seek by frame. *)
Lemma seek_to_current_position_is_noop_witness :
  seek 20 20000 Toy.latched = Ret (true, Toy.latched)
  /\ seekFrame 20 0 Toy.latched = Ret (true, Toy.latched)
  /\ map Frame_getFrameNumber (m_bufferPing disordered_stream) = [100; 0]
  /\ m_bufferPingHead disordered_stream = 0%nat
  /\ frameTier disordered_stream 100 = DemuxerSeek
  /\ exists b s',
       seekFrame 20 100 disordered_stream = Ret (b, s')
       /\ exists new,
            seek_trace s'
            = new ++ frameSeekCall disordered_stream 100
                  :: seek_trace disordered_stream.
Proof.
  assert (Hf : m_bufferPing Toy.latched !! m_bufferPingHead Toy.latched
               = Some (mkFrame (Some (mkAVFrame 720 576 0)) 0 0))
    by (vm_compute; reflexivity).
  assert (Hb : last (m_bufferPing Toy.latched)
               = Some (mkFrame (Some (mkAVFrame 720 576 33)) 33000 1))
    by (vm_compute; reflexivity).
  destruct (seek_to_current_position_is_noop 19 Toy.latched _ _ Hf Hb)
    as (Ht & Hn & _).
  split.
  { apply Ht.
    - vm_compute. split; intros K; discriminate K.
    - right. vm_compute. split; reflexivity. }
  split.
  { apply Hn. left. vm_compute. intros K; discriminate K. }
  split; [vm_compute; reflexivity|].
  split; [vm_compute; reflexivity|].
  assert (Hf' : m_bufferPing disordered_stream !! m_bufferPingHead disordered_stream
                = Some (mkFrame (Some (mkAVFrame 720 576 3333)) 3333000 100))
    by (vm_compute; reflexivity).
  assert (Hb' : last (m_bufferPing disordered_stream)
                = Some (mkFrame (Some (mkAVFrame 720 576 0)) 0 0))
    by (vm_compute; reflexivity).
  destruct (seek_to_current_position_is_noop 19 disordered_stream _ _ Hf' Hb')
    as (_ & _ & Hfar).
  assert (H1 : Frame_getFrameNumber (mkFrame (Some (mkAVFrame 720 576 0)) 0 0)
               < Frame_getFrameNumber
                   (mkFrame (Some (mkAVFrame 720 576 3333)) 3333000 100))
    by reflexivity.
  assert (H2 : wrap64 (Frame_getFrameNumber (mkFrame (Some (mkAVFrame 720 576 0)) 0 0)
                       + wrapu32 (m_bufferLength disordered_stream * 2))
               < Frame_getFrameNumber
                   (mkFrame (Some (mkAVFrame 720 576 3333)) 3333000 100))
    by (vm_compute; reflexivity).
  destruct (Hfar H1 H2) as [Ht' Hcall].
  split; [exact Ht'|].
  destruct (seekFrame 20 100 disordered_stream) as [[b s']|e] eqn:E;
    [|vm_compute in E; discriminate E].
  exists b, s'. split; [reflexivity|].
  exact (Hcall eq_refl b s' E).
Defined.

(** X9 on the latched stream, with frames 0 and 1 in [ping]: a seek to a
    negative time is out of the buffer's reach and the demuxer rejects it;
    the two frames are still there, under the same head. *)
Lemma rejected_seek_keeps_buffers_witness :
  length (m_bufferPing Toy.latched) = 2%nat
  /\ exists s2,
       seek 20 (-1000000) Toy.latched = Ret (false, s2)
       /\ m_bufferPing s2 = m_bufferPing Toy.latched
       /\ m_bufferPong s2 = m_bufferPong Toy.latched
       /\ m_bufferPingHead s2 = m_bufferPingHead Toy.latched
       /\ seek_trace s2
          = timeSeekCall Toy.latched (-1000000) :: seek_trace Toy.latched.
Proof.
  split; [vm_compute; reflexivity|].
  destruct (demuxSeek (flushDecoder Toy.latched) INT64_MIN
              (wrap64 (timeToTimeStamp Toy.latched (-1000000)
                       + m_startTimeStamp Toy.latched))
              (wrap64 (timeToTimeStamp Toy.latched (-1000000)
                       + m_startTimeStamp Toy.latched)) 0)
    as [err s2] eqn:Ed.
  assert (Herr : err < 0) by (vm_compute in Ed; inversion Ed; lia).
  assert (Ht : timeTier Toy.latched (-1000000) = DemuxerSeek)
    by (vm_compute; reflexivity).
  exists s2.
  exact (rejected_seek_keeps_buffers 19 (-1000000) Toy.latched err s2 Ht Ed Herr).
Defined.

(** X10 at timestamp 67 of the millisecond stream. *)
Lemma timestamp_time_roundtrip_witness :
  timeToTimeStamp (Toy.stream Toy.ms10)
    (timeStampToTime (Toy.stream Toy.ms10) 67) = 67.
Proof.
  apply (timestamp_time_roundtrip (Toy.stream Toy.ms10) 67).
  - vm_compute. split; discriminate.
  - vm_compute. split; discriminate.
  - vm_compute. split; [reflexivity | discriminate].
  - vm_compute. discriminate.
Defined.

(** X11 at frame 7 of the 30 fps stream. *)
Lemma frame_time_roundtrip_witness :
  timeToFrame (Toy.stream Toy.ms10) (frameToTime (Toy.stream Toy.ms10) 7) = 7.
Proof.
  apply (frame_time_roundtrip (Toy.stream Toy.ms10) 7).
  - lia.
  - vm_compute. split; [reflexivity | discriminate].
  - vm_compute. discriminate.
Defined.

(** X12 at the timestamps 33 and 67 of the millisecond stream. *)
Lemma stamps_grow_with_timestamp_witness :
  timeStampToTime (Toy.stream Toy.ms10) 33
    <= timeStampToTime (Toy.stream Toy.ms10) 67
  /\ timeStampToFrame (Toy.stream Toy.ms10) 33
     <= timeStampToFrame (Toy.stream Toy.ms10) 67.
Proof.
  apply (stamps_grow_with_timestamp (Toy.stream Toy.ms10) 33 67);
    vm_compute; try reflexivity; try discriminate.
  split; discriminate.
Defined.

(** X13 on a stream without a declared start time whose codec reorders
    two frames: of the two packets the probe reads, stamped 73 (a [dts])
    and 40, the second gives the start time. *)
Lemma getStreamStartTime_is_a_timestamp_witness :
  start_time (fmt_stream late_start_stream) = AV_NOPTS_VALUE
  /\ exists s',
       getStreamStartTime 20 late_start_stream = Ret (40, s')
       /\ 40 <> AV_NOPTS_VALUE
       /\ io_only late_start_stream s'
       /\ (40 = 0
           \/ exists k ret p w',
                readAfter k (rewound late_start_stream) = (ret, p, w')
                /\ 0 <= ret
                /\ stream_index p = m_index late_start_stream
                /\ startCandidate p = 40
                /\ forall j ret' p' w'',
                     (j < k)%nat ->
                     readAfter j (rewound late_start_stream) = (ret', p', w'') ->
                     stream_index p' = m_index late_start_stream ->
                     startCandidate p' <> AV_NOPTS_VALUE ->
                     40 < startCandidate p').
Proof.
  split; [reflexivity|].
  destruct (getStreamStartTime 20 late_start_stream) as [[r s']|e] eqn:E;
    [|vm_compute in E; discriminate E].
  assert (Hr : r = 40) by (vm_compute in E; inversion E; reflexivity).
  subst r. exists s'. split; [reflexivity|].
  destruct (getStreamStartTime_is_a_timestamp 20 late_start_stream 40 s' E)
    as (Hv & Hio & _ & Hc).
  split; [exact Hv|]. split; [exact Hio|]. exact (Hc eq_refl).
Defined.

(** X14 on the stream whose packets carry no [pts]. *)
Lemma scan_not_below_start_witness :
  exists found s',
    scanLastTimeStamp 20 Toy.dts_only = Ret (Some found, s')
    /\ m_startTimeStamp Toy.dts_only <= found.
Proof.
  destruct (scanLastTimeStamp 20 Toy.dts_only) as [[[found|] s']|e] eqn:E;
    try (vm_compute in E; discriminate).
  exists found, s'. split; [reflexivity|].
  exact (proj1 (scan_not_below_start 20 Toy.dts_only found s' E)).
Defined.

(** X15 on the container of 10 s that starts at 0. *)
Lemma probe_correction_is_start_witness :
  getStreamDuration 0 Toy.disagreeing = Ret (10000000, Toy.disagreeing).
Proof.
  assert (Hs : - 2 ^ 62 <= m_startTimeStamp Toy.disagreeing < 2 ^ 62)
    by (vm_compute; split; [discriminate | reflexivity]).
  destruct (probe_correction_is_start 0 Toy.disagreeing Hs) as (_ & _ & _ & H).
  apply H.
  - vm_compute. split; [reflexivity | discriminate].
  - reflexivity.
  - reflexivity.
  - vm_compute. discriminate.
Defined.

(** X16: [0; 2; 3; 4] is [0; 2] followed by [0; 1] moved up by 3. *)
Lemma getNextFrameSequence_split_witness :
  getNextFrameSequence 20 [0; 2; 3; 4] (Toy.stream Toy.ms10) =
  match getNextFrameSequence 20 [0; 2] (Toy.stream Toy.ms10) with
  | Ret (V_value fs1, s1) =>
      match getNextFrameSequence 20 [0; 1] s1 with
      | Ret (V_value fs2, s2) => Ret (V_value (fs1 ++ fs2), s2)
      | Ret (V_bool _, s2) => Ret (V_bool false, s2)
      | Fault e => Fault e
      end
  | Ret (V_bool _, s1) => Ret (V_bool false, s1)
  | Fault e => Fault e
  end.
Proof.
  apply (getNextFrameSequence_split 20 [0; 2] [0; 1] (Toy.stream Toy.ms10)).
  - repeat constructor; vm_compute; discriminate.
  - repeat constructor; vm_compute; discriminate.
Defined.

(** X17 with frames 1 and 2 and nothing freed before. *)
Lemma FramePtr_move_frees_once_assign_leaks_witness :
  1%nat ∉ FramePtr.destroy (fst (FramePtr.assign (Some 1%nat) (Some 2%nat)))
            (FramePtr.destroy (snd (FramePtr.assign (Some 1%nat) (Some 2%nat))) []).
Proof.
  destruct (FramePtr_move_frees_once_assign_leaks 1 2 []) as (_ & _ & _ & H).
  apply H; [lia | apply not_elem_of_nil].
Defined.

(** X18 on the millisecond stream, which starts at 0. *)
Lemma start_timestamp_is_origin_witness :
  timeStampToTime (Toy.stream Toy.ms10) 0 = 0
  /\ timeStampToFrame (Toy.stream Toy.ms10) 0 = 0
  /\ timeToTimeStamp (Toy.stream Toy.ms10) 0 = 0
  /\ frameToTimeStamp (Toy.stream Toy.ms10) 0 = 0.
Proof.
  destruct (start_timestamp_is_origin (Toy.stream Toy.ms10))
    as (H1 & H2 & H3 & H4 & _); try reflexivity.
  - vm_compute. split; discriminate.
  - split; [exact H1|]. split; [exact H2|]. split; [exact H3 | exact H4].
Defined.
